(** * The generation task pipeline of the drama backend

    A shallow embedding of the services that drive asynchronous generation
    jobs (storyboards, frame prompts, images, scene extraction, characters):
    [StoryboardService], [FramePromptService], [ImageGenerationService] and
    [ScriptGenerationService].

    The Go code is stateful: it talks to a relational store through an ORM,
    to a task registry, to text and image providers and to a logger.  All of
    that is written here as explicit state passing over a [World]; the answers
    of the collaborators that the services do not control (provider replies,
    storage failures) come from an [Env]. *)

From Stdlib Require Import ZArith String Ascii List Lia DecimalString.
From stdpp Require Import base gmap strings list.

Local Open Scope string_scope.
Local Open Scope Z_scope.

(** ** Go values *)

(** A Go [(T, error)] pair: either the value or the error's message. *)
Inductive Result (A : Type) : Type :=
| Ok (a : A)
| Err (e : string).
Arguments Ok {A} a.
Arguments Err {A} e.

(** How a Go function leaves: it returns, or a run-time panic unwinds it. *)
Inductive Exit (A : Type) : Type :=
| Returned (a : A)
| Panicked (msg : string).
Arguments Returned {A} a.
Arguments Panicked {A} msg.

Definition is_ok {A} (r : Result A) : bool :=
  match r with Ok _ => true | Err _ => false end.

Definition result_value {A} (r : Result A) : option A :=
  match r with Ok a => Some a | Err _ => None end.

Definition rbind {A B} (r : Result A) (k : A -> Result B) : Result B :=
  match r with Ok a => k a | Err e => Err e end.

Notation "'let?' x := r 'in' k" := (rbind r (fun x => k))
  (at level 10, x name, r at level 100, k at level 200).

Fixpoint rmap {A B} (f : A -> Result B) (l : list A) : Result (list B) :=
  match l with
  | [] => Ok []
  | a :: rest =>
      let? b := f a in
      let? bs := rmap f rest in
      Ok (b :: bs)
  end.

(** Go's [int] and [uint] on a 64-bit platform. *)
Definition int_bits : Z := 64.
Definition int_min : Z := - 2 ^ 63.
Definition int_max : Z := 2 ^ 63 - 1.
Definition uint_max : Z := 2 ^ 64 - 1.

(** Two's complement wrap-around of a mathematical integer into [int]. *)
Definition wrap_int (z : Z) : Z := (z + 2 ^ 63) mod 2 ^ 64 - 2 ^ 63.

Definition int_add (a b : Z) : Z := wrap_int (a + b).

(** Go's [/] on [int] truncates toward zero. *)
Definition int_div (a b : Z) : Z := wrap_int (Z.quot a b).

(** [len(x) == 0] and friends. *)
Definition len {A} (l : list A) : Z := Z.of_nat (length l).

Definition nl : string := String "010"%char EmptyString.

(** [strings.Join]. *)
Definition Join (parts : list string) (sep : string) : string :=
  String.concat sep parts.

(** [fmt.Sprintf("%d", n)]. *)
Definition sprint_d (n : Z) : string := NilZero.string_of_int (Z.to_int n).

Definition is_digit (c : ascii) : bool :=
  let n := nat_of_ascii c in (48 <=? n)%nat && (n <=? 57)%nat.

Definition digit_value (c : ascii) : Z := Z.of_nat (nat_of_ascii c) - 48.

Fixpoint parse_digits (s : string) (acc : Z) : option Z :=
  match s with
  | EmptyString => Some acc
  | String c rest =>
      if is_digit c then parse_digits rest (10 * acc + digit_value c) else None
  end.

(** [strconv.ParseUint(s, 10, bits)]: decimal digits only, no sign, not
    empty, and the value must fit [bits] bits. *)
Definition ParseUint (s : string) (bits : Z) : Result Z :=
  match s with
  | EmptyString => Err "strconv.ParseUint: invalid syntax"
  | _ =>
      match parse_digits s 0 with
      | None => Err "strconv.ParseUint: invalid syntax"
      | Some n =>
          if n <? 2 ^ bits then Ok n
          else Err "strconv.ParseUint: value out of range"
      end
  end.

(** How the store compares an integer key column with a string argument
    ([Where("id = ?", episodeID)], [First(&row, idString)]): the argument
    denotes the number it spells. *)
Definition sql_key (s : string) : option Z :=
  result_value (ParseUint s 64).

Definition key_is (s : string) (id : Z) : bool :=
  match sql_key s with Some n => n =? id | None => false end.

(** ** JSON as the decoder sees it

    [encoding/json] turns a document into typed Go values.  The syntax tree
    below is what the decoder walks; number literals are integers (a
    fractional literal is [JFrac], which no integer field accepts). *)
#[local] Unset Elimination Schemes.
Inductive json : Type :=
| JNull
| JBool (b : bool)
| JNum (n : Z)
| JFrac
| JStr (s : string)
| JArr (items : list json)
| JObj (fields : list (string * json)).
#[local] Set Elimination Schemes.

Definition lower_ascii (c : ascii) : ascii :=
  let n := nat_of_ascii c in
  if (65 <=? n)%nat && (n <=? 90)%nat then ascii_of_nat (n + 32) else c.

Fixpoint lower (s : string) : string :=
  match s with
  | EmptyString => EmptyString
  | String c rest => String (lower_ascii c) (lower rest)
  end.

(** A struct field tagged [name] takes the object keys that equal the tag
    up to letter case. *)
Definition key_matches (name key : string) : bool :=
  String.eqb (lower key) (lower name).

(** Decoders take the JSON value and the field's current content: a JSON
    [null] leaves a scalar as it is and resets a pointer or slice to nil. *)
Definition dec_string (j : json) (old : string) : Result string :=
  match j with
  | JStr s => Ok s
  | JNull => Ok old
  | _ => Err "json: cannot unmarshal into Go value of type string"
  end.

Definition dec_int (j : json) (old : Z) : Result Z :=
  match j with
  | JNum n =>
      if (int_min <=? n) && (n <=? int_max) then Ok n
      else Err "json: cannot unmarshal number into Go value of type int"
  | JNull => Ok old
  | _ => Err "json: cannot unmarshal into Go value of type int"
  end.

Definition dec_uint (j : json) (old : Z) : Result Z :=
  match j with
  | JNum n =>
      if (0 <=? n) && (n <=? uint_max) then Ok n
      else Err "json: cannot unmarshal number into Go value of type uint"
  | JNull => Ok old
  | _ => Err "json: cannot unmarshal into Go value of type uint"
  end.

Definition dec_bool (j : json) (old : bool) : Result bool :=
  match j with
  | JBool b => Ok b
  | JNull => Ok old
  | _ => Err "json: cannot unmarshal into Go value of type bool"
  end.

Definition dec_uint_ptr (j : json) (old : option Z) : Result (option Z) :=
  match j with
  | JNull => Ok None
  | _ => let? n := dec_uint j 0 in Ok (Some n)
  end.

(** Decoding into a slice: an array decodes element by element, [null]
    gives the nil slice, anything else (an object in particular) is a type
    error. *)
Definition dec_slice {A} (dec : json -> Result A) (j : json) : Result (list A) :=
  match j with
  | JArr items => rmap dec items
  | JNull => Ok []
  | _ => Err "json: cannot unmarshal into Go value of slice type"
  end.

Definition dec_uints (j : json) (old : list Z) : Result (list Z) :=
  dec_slice (fun x => dec_uint x 0) j.

Definition dec_ints (j : json) (old : list Z) : Result (list Z) :=
  dec_slice (fun x => dec_int x 0) j.

(** The content of the struct field tagged [name] after the decoder has
    gone through the object's members in order: every member whose key
    matches is decoded into the field, later ones over earlier ones. *)
Fixpoint field {A} (dec : json -> A -> Result A) (name : string)
    (fields : list (string * json)) (acc : A) : Result A :=
  match fields with
  | [] => Ok acc
  | (k, v) :: rest =>
      if key_matches name k then
        let? a := dec v acc in field dec name rest a
      else field dec name rest acc
  end.

(** Decoding into a struct: only an object (or [null], which leaves the
    zero value) is accepted; an array is a type error. *)
Definition dec_struct {A} (zero : A)
    (of_fields : list (string * json) -> Result A) (j : json) : Result A :=
  match j with
  | JObj fields => of_fields fields
  | JNull => Ok zero
  | _ => Err "json: cannot unmarshal into Go value of struct type"
  end.

(** ** What the text model is asked to return *)

(** [Storyboard]: one shot of the episode breakdown as the model returns it. *)
Record Storyboard : Type := mkStoryboard {
  sb_ShotNumber : Z;
  sb_Title : string;
  sb_ShotType : string;
  sb_Angle : string;
  sb_Time : string;
  sb_Location : string;
  sb_SceneID : option Z;
  sb_Movement : string;
  sb_Action : string;
  sb_Dialogue : string;
  sb_Result : string;
  sb_Atmosphere : string;
  sb_Emotion : string;
  sb_Duration : Z;
  sb_BgmPrompt : string;
  sb_SoundEffect : string;
  sb_Characters : list Z;
  sb_IsPrimary : bool
}.

Definition zeroStoryboard : Storyboard :=
  mkStoryboard 0 "" "" "" "" "" None "" "" "" "" "" "" 0 "" "" [] false.

Definition storyboard_of_fields (fs : list (string * json)) : Result Storyboard :=
  let? shot := field dec_int "shot_number" fs 0 in
  let? title := field dec_string "title" fs "" in
  let? shotType := field dec_string "shot_type" fs "" in
  let? angle := field dec_string "angle" fs "" in
  let? time := field dec_string "time" fs "" in
  let? location := field dec_string "location" fs "" in
  let? sceneID := field dec_uint_ptr "scene_id" fs None in
  let? movement := field dec_string "movement" fs "" in
  let? action := field dec_string "action" fs "" in
  let? dialogue := field dec_string "dialogue" fs "" in
  let? result := field dec_string "result" fs "" in
  let? atmosphere := field dec_string "atmosphere" fs "" in
  let? emotion := field dec_string "emotion" fs "" in
  let? duration := field dec_int "duration" fs 0 in
  let? bgm := field dec_string "bgm_prompt" fs "" in
  let? sound := field dec_string "sound_effect" fs "" in
  let? chars := field dec_uints "characters" fs [] in
  let? primary := field dec_bool "is_primary" fs false in
  Ok (mkStoryboard shot title shotType angle time location sceneID movement
        action dialogue result atmosphere emotion duration bgm sound chars
        primary).

Definition decodeStoryboard : json -> Result Storyboard :=
  dec_struct zeroStoryboard storyboard_of_fields.

(** [GenerateStoryboardResult]: the wrapper-object shape of the breakdown. *)
Record GenerateStoryboardResult : Type := mkGenerateStoryboardResult {
  Storyboards : list Storyboard;
  Total : Z
}.

Definition decodeGenerateStoryboardResult : json -> Result GenerateStoryboardResult :=
  dec_struct (mkGenerateStoryboardResult [] 0)
    (fun fs =>
       let? sbs := field (fun j _ => dec_slice decodeStoryboard j) "storyboards" fs [] in
       let? total := field dec_int "total" fs 0 in
       Ok (mkGenerateStoryboardResult sbs total)).

(** [BackgroundInfo]: one extracted scene background. *)
Record BackgroundInfo : Type := mkBackgroundInfo {
  bg_Location : string;
  bg_Time : string;
  bg_Atmosphere : string;
  bg_Prompt : string;
  bg_StoryboardNumbers : list Z;
  bg_SceneIDs : list Z;
  bg_StoryboardCount : Z
}.

Definition background_of_fields (fs : list (string * json)) : Result BackgroundInfo :=
  let? location := field dec_string "location" fs "" in
  let? time := field dec_string "time" fs "" in
  let? atmosphere := field dec_string "atmosphere" fs "" in
  let? prompt := field dec_string "prompt" fs "" in
  let? numbers := field dec_ints "storyboard_numbers" fs [] in
  let? ids := field dec_uints "scene_ids" fs [] in
  let? count := field dec_int "scene_count" fs 0 in
  Ok (mkBackgroundInfo location time atmosphere prompt numbers ids count).

Definition decodeBackgroundInfo : json -> Result BackgroundInfo :=
  dec_struct (mkBackgroundInfo "" "" "" "" [] [] 0) background_of_fields.

(** The anonymous wrapper [struct { Backgrounds []BackgroundInfo }] of
    [extractBackgroundsFromScript]. *)
Definition decodeBackgroundsWrapper : json -> Result (list BackgroundInfo) :=
  dec_struct []
    (fun fs => field (fun j _ => dec_slice decodeBackgroundInfo j) "backgrounds" fs []).

(** The anonymous character struct of [processCharacterGeneration]. *)
Record ParsedCharacter : Type := mkParsedCharacter {
  pc_Name : string;
  pc_Role : string;
  pc_Description : string;
  pc_Personality : string;
  pc_Appearance : string;
  pc_VoiceStyle : string
}.

Definition decodeParsedCharacter : json -> Result ParsedCharacter :=
  dec_struct (mkParsedCharacter "" "" "" "" "" "")
    (fun fs =>
       let? name := field dec_string "name" fs "" in
       let? role := field dec_string "role" fs "" in
       let? description := field dec_string "description" fs "" in
       let? personality := field dec_string "personality" fs "" in
       let? appearance := field dec_string "appearance" fs "" in
       let? voice := field dec_string "voice_style" fs "" in
       Ok (mkParsedCharacter name role description personality appearance voice)).

(** ** Frame prompts *)

Definition FrameType : Type := string.
Definition FrameTypeFirst : FrameType := "first".
Definition FrameTypeKey : FrameType := "key".
Definition FrameTypeLast : FrameType := "last".
Definition FrameTypePanel : FrameType := "panel".
Definition FrameTypeAction : FrameType := "action".

Record GenerateFramePromptRequest : Type := mkGenerateFramePromptRequest {
  req_StoryboardID : string;
  req_FrameType : FrameType;
  req_PanelCount : Z
}.

Record SingleFramePrompt : Type := mkSingleFramePrompt {
  Prompt : string;
  Description : string
}.

Record MultiFramePrompt : Type := mkMultiFramePrompt {
  Layout : string;
  Frames : list SingleFramePrompt
}.

Record FramePromptResponse : Type := mkFramePromptResponse {
  resp_FrameType : FrameType;
  SingleFrame : option SingleFramePrompt;
  MultiFrame : option MultiFramePrompt
}.

(** ** Image providers *)

(** [image.ImageResult]: what a provider answers to a generation or a
    status call. *)
Record ImageResult : Type := mkImageResult {
  ir_Completed : bool;
  ir_ImageURL : string;
  ir_TaskID : string;
  ir_Error : string;
  ir_Width : Z;
  ir_Height : Z
}.

(** [models.AIServiceConfig], the fields client resolution reads. *)
Record AIServiceConfig : Type := mkAIServiceConfig {
  cfg_Provider : string;
  cfg_BaseURL : string;
  cfg_APIKey : string;
  cfg_Model : list string
}.

(** The concrete image adapters [getImageClientWithModel] can build. *)
Inductive ImageClient : Type :=
| NewOpenAIImageClient (baseURL apiKey model endpoint : string)
| NewVolcEngineImageClient (baseURL apiKey model endpoint queryEndpoint : string)
| NewGeminiImageClient (baseURL apiKey model endpoint : string).

(** ** The relational store

    The ORM models ([domain/models]) are not among the sources; the records
    below hold the columns the services read or write. *)

Record Episode : Type := mkEpisode {
  ep_ID : Z;
  ep_DramaID : Z;
  ep_EpisodeNum : Z;
  ep_Title : string;
  ep_ScriptContent : option string;
  ep_Duration : Z
}.

Record StoryboardRow : Type := mkStoryboardRow {
  st_ID : Z;
  st_EpisodeID : Z;
  st_SceneID : option Z;
  st_StoryboardNumber : Z;
  st_Title : option string;
  st_Location : option string;
  st_Time : option string;
  st_ShotType : option string;
  st_Angle : option string;
  st_Movement : option string;
  st_Description : option string;
  st_Action : option string;
  st_Result : option string;
  st_Atmosphere : option string;
  st_Dialogue : option string;
  st_ImagePrompt : option string;
  st_VideoPrompt : option string;
  st_BgmPrompt : option string;
  st_SoundEffect : option string;
  st_Duration : Z;
  st_ComposedImage : option string
}.

Record Scene : Type := mkScene {
  sc_ID : Z;
  sc_DramaID : Z;
  sc_EpisodeID : option Z;
  sc_Location : string;
  sc_Time : string;
  sc_Prompt : string;
  sc_StoryboardCount : Z;
  sc_Status : string;
  sc_ImageURL : option string
}.

Record ImageGeneration : Type := mkImageGeneration {
  ig_ID : Z;
  ig_StoryboardID : option Z;
  ig_SceneID : option Z;
  ig_CharacterID : option Z;
  ig_ImageType : string;
  ig_Status : string;
  ig_TaskID : option string;
  ig_ImageURL : option string;
  ig_ErrorMsg : option string;
  ig_Width : option Z;
  ig_Height : option Z;
  ig_CompletedAt : option Z
}.

Record Character : Type := mkCharacter {
  ch_ID : Z;
  ch_DramaID : Z;
  ch_Name : string;
  ch_Role : option string;
  ch_Description : option string;
  ch_Personality : option string;
  ch_Appearance : option string;
  ch_VoiceStyle : option string;
  ch_ImageURL : option string
}.

Record FramePrompt : Type := mkFramePrompt {
  fp_ID : Z;
  fp_StoryboardID : Z;
  fp_FrameType : string;
  fp_Prompt : string;
  fp_Description : option string;
  fp_Layout : option string
}.

Record Drama : Type := mkDrama {
  dr_ID : Z;
  dr_Title : string;
  dr_Description : string;
  dr_Genre : string
}.

Record DB : Type := mkDB {
  dramas : list Drama;
  episodes : list Episode;
  storyboards : list StoryboardRow;
  storyboard_characters : list (Z * Z);
  scenes : list Scene;
  image_generations : list ImageGeneration;
  characters : list Character;
  episode_characters : list (Z * Z);
  frame_prompts : list FramePrompt
}.

Definition with_episodes (x : list Episode) (d : DB) : DB :=
  mkDB (dramas d) x (storyboards d) (storyboard_characters d) (scenes d)
    (image_generations d) (characters d) (episode_characters d) (frame_prompts d).

Definition with_storyboards (x : list StoryboardRow) (d : DB) : DB :=
  mkDB (dramas d) (episodes d) x (storyboard_characters d) (scenes d)
    (image_generations d) (characters d) (episode_characters d) (frame_prompts d).

Definition with_storyboard_characters (x : list (Z * Z)) (d : DB) : DB :=
  mkDB (dramas d) (episodes d) (storyboards d) x (scenes d)
    (image_generations d) (characters d) (episode_characters d) (frame_prompts d).

Definition with_scenes (x : list Scene) (d : DB) : DB :=
  mkDB (dramas d) (episodes d) (storyboards d) (storyboard_characters d) x
    (image_generations d) (characters d) (episode_characters d) (frame_prompts d).

Definition with_image_generations (x : list ImageGeneration) (d : DB) : DB :=
  mkDB (dramas d) (episodes d) (storyboards d) (storyboard_characters d) (scenes d)
    x (characters d) (episode_characters d) (frame_prompts d).

Definition with_characters (x : list Character) (d : DB) : DB :=
  mkDB (dramas d) (episodes d) (storyboards d) (storyboard_characters d) (scenes d)
    (image_generations d) x (episode_characters d) (frame_prompts d).

Definition with_episode_characters (x : list (Z * Z)) (d : DB) : DB :=
  mkDB (dramas d) (episodes d) (storyboards d) (storyboard_characters d) (scenes d)
    (image_generations d) (characters d) x (frame_prompts d).

Definition with_frame_prompts (x : list FramePrompt) (d : DB) : DB :=
  mkDB (dramas d) (episodes d) (storyboards d) (storyboard_characters d) (scenes d)
    (image_generations d) (characters d) (episode_characters d) x.

(** The key an auto-increment column gives the next inserted row. *)
Definition next_id (ids : list Z) : Z := 1 + foldr Z.max 0 ids.

(** ** The task registry's records *)

Inductive TaskResult : Type :=
| StoryboardsGenerated (storyboards : list Storyboard)
    (total total_duration duration_minutes : Z)
| FramePromptGenerated (response : FramePromptResponse)
    (storyboard_id frame_type : string)
| CharactersGenerated (chars : list Character) (count : Z)
| ScenesExtracted (extracted : list Scene) (count : Z) (episode_id : string)
    (drama_id : Z).

Record AsyncTask : Type := mkAsyncTask {
  task_Type : string;
  task_ResourceID : string;
  task_Status : string;
  task_Progress : Z;
  task_Message : string;
  task_Error : string;
  task_Result : option TaskResult
}.

Definition is_terminal (status : string) : bool :=
  String.eqb status "completed" || String.eqb status "failed".

(** ** The world a service runs in *)

Inductive Level : Type := Info | Warn | Error.

Inductive TextOption : Type :=
| WithMaxTokens (n : Z)
| WithTemperature (hundredths : Z).

(** Calls that leave the process, in the order they are made. *)
Inductive Event : Type :=
| EvGenerateText (client : option string) (prompt systemPrompt : string)
    (opts : list TextOption)
| EvSleep (seconds : Z)
| EvGetTaskStatus (client : ImageClient) (taskID : string)
| EvDownloadFromURL (url dir : string).

Record World : Type := mkWorld {
  tasks : gmap string AsyncTask;   (* the task registry *)
  task_ops : nat;                  (* writes sent to the registry so far *)
  db : DB;                         (* the relational store *)
  stmts : nat;                     (* statements sent to the store so far *)
  logs : list (Level * string);    (* newest first *)
  events : list Event;             (* newest first *)
  clock : Z                        (* seconds *)
}.

Definition is_text_call (e : Event) : bool :=
  match e with EvGenerateText _ _ _ _ => true | _ => false end.

Definition is_status_call (e : Event) : bool :=
  match e with EvGetTaskStatus _ _ => true | _ => false end.

Definition text_calls (w : World) : nat :=
  length (List.filter is_text_call (events w)).

Definition status_calls (w : World) : nat :=
  length (List.filter is_status_call (events w)).

(** The prompt catalogue ([PromptI18n]) is not among the sources. *)
Record PromptI18n : Type := mkPromptI18n {
  GetFirstFramePrompt : string;
  GetKeyFramePrompt : string;
  GetLastFramePrompt : string;
  GetSceneExtractionPrompt : string -> string;
  GetCharacterExtractionPrompt : string;
  FormatUserPrompt : string -> list string -> string;
  IsEnglish : bool
}.

(** What the collaborators answer.  A run of a service is a function of
    the [World] it starts in and of the [Env] it meets. *)
Record Env : Type := mkEnv {
  store_fault : nat -> bool;        (* the n-th store statement errors *)
  registry_fault : nat -> bool;     (* the n-th registry write errors *)
  GetAIClientForModel : string -> string -> Result string;
  GetAIClient : string -> Result string;
  text_reply : nat -> Result string;   (* answer to the n-th text call *)
  extractJSON : string -> option json;
  parseFramePromptJSON : string -> option SingleFramePrompt;
  status_reply : nat -> Result ImageResult; (* answer to the n-th status call *)
  localStorage : option (string -> Result string);
  GetConfigForModel : string -> string -> Result AIServiceConfig;
  GetDefaultConfig : string -> Result AIServiceConfig;
  promptI18n : PromptI18n;
  generateImagePrompt : Storyboard -> string;
  generateVideoPrompt : Storyboard -> string
}.

(** ** State passing *)

Definition M (A : Type) : Type := World -> A * World.

Definition ret {A} (a : A) : M A := fun w => (a, w).

Definition bind {A B} (m : M A) (k : A -> M B) : M B :=
  fun w => let (a, w') := m w in k a w'.

Notation "'do' x <- m ;; k" := (bind m (fun x => k))
  (at level 10, x name, m at level 99, k at level 200).
Notation "'run' m ;; k" := (bind m (fun _ => k))
  (at level 10, m at level 99, k at level 200).

Definition with_tasks (t : gmap string AsyncTask) (w : World) : World :=
  mkWorld t (task_ops w) (db w) (stmts w) (logs w) (events w) (clock w).

Definition with_task_ops (n : nat) (w : World) : World :=
  mkWorld (tasks w) n (db w) (stmts w) (logs w) (events w) (clock w).

Definition with_db (d : DB) (w : World) : World :=
  mkWorld (tasks w) (task_ops w) d (stmts w) (logs w) (events w) (clock w).

Definition with_stmts (n : nat) (w : World) : World :=
  mkWorld (tasks w) (task_ops w) (db w) n (logs w) (events w) (clock w).

Definition with_logs (l : list (Level * string)) (w : World) : World :=
  mkWorld (tasks w) (task_ops w) (db w) (stmts w) l (events w) (clock w).

Definition with_events (e : list Event) (w : World) : World :=
  mkWorld (tasks w) (task_ops w) (db w) (stmts w) (logs w) e (clock w).

Definition with_clock (c : Z) (w : World) : World :=
  mkWorld (tasks w) (task_ops w) (db w) (stmts w) (logs w) (events w) c.

(** [s.log.Infow], [Warnw], [Errorw]: the message is kept, the key/value
    pairs are not. *)
Definition log (lvl : Level) (msg : string) : M unit :=
  fun w => (tt, with_logs ((lvl, msg) :: logs w) w).

Definition emit (e : Event) : M unit :=
  fun w => (tt, with_events (e :: events w) w).

(** [time.Sleep]. *)
Definition Sleep (seconds : Z) : M unit :=
  fun w => (tt, with_clock (clock w + seconds) (with_events (EvSleep seconds :: events w) w)).

(** [time.Now]. *)
Definition Now : M Z := fun w => (clock w, w).

(** Go's [if err != nil { return err }]. *)
Definition try_bind {A B} (m : M (Result A)) (k : A -> M (Result B)) : M (Result B) :=
  do r <- m ;;
  match r with
  | Ok a => k a
  | Err e => ret (Err e)
  end.

Notation "'try' x <- m ;; k" := (try_bind m (fun x => k))
  (at level 10, x name, m at level 99, k at level 200).

(** [if cond { body }] for a body that may return an error. *)
Definition when_ok (cond : bool) (body : M (Result unit)) : M (Result unit) :=
  if cond then body else ret (Ok tt).

Definition when (cond : bool) (body : M unit) : M unit :=
  if cond then body else ret tt.

Section Services.

Variable env : Env.

(** *** Statements against the store *)

(** One statement sent through the ORM: it errors when the store does, and
    otherwise answers from (and may change) the tables. *)
Definition stmt {A} (q : DB -> Result A * DB) : M (Result A) :=
  fun w =>
    let w1 := with_stmts (S (stmts w)) w in
    if store_fault env (stmts w) then (Err "store: statement failed", w1)
    else let (r, d) := q (db w) in (r, with_db d w1).

Definition query {A} (q : DB -> Result A) : M (Result A) :=
  stmt (fun d => (q d, d)).

Definition exec (u : DB -> DB) : M (Result unit) :=
  stmt (fun d => (Ok tt, u d)).

(** [db.Transaction(func(tx) error {...})]: the body's writes are kept only
    if the body and the commit both succeed; otherwise the tables are as
    they were when the transaction began. *)
Definition Transaction {A} (body : M (Result A)) : M (Result A) :=
  fun w =>
    let before := db w in
    let (rb, w1) := exec (fun d => d) w in
    match rb with
    | Err e => (Err e, w1)
    | Ok _ =>
        let (r, w2) := body w1 in
        match r with
        | Err e => (Err e, with_db before w2)
        | Ok a =>
            let (rc, w3) := exec (fun d => d) w2 in
            match rc with
            | Err e => (Err e, with_db before w3)
            | Ok _ => (Ok a, w3)
            end
        end
    end.

(** [First(&row, ...)]: the matching row with the smallest key. *)
Definition first_by {A} (key : A -> Z) (p : A -> bool) (rows : list A) : Result A :=
  match List.filter p rows with
  | [] => Err "record not found"
  | r :: rest =>
      Ok (fold_left (fun best x => if key x <? key best then x else best) rest r)
  end.

(** *** The task registry *)

(** Modelled from the spec: [TaskService] is not among the sources.  Section
    4.1: a status update, [complete] and [fail] change the task's record;
    none of them applies to a task that is unknown or already terminal (the
    call errors and the record stays as it is).  Like every write it can
    also fail in the registry itself ([registry_fault]). *)
Definition registry_write (taskID : string) (f : AsyncTask -> AsyncTask) : M (Result unit) :=
  fun w =>
    let w1 := with_task_ops (S (task_ops w)) w in
    if registry_fault env (task_ops w) then (Err "registry: write failed", w1)
    else
      match tasks w !! taskID with
      | None => (Err "task not found", w1)
      | Some t =>
          if is_terminal (task_Status t) then (Err "invalid transition", w1)
          else (Ok tt, with_tasks (<[taskID := f t]> (tasks w)) w1)
      end.

Definition UpdateTaskStatus (taskID status : string) (progress : Z) (message : string)
  : M (Result unit) :=
  registry_write taskID (fun t =>
    mkAsyncTask (task_Type t) (task_ResourceID t) status progress message
      (task_Error t) (task_Result t)).

Definition UpdateTaskError (taskID err : string) : M (Result unit) :=
  registry_write taskID (fun t =>
    mkAsyncTask (task_Type t) (task_ResourceID t) "failed" (task_Progress t)
      (task_Message t) err (task_Result t)).

Definition UpdateTaskResult (taskID : string) (result : TaskResult) : M (Result unit) :=
  registry_write taskID (fun t =>
    mkAsyncTask (task_Type t) (task_ResourceID t) "completed" (task_Progress t)
      (task_Message t) (task_Error t) (Some result)).

(** *** Text generation *)

(** [client.GenerateText] and [s.aiService.GenerateText] (the default
    client, [None]): the provider's answer is the environment's. *)
Definition GenerateText (client : option string) (prompt systemPrompt : string)
    (opts : list TextOption) : M (Result string) :=
  fun w =>
    (text_reply env (text_calls w),
     with_events (EvGenerateText client prompt systemPrompt opts :: events w) w).

(** Modelled from the spec: [utils.SafeParseAIJSON] is not among the
    sources.  Section 4.4: it finds the JSON document in the model's text
    ([extractJSON], which sees through prose and code fences) and decodes it
    into the target the caller passes. *)
Definition SafeParseAIJSON {A} (text : string) (target : json -> Result A) : Result A :=
  match extractJSON env text with
  | None => Err "no JSON document found in the response"
  | Some j => target j
  end.

(** ** StoryboardService *)

(** The two accepted shapes of the breakdown, tried in this order
    ([processStoryboardGeneration], "解析JSON结果"). *)
Inductive Shape : Type := ArrayFormat | ObjectFormat.

Definition parseStoryboardResponse (text : string)
  : Result (Shape * GenerateStoryboardResult) :=
  match SafeParseAIJSON text (dec_slice decodeStoryboard) with
  | Ok storyboards =>
      Ok (ArrayFormat, mkGenerateStoryboardResult storyboards (len storyboards))
  | Err _ =>
      match SafeParseAIJSON text decodeGenerateStoryboardResult with
      | Err e => Err e
      | Ok result =>
          Ok (ObjectFormat,
              mkGenerateStoryboardResult (Storyboards result) (len (Storyboards result)))
      end
  end.

Definition nonempty (s : string) : option string :=
  if String.eqb s "" then None else Some s.

Definition storyboardDescription (sb : Storyboard) : string :=
  "【镜头类型】" +:+ sb_ShotType sb +:+ nl +:+
  "【运镜】" +:+ sb_Movement sb +:+ nl +:+
  "【动作】" +:+ sb_Action sb +:+ nl +:+
  "【对话】" +:+ sb_Dialogue sb +:+ nl +:+
  "【结果】" +:+ sb_Result sb +:+ nl +:+
  "【情绪】" +:+ sb_Emotion sb.

Definition newStoryboardRow (id epID : Z) (sb : Storyboard) : StoryboardRow :=
  mkStoryboardRow id epID (sb_SceneID sb) (sb_ShotNumber sb)
    (nonempty (sb_Title sb))
    (Some (sb_Location sb))
    (Some (sb_Time sb))
    (nonempty (sb_ShotType sb))
    (nonempty (sb_Angle sb))
    (nonempty (sb_Movement sb))
    (Some (storyboardDescription sb))
    (Some (sb_Action sb))
    (nonempty (sb_Result sb))
    (nonempty (sb_Atmosphere sb))
    (nonempty (sb_Dialogue sb))
    (Some (generateImagePrompt env sb))
    (Some (generateVideoPrompt env sb))
    (nonempty (sb_BgmPrompt sb))
    (nonempty (sb_SoundEffect sb))
    (sb_Duration sb)
    None.

Definition insertStoryboard (epID : Z) (sb : Storyboard) (d : DB) : Result Z * DB :=
  let id := next_id (map st_ID (storyboards d)) in
  (Ok id, with_storyboards (storyboards d ++ [newStoryboardRow id epID sb]) d).

Definition in_ids (ids : list Z) (id : Z) : bool :=
  existsb (Z.eqb id) ids.

(** The body of the loop "保存新的分镜头" for one shot. *)
Definition createStoryboard (epID : Z) (sb : Storyboard) : M (Result unit) :=
  run when (match sb_SceneID sb with Some _ => true | None => false end)
        (log Info "Background ID from AI") ;;
  do created <- stmt (insertStoryboard epID sb) ;;
  match created with
  | Err e =>
      run log Error "Failed to create scene" ;;
      ret (Err e)
  | Ok id =>
      if 0 <? len (sb_Characters sb) then
        do found <- query (fun d =>
          Ok (List.filter (fun c => in_ids (sb_Characters sb) (ch_ID c)) (characters d))) ;;
        match found with
        | Err _ =>
            run log Warn "Failed to load characters for association" ;;
            ret (Ok tt)
        | Ok chars =>
            if 0 <? len chars then
              do appended <- exec (fun d =>
                with_storyboard_characters
                  (storyboard_characters d ++ map (fun c => (id, ch_ID c)) chars) d) ;;
              match appended with
              | Err _ =>
                  run log Warn "Failed to associate characters" ;;
                  ret (Ok tt)
              | Ok _ =>
                  run log Info "Characters associated successfully" ;;
                  ret (Ok tt)
              end
            else ret (Ok tt)
        end
      else ret (Ok tt)
  end.

Fixpoint createStoryboards (epID : Z) (storyboards : list Storyboard) : M (Result unit) :=
  match storyboards with
  | [] => ret (Ok tt)
  | sb :: rest =>
      try _u <- createStoryboard epID sb ;;
      createStoryboards epID rest
  end.

Definition detachImageGeneration (ids : list Z) (g : ImageGeneration) : ImageGeneration :=
  match ig_StoryboardID g with
  | Some sid =>
      if in_ids ids sid then
        mkImageGeneration (ig_ID g) None (ig_SceneID g) (ig_CharacterID g)
          (ig_ImageType g) (ig_Status g) (ig_TaskID g) (ig_ImageURL g)
          (ig_ErrorMsg g) (ig_Width g) (ig_Height g) (ig_CompletedAt g)
      else g
  | None => g
  end.

(** The transaction of [saveStoryboards]. *)
Definition replaceStoryboards (episodeID : string) (epID : Z)
    (storyboards_ : list Storyboard) : M (Result unit) :=
  do found <- query (fun d =>
    first_by ep_ID (fun e => ep_ID e =? epID) (episodes d)) ;;
  match found with
  | Err _ =>
      run log Error "Episode not found" ;;
      ret (Err ("章节不存在: " +:+ episodeID))
  | Ok episode =>
      run log Info "找到章节信息" ;;
      try storyboardIDs <- query (fun d =>
        Ok (map st_ID (List.filter (fun r => st_EpisodeID r =? epID) (storyboards d)))) ;;
      run log Info "查询到现有分镜" ;;
      try _u <- when_ok (0 <? len storyboardIDs)
        (try _v <- exec (fun d =>
           with_image_generations
             (map (detachImageGeneration storyboardIDs) (image_generations d)) d) ;;
         run log Info "已清理关联的图片生成记录" ;;
         ret (Ok tt)) ;;
      run log Warn "准备删除分镜数据" ;;
      do deleted <- exec (fun d =>
        with_storyboards
          (List.filter (fun r => negb (st_EpisodeID r =? epID)) (storyboards d)) d) ;;
      match deleted with
      | Err e =>
          run log Error "删除旧分镜失败" ;;
          ret (Err e)
      | Ok _ =>
          run log Info "已删除旧分镜头" ;;
          try _w <- createStoryboards epID storyboards_ ;;
          run log Info "Storyboards saved successfully" ;;
          ret (Ok tt)
      end
  end.

Definition saveStoryboards (episodeID : string) (storyboards_ : list Storyboard)
  : M (Result unit) :=
  match ParseUint episodeID 32 with
  | Err _ =>
      run log Error "Invalid episode ID" ;;
      ret (Err ("无效的章节ID: " +:+ episodeID))
  | Ok epID =>
      if len storyboards_ =? 0 then
        run log Error "AI返回的分镜数量为0，拒绝保存以避免删除现有分镜" ;;
        ret (Err "AI生成分镜失败：返回的分镜数量为0")
      else
        run log Info "开始保存分镜头" ;;
        Transaction (replaceStoryboards episodeID epID storyboards_)
  end.

(** "计算总时长（所有分镜时长之和）": the loop adds in Go's [int]. *)
Definition totalDurationOf (storyboards_ : list Storyboard) : Z :=
  fold_left (fun total sb => int_add total (sb_Duration sb)) storyboards_ 0.

(** "秒转分钟，向上取整": [(totalDuration + 59) / 60] in Go's [int]. *)
Definition durationMinutesOf (totalDuration : Z) : Z :=
  int_div (int_add totalDuration 59) 60.

Definition setEpisodeDuration (episodeID : string) (minutes : Z) (e : Episode) : Episode :=
  if key_is episodeID (ep_ID e) then
    mkEpisode (ep_ID e) (ep_DramaID e) (ep_EpisodeNum e) (ep_Title e)
      (ep_ScriptContent e) minutes
  else e.

(** The text call of the three orchestrators that accept a model override:
    the named model's client when it resolves, the default client when it
    does not or when no model is named. *)
Definition generateWithModel (model prompt systemPrompt : string)
    (opts : list TextOption) : M (Result string) :=
  if negb (String.eqb model "") then
    match GetAIClientForModel env "text" model with
    | Err _ =>
        run log Warn "Failed to get client for specified model, using default" ;;
        GenerateText None prompt systemPrompt opts
    | Ok client => GenerateText (Some client) prompt systemPrompt opts
    end
  else GenerateText None prompt systemPrompt opts.

Definition processStoryboardGeneration (taskID episodeID model prompt : string) : M unit :=
  do started <- UpdateTaskStatus taskID "processing" 10 "开始生成分镜头..." ;;
  match started with
  | Err _ => log Error "Failed to update task status"
  | Ok _ =>
  run log Info "Processing storyboard generation" ;;
  run when (negb (String.eqb model ""))
        (log Info "Using specified model for storyboard generation") ;;
  do generated <- generateWithModel model prompt "" [WithMaxTokens 16000] ;;
  match generated with
  | Err err =>
      run log Error "Failed to generate storyboard" ;;
      do updated <- UpdateTaskError taskID ("生成分镜头失败: " +:+ err) ;;
      when (negb (is_ok updated)) (log Error "Failed to update task error")
  | Ok text =>
  do progressed <- UpdateTaskStatus taskID "processing" 50 "分镜头生成完成，正在解析结果..." ;;
  match progressed with
  | Err _ => log Error "Failed to update task status"
  | Ok _ =>
  match parseStoryboardResponse text with
  | Err err =>
      run log Error "Failed to parse storyboard JSON in both formats" ;;
      do updated <- UpdateTaskError taskID ("解析分镜头结果失败: " +:+ err) ;;
      when (negb (is_ok updated)) (log Error "Failed to update task error")
  | Ok (shape, result) =>
  run log Info (match shape with
                | ArrayFormat => "Parsed storyboard as array format"
                | ObjectFormat => "Parsed storyboard as object format"
                end) ;;
  let totalDuration := totalDurationOf (Storyboards result) in
  run log Info "Storyboard generated" ;;
  do saving <- UpdateTaskStatus taskID "processing" 70 "正在保存分镜头..." ;;
  match saving with
  | Err _ => log Error "Failed to update task status"
  | Ok _ =>
  do saved <- saveStoryboards episodeID (Storyboards result) ;;
  match saved with
  | Err err =>
      run log Error "Failed to save storyboards" ;;
      do updated <- UpdateTaskError taskID ("保存分镜头失败: " +:+ err) ;;
      when (negb (is_ok updated)) (log Error "Failed to update task error")
  | Ok _ =>
  do updating <- UpdateTaskStatus taskID "processing" 90 "正在更新剧集时长..." ;;
  match updating with
  | Err _ => log Error "Failed to update task status"
  | Ok _ =>
  let durationMinutes := durationMinutesOf totalDuration in
  do stored <- exec (fun d =>
    with_episodes (map (setEpisodeDuration episodeID durationMinutes) (episodes d)) d) ;;
  run (match stored with
       | Err _ => log Error "Failed to update episode duration"
       | Ok _ => log Info "Episode duration updated"
       end) ;;
  let resultData :=
    StoryboardsGenerated (Storyboards result) (Total result) totalDuration
      durationMinutes in
  do finished <- UpdateTaskResult taskID resultData ;;
  match finished with
  | Err _ => log Error "Failed to update task result"
  | Ok _ => log Info "Storyboard generation completed"
  end
  end end end end end end end.

(** ** FramePromptService *)

(** A [models.Storyboard] loaded with [Preload("Characters")]. *)
Definition LoadedStoryboard : Type := (StoryboardRow * list Character)%type.

Definition loadStoryboard (storyboardID : string) (d : DB) : Result LoadedStoryboard :=
  let? row := first_by st_ID (fun r => key_is storyboardID (st_ID r)) (storyboards d) in
  let ids :=
    map snd (List.filter (fun p => fst p =? st_ID row) (storyboard_characters d)) in
  Ok (row, List.filter (fun c => in_ids ids (ch_ID c)) (characters d)).

Definition is_space (c : ascii) : bool :=
  let n := nat_of_ascii c in ((n =? 32) || (n =? 9) || (n =? 13))%nat.

Fixpoint skip_space (s : string) : string :=
  match s with
  | String c rest => if is_space c then skip_space rest else s
  | EmptyString => s
  end.

Fixpoint number_token (s : string) : string :=
  match s with
  | String c rest =>
      if is_digit c || (nat_of_ascii c =? 95)%nat then String c (number_token rest)
      else EmptyString
  | EmptyString => EmptyString
  end.

(** [mustParseUint]: [fmt.Sscanf(s, "%d", &result)] into a [uint64] that
    starts at zero and stays zero when the scan fails. *)
Definition mustParseUint (s : string) : Z :=
  match ParseUint (number_token (skip_space s)) 64 with
  | Ok n => n
  | Err _ => 0
  end.

Definition saveFramePrompt (storyboardID frameType prompt description layout : string)
  : M unit :=
  let framePrompt id :=
    mkFramePrompt id (mustParseUint storyboardID) frameType prompt
      (nonempty description) (nonempty layout) in
  run exec (fun d =>
    with_frame_prompts
      (List.filter
         (fun f => negb (key_is storyboardID (fp_StoryboardID f)
                         && String.eqb (fp_FrameType f) frameType))
         (frame_prompts d)) d) ;;
  do created <- exec (fun d =>
    with_frame_prompts
      (frame_prompts d ++ [framePrompt (next_id (map fp_ID (frame_prompts d)))]) d) ;;
  when (negb (is_ok created)) (log Warn "Failed to save frame prompt").

Definition some_nonempty (o : option string) : option string :=
  match o with
  | Some s => nonempty s
  | None => None
  end.

Definition label (key : string) (args : list string) : list string :=
  [FormatUserPrompt (promptI18n env) key args].

Definition opt_label (key : string) (o : option string) : list string :=
  match o with
  | Some s => label key [s]
  | None => []
  end.

Definition buildStoryboardContext (sb : LoadedStoryboard) (scene : option Scene) : string :=
  let row := fst sb in
  let chars := snd sb in
  let parts := (
    opt_label "shot_description_label" (some_nonempty (st_Description row)) ++
    match scene with
    | Some sc => label "scene_label" [sc_Location sc; sc_Time sc]
    | None =>
        match st_Location row, st_Time row with
        | Some location, Some time => label "scene_label" [location; time]
        | _, _ => []
        end
    end ++
    (if 0 <? len chars then label "characters_label" [Join (map ch_Name chars) ", "]
     else []) ++
    opt_label "action_label" (some_nonempty (st_Action row)) ++
    opt_label "result_label" (some_nonempty (st_Result row)) ++
    opt_label "dialogue_label" (some_nonempty (st_Dialogue row)) ++
    opt_label "atmosphere_label" (some_nonempty (st_Atmosphere row)) ++
    opt_label "shot_type_label" (st_ShotType row) ++
    opt_label "angle_label" (st_Angle row) ++
    opt_label "movement_label" (st_Movement row))%list in
  Join parts nl.

Definition buildFallbackPrompt (sb : LoadedStoryboard) (scene : option Scene)
    (suffix : string) : string :=
  let parts := (
    match scene with
    | Some sc => [sc_Location sc +:+ ", " +:+ sc_Time sc]
    | None => []
    end ++
    map ch_Name (snd sb) ++
    match st_Atmosphere (fst sb) with
    | Some a => [a]
    | None => []
    end ++
    ["anime style"; suffix])%list in
  Join parts ", ".

(** The common body of [generateFirstFrame], [generateKeyFrame] and
    [generateLastFrame]; they differ in the system prompt, the user-prompt
    key and the fallback's suffix and description. *)
Definition generateFrame (systemPrompt infoKey suffix fallbackDescription : string)
    (sb : LoadedStoryboard) (scene : option Scene) (model : string)
  : M SingleFramePrompt :=
  let contextInfo := buildStoryboardContext sb scene in
  let userPrompt := FormatUserPrompt (promptI18n env) infoKey [contextInfo] in
  let fallback :=
    mkSingleFramePrompt (buildFallbackPrompt sb scene suffix) fallbackDescription in
  do generated <- generateWithModel model userPrompt systemPrompt [] ;;
  match generated with
  | Err _ =>
      run log Warn "AI generation failed, using fallback" ;;
      ret fallback
  | Ok aiResponse =>
      match parseFramePromptJSON env aiResponse with
      | None =>
          run log Warn "Failed to parse AI JSON response, using fallback" ;;
          ret fallback
      | Some result => ret result
      end
  end.

Definition generateFirstFrame : LoadedStoryboard -> option Scene -> string -> M SingleFramePrompt :=
  generateFrame (GetFirstFramePrompt (promptI18n env)) "frame_info"
    "first frame, static shot" "镜头开始的静态画面，展示初始状态".

Definition generateKeyFrame : LoadedStoryboard -> option Scene -> string -> M SingleFramePrompt :=
  generateFrame (GetKeyFramePrompt (promptI18n env)) "key_frame_info"
    "key frame, dynamic action" "动作高潮瞬间，展示关键动作".

Definition generateLastFrame : LoadedStoryboard -> option Scene -> string -> M SingleFramePrompt :=
  generateFrame (GetLastFramePrompt (promptI18n env)) "last_frame_info"
    "last frame, final state" "镜头结束画面，展示最终状态和结果".

(** [frames[i].Description = d]. *)
Definition described (f : SingleFramePrompt) (d : string) : SingleFramePrompt :=
  mkSingleFramePrompt (Prompt f) d.

(** [make([]SingleFramePrompt, count)]: [runtime.makeslice] panics on a
    negative length and on a length whose size in bytes exceeds the
    runtime's [maxAlloc], [2^48] on 64-bit Linux; a [SingleFramePrompt] is
    two string headers, 32 bytes. *)
Definition maxFrames : Z := 2 ^ 48 / 32.

(** [generatePanelFrames].  [make] gives [count] zero values when it does
    not panic; only the counts 3 and 4 fill them. *)
Definition generatePanelFrames (sb : LoadedStoryboard) (scene : option Scene)
    (count : Z) (model : string) : M (Exit MultiFramePrompt) :=
  let layout := "horizontal_" +:+ sprint_d count in
  if (count <? 0) || (maxFrames <? count)
  then ret (Panicked "runtime error: makeslice: len out of range")
  else if count =? 3 then
    do f0 <- generateFirstFrame sb scene model ;;
    do f1 <- generateKeyFrame sb scene model ;;
    do f2 <- generateLastFrame sb scene model ;;
    ret (Returned (mkMultiFramePrompt layout
           [described f0 "第1格：初始状态";
            described f1 "第2格：动作高潮";
            described f2 "第3格：最终状态"]))
  else if count =? 4 then
    do f0 <- generateFirstFrame sb scene model ;;
    do f1 <- generateKeyFrame sb scene model ;;
    do f2 <- generateKeyFrame sb scene model ;;
    do f3 <- generateLastFrame sb scene model ;;
    ret (Returned (mkMultiFramePrompt layout [f0; f1; f2; f3]))
  else
    ret (Returned (mkMultiFramePrompt layout
           (repeat (mkSingleFramePrompt "" "") (Z.to_nat count)))).

Definition generateActionSequence (sb : LoadedStoryboard) (scene : option Scene)
    (model : string) : M MultiFramePrompt :=
  do f0 <- generateFirstFrame sb scene model ;;
  do f1 <- generateKeyFrame sb scene model ;;
  do f2 <- generateKeyFrame sb scene model ;;
  do f3 <- generateKeyFrame sb scene model ;;
  do f4 <- generateLastFrame sb scene model ;;
  ret (mkMultiFramePrompt "horizontal_5" [f0; f1; f2; f3; f4]).

(** The separator between the frames' prompts in a combined record. *)
Definition frameSeparator : string := nl +:+ "---" +:+ nl.

Definition combinedPrompt (m : MultiFramePrompt) : string :=
  Join (map Prompt (Frames m)) frameSeparator.

Definition finishFramePrompt (taskID : string) (req : GenerateFramePromptRequest)
    (response : FramePromptResponse) : M (Exit unit) :=
  run UpdateTaskResult taskID
        (FramePromptGenerated response (req_StoryboardID req) (req_FrameType req)) ;;
  run log Info "Frame prompt generation completed" ;;
  ret (Returned tt).

Definition singleFrame (taskID : string) (req : GenerateFramePromptRequest)
    (generate : M SingleFramePrompt) : M (Exit unit) :=
  do frame <- generate ;;
  run saveFramePrompt (req_StoryboardID req) (req_FrameType req) (Prompt frame)
        (Description frame) "" ;;
  finishFramePrompt taskID req
    (mkFramePromptResponse (req_FrameType req) (Some frame) None).

Definition multiFrame (taskID : string) (req : GenerateFramePromptRequest)
    (description : string) (frames : MultiFramePrompt) : M (Exit unit) :=
  run saveFramePrompt (req_StoryboardID req) (req_FrameType req)
        (combinedPrompt frames) description (Layout frames) ;;
  finishFramePrompt taskID req
    (mkFramePromptResponse (req_FrameType req) None (Some frames)).

Definition processFramePromptGeneration (taskID : string)
    (req : GenerateFramePromptRequest) (model : string) : M (Exit unit) :=
  run UpdateTaskStatus taskID "processing" 0 "正在生成帧提示词..." ;;
  do loaded <- query (loadStoryboard (req_StoryboardID req)) ;;
  match loaded with
  | Err _ =>
      run log Error "Storyboard not found during frame prompt generation" ;;
      run UpdateTaskStatus taskID "failed" 0 "分镜信息不存在" ;;
      ret (Returned tt)
  | Ok storyboard =>
      do scene <-
        match st_SceneID (fst storyboard) with
        | None => ret None
        | Some sceneID =>
            do found <- query (fun d =>
              first_by sc_ID (fun sc => sc_ID sc =? sceneID) (scenes d)) ;;
            match found with
            | Ok sc => ret (Some sc)
            | Err _ =>
                run log Warn "Scene not found during frame prompt generation" ;;
                ret None
            end
        end ;;
      let frameType := req_FrameType req in
      if String.eqb frameType FrameTypeFirst then
        singleFrame taskID req (generateFirstFrame storyboard scene model)
      else if String.eqb frameType FrameTypeKey then
        singleFrame taskID req (generateKeyFrame storyboard scene model)
      else if String.eqb frameType FrameTypeLast then
        singleFrame taskID req (generateLastFrame storyboard scene model)
      else if String.eqb frameType FrameTypePanel then
        let count := if req_PanelCount req =? 0 then 3 else req_PanelCount req in
        do panel <- generatePanelFrames storyboard scene count model ;;
        match panel with
        | Panicked msg => ret (Panicked msg)
        | Returned frames => multiFrame taskID req "分镜板组合提示词" frames
        end
      else if String.eqb frameType FrameTypeAction then
        do frames <- generateActionSequence storyboard scene model ;;
        multiFrame taskID req "动作序列组合提示词" frames
      else
        run log Error "Unsupported frame type during frame prompt generation" ;;
        run UpdateTaskStatus taskID "failed" 0 "不支持的帧类型" ;;
        ret (Returned tt)
  end.

(** ** ImageGenerationService *)

(** Constants of [domain/models] as the API spells them. *)
Definition ImageStatusCompleted : string := "completed".
Definition ImageStatusFailed : string := "failed".
Definition ImageTypeScene : string := "scene".

Definition updateImageGeneration (id : Z) (f : ImageGeneration -> ImageGeneration)
    (d : DB) : DB :=
  with_image_generations
    (map (fun g => if ig_ID g =? id then f g else g) (image_generations d)) d.

Definition updateScene (id : Z) (f : Scene -> Scene) (d : DB) : DB :=
  with_scenes (map (fun sc => if sc_ID sc =? id then f sc else sc) (scenes d)) d.

Definition setSceneStatus (status : string) (image : option string) (sc : Scene) : Scene :=
  mkScene (sc_ID sc) (sc_DramaID sc) (sc_EpisodeID sc) (sc_Location sc) (sc_Time sc)
    (sc_Prompt sc) (sc_StoryboardCount sc) status
    (match image with Some url => Some url | None => sc_ImageURL sc end).

Definition setComposedImage (id : Z) (url : string) (d : DB) : DB :=
  with_storyboards
    (map (fun r =>
            if st_ID r =? id then
              mkStoryboardRow (st_ID r) (st_EpisodeID r) (st_SceneID r)
                (st_StoryboardNumber r) (st_Title r) (st_Location r) (st_Time r)
                (st_ShotType r) (st_Angle r) (st_Movement r) (st_Description r)
                (st_Action r) (st_Result r) (st_Atmosphere r) (st_Dialogue r)
                (st_ImagePrompt r) (st_VideoPrompt r) (st_BgmPrompt r)
                (st_SoundEffect r) (st_Duration r) (Some url)
            else r)
         (storyboards d)) d.

Definition setCharacterImage (id : Z) (url : string) (d : DB) : DB :=
  with_characters
    (map (fun c =>
            if ch_ID c =? id then
              mkCharacter (ch_ID c) (ch_DramaID c) (ch_Name c) (ch_Role c)
                (ch_Description c) (ch_Personality c) (ch_Appearance c)
                (ch_VoiceStyle c) (Some url)
            else c)
         (characters d)) d.

Definition findImageGeneration (imageGenID : Z) : M (Result ImageGeneration) :=
  query (fun d =>
    first_by ig_ID (fun g => ig_ID g =? imageGenID) (image_generations d)).

Definition markFailed (errorMsg : string) (g : ImageGeneration) : ImageGeneration :=
  mkImageGeneration (ig_ID g) (ig_StoryboardID g) (ig_SceneID g) (ig_CharacterID g)
    (ig_ImageType g) ImageStatusFailed (ig_TaskID g) (ig_ImageURL g)
    (Some errorMsg) (ig_Width g) (ig_Height g) (ig_CompletedAt g).

Definition updateImageGenError (imageGenID : Z) (errorMsg : string) : M unit :=
  do found <- findImageGeneration imageGenID ;;
  match found with
  | Err _ => log Error "Failed to load image generation"
  | Ok imageGen =>
      run exec (updateImageGeneration imageGenID (markFailed errorMsg)) ;;
      run log Error "Image generation failed" ;;
      match ig_SceneID imageGen with
      | Some sceneID =>
          run exec (updateScene sceneID (setSceneStatus "failed" None)) ;;
          log Warn "Scene marked as failed"
      | None => ret tt
      end
  end.

(** The [updates] map of [completeImageGeneration] applied to a row:
    status, image_url and completed_at always, width and height only when
    the result's value is positive. *)
Definition markCompleted (result : ImageResult) (now : Z) (g : ImageGeneration)
  : ImageGeneration :=
  mkImageGeneration (ig_ID g) (ig_StoryboardID g) (ig_SceneID g) (ig_CharacterID g)
    (ig_ImageType g) ImageStatusCompleted (ig_TaskID g) (Some (ir_ImageURL result))
    (ig_ErrorMsg g)
    (if 0 <? ir_Width result then Some (ir_Width result) else ig_Width g)
    (if 0 <? ir_Height result then Some (ir_Height result) else ig_Height g)
    (Some now).

(** [s.localStorage.DownloadFromURL]. *)
Definition DownloadFromURL (download : string -> Result string) (url dir : string)
  : M (Result string) :=
  fun w => (download url, with_events (EvDownloadFromURL url dir :: events w) w).

(** "下载图片到本地存储（仅用于缓存，不更新数据库）": only http(s) URLs are
    fetched, and only when a local storage is configured. *)
Definition cacheImage (result : ImageResult) : M unit :=
  match localStorage env with
  | Some download =>
      if negb (String.eqb (ir_ImageURL result) "")
         && (String.prefix "http://" (ir_ImageURL result)
             || String.prefix "https://" (ir_ImageURL result))
      then
        do cached <- DownloadFromURL download (ir_ImageURL result) "images" ;;
        match cached with
        | Err _ => log Warn "Failed to download image to local storage"
        | Ok _ => log Info "Image downloaded to local storage for caching"
        end
      else ret tt
  | None => ret tt
  end.

(** The three blocks that copy the URL to the storyboard, the scene and
    the character the generation belongs to. *)
Definition syncImageOwners (imageGen : ImageGeneration) (result : ImageResult) : M unit :=
  run match ig_StoryboardID imageGen with
      | Some storyboardID =>
          do updated <- exec (setComposedImage storyboardID (ir_ImageURL result)) ;;
          match updated with
          | Err _ => log Error "Failed to update storyboard composed_image"
          | Ok _ => log Info "Storyboard updated with composed image"
          end
      | None => ret tt
      end ;;
  run match ig_SceneID imageGen with
      | Some sceneID =>
          if String.eqb (ig_ImageType imageGen) ImageTypeScene then
            do updated <- exec (updateScene sceneID
              (setSceneStatus "generated" (Some (ir_ImageURL result)))) ;;
            match updated with
            | Err _ => log Error "Failed to update scene"
            | Ok _ => log Info "Scene updated with generated image"
            end
          else ret tt
      | None => ret tt
      end ;;
  match ig_CharacterID imageGen with
  | Some characterID =>
      do updated <- exec (setCharacterImage characterID (ir_ImageURL result)) ;;
      match updated with
      | Err _ => log Error "Failed to update character image_url"
      | Ok _ => log Info "Character updated with generated image"
      end
  | None => ret tt
  end.

Definition completeImageGeneration (imageGenID : Z) (result : ImageResult) : M unit :=
  do now <- Now ;;
  run cacheImage result ;;
  do found <- findImageGeneration imageGenID ;;
  match found with
  | Err _ => log Error "Failed to load image generation"
  | Ok imageGen =>
      run exec (updateImageGeneration imageGenID (markCompleted result now)) ;;
      run log Info "Image generation completed" ;;
      syncImageOwners imageGen result
  end.

(** [client.GetTaskStatus(taskID)]. *)
Definition GetTaskStatus (client : ImageClient) (taskID : string) : M (Result ImageResult) :=
  fun w =>
    (status_reply env (status_calls w),
     with_events (EvGetTaskStatus client taskID :: events w) w).

Definition maxAttempts : nat := 60.
Definition pollInterval : Z := 5.
Definition timeoutMessage : string := "timeout: image generation took too long".

(** The [for] loop of [pollTaskStatus] with [remaining] iterations to go. *)
Fixpoint pollLoop (remaining : nat) (imageGenID : Z) (client : ImageClient)
    (taskID : string) : M unit :=
  match remaining with
  | O => updateImageGenError imageGenID timeoutMessage
  | S rest =>
      run Sleep pollInterval ;;
      do status <- GetTaskStatus client taskID ;;
      match status with
      | Err _ =>
          run log Error "Failed to get task status" ;;
          pollLoop rest imageGenID client taskID
      | Ok result =>
          if ir_Completed result then completeImageGeneration imageGenID result
          else if negb (String.eqb (ir_Error result) "") then
            updateImageGenError imageGenID (ir_Error result)
          else pollLoop rest imageGenID client taskID
      end
  end.

Definition pollTaskStatus (imageGenID : Z) (client : ImageClient) (taskID : string)
  : M unit :=
  pollLoop maxAttempts imageGenID client taskID.

(** "根据 provider 自动设置默认端点". *)
Definition clientForProvider (actualProvider : string) (config : AIServiceConfig)
    (model : string) : ImageClient :=
  let named name := String.eqb actualProvider name in
  if named "openai" || named "dalle" then
    NewOpenAIImageClient (cfg_BaseURL config) (cfg_APIKey config) model "/images/generations"
  else if named "chatfire" then
    NewOpenAIImageClient (cfg_BaseURL config) (cfg_APIKey config) model "/images/generations"
  else if named "volcengine" || named "volces" || named "doubao" then
    NewVolcEngineImageClient (cfg_BaseURL config) (cfg_APIKey config) model
      "/images/generations" ""
  else if named "gemini" || named "google" then
    NewGeminiImageClient (cfg_BaseURL config) (cfg_APIKey config) model
      "/v1beta/models/{model}:generateContent"
  else
    NewOpenAIImageClient (cfg_BaseURL config) (cfg_APIKey config) model "/images/generations".

Definition defaultImageConfig : Result AIServiceConfig :=
  match GetDefaultConfig env "image" with
  | Ok config => Ok config
  | Err e => Err ("no image AI config found: " +:+ e)
  end.

Definition getImageClientWithModel (provider modelName : string) : M (Result ImageClient) :=
  try config <-
    (if negb (String.eqb modelName "") then
       match GetConfigForModel env "image" modelName with
       | Ok config => ret (Ok config)
       | Err _ =>
           run log Warn "Failed to get config for model, using default" ;;
           ret defaultImageConfig
       end
     else ret defaultImageConfig) ;;
  let model :=
    if String.eqb modelName "" then
      match cfg_Model config with
      | first :: _ => first
      | [] => modelName
      end
    else modelName in
  let actualProvider :=
    if String.eqb (cfg_Provider config) "" then provider else cfg_Provider config in
  ret (Ok (clientForProvider actualProvider config model)).

(** *** Scene extraction *)

(** The two literal instruction blocks (English and Chinese) that
    [extractBackgroundsFromScript] puts at the end of its prompt. *)
Variable formatInstructions : bool -> string.

Definition parseBackgroundsResponse (response : string)
  : Result (Shape * list BackgroundInfo) :=
  match SafeParseAIJSON response (dec_slice decodeBackgroundInfo) with
  | Ok backgrounds => Ok (ArrayFormat, backgrounds)
  | Err _ =>
      match SafeParseAIJSON response decodeBackgroundsWrapper with
      | Err e => Err e
      | Ok backgrounds => Ok (ObjectFormat, backgrounds)
      end
  end.

Definition extractBackgroundsFromScript (scriptContent : string) (dramaID : Z)
    (model style : string) : M (Result (list BackgroundInfo)) :=
  if String.eqb scriptContent "" then ret (Ok [])
  else
    do resolved <-
      (if negb (String.eqb model "") then
         run log Info "Using specified model for background extraction" ;;
         match GetAIClientForModel env "text" model with
         | Ok client => ret (Ok (Some client))
         | Err _ =>
             run log Warn "Failed to get client for specified model, using default" ;;
             ret (match GetAIClient env "text" with
                  | Ok _ => Ok None
                  | Err e => Err e
                  end)
         end
       else
         ret (match GetAIClient env "text" with
              | Ok _ => Ok None
              | Err e => Err e
              end)) ;;
    match resolved with
    | Err e => ret (Err ("failed to get AI client: " +:+ e))
    | Ok client =>
        let systemPrompt := GetSceneExtractionPrompt (promptI18n env) style in
        let contentLabel := FormatUserPrompt (promptI18n env) "script_content_label" [] in
        let prompt :=
          systemPrompt +:+ nl +:+ nl +:+ contentLabel +:+ nl +:+ scriptContent
          +:+ nl +:+ nl +:+ formatInstructions (IsEnglish (promptI18n env)) in
        run log Info "=== AI Prompt for Background Extraction (extractBackgroundsFromScript) ===" ;;
        do generated <- GenerateText client prompt "" [WithTemperature 70] ;;
        match generated with
        | Err err =>
            run log Error "Failed to extract backgrounds with AI" ;;
            ret (Err ("AI提取场景失败: " +:+ err))
        | Ok response =>
            run log Info "=== AI Response for Background Extraction (extractBackgroundsFromScript) ===" ;;
            match parseBackgroundsResponse response with
            | Err e =>
                run log Error "Failed to parse AI response in both formats" ;;
                ret (Err ("解析AI响应失败: " +:+ e))
            | Ok (shape, backgrounds) =>
                run log Info (match shape with
                              | ArrayFormat => "Parsed backgrounds as array format"
                              | ObjectFormat => "Parsed backgrounds as object format"
                              end) ;;
                run log Info "Extracted backgrounds from script" ;;
                ret (Ok backgrounds)
            end
        end
    end.

Definition newScene (id dramaID episodeID : Z) (bgInfo : BackgroundInfo) : Scene :=
  mkScene id dramaID (Some episodeID) (bg_Location bgInfo) (bg_Time bgInfo)
    (bg_Prompt bgInfo) 1 "pending" None.

(** The loop "创建新提取的场景"; [created] is the slice the closure appends to. *)
Fixpoint createScenes (taskID : string) (dramaID episodeID : Z)
    (backgroundsInfo : list BackgroundInfo) (created : list Scene)
  : M (Result (list Scene)) :=
  match backgroundsInfo with
  | [] => ret (Ok created)
  | bgInfo :: rest =>
      try scene <- stmt (fun d =>
        let scene := newScene (next_id (map sc_ID (scenes d))) dramaID episodeID bgInfo in
        (Ok scene, with_scenes (scenes d ++ [scene]) d)) ;;
      run log Info "Created new scene from script" ;;
      createScenes taskID dramaID episodeID rest (created ++ [scene])
  end.

(** The transaction of [processBackgroundExtraction]: the episode's scenes
    are deleted first, then the extracted ones are created. *)
Definition replaceScenes (taskID : string) (episode : Episode)
    (backgroundsInfo : list BackgroundInfo) : M (Result (list Scene)) :=
  do deleted <- exec (fun d =>
    with_scenes
      (List.filter
         (fun sc => negb (match sc_EpisodeID sc with
                          | Some e => e =? ep_ID episode
                          | None => false
                          end))
         (scenes d)) d) ;;
  match deleted with
  | Err e =>
      run log Error "Failed to delete old scenes" ;;
      ret (Err e)
  | Ok _ =>
      run log Info "Deleted old scenes for re-extraction" ;;
      createScenes taskID (ep_DramaID episode) (ep_ID episode) backgroundsInfo []
  end.

Definition processBackgroundExtraction (taskID episodeID model style : string) : M unit :=
  run UpdateTaskStatus taskID "processing" 0 "正在提取场景信息..." ;;
  do loaded <- query (fun d =>
    first_by ep_ID (fun e => key_is episodeID (ep_ID e)) (episodes d)) ;;
  match loaded with
  | Err _ =>
      run log Error "Episode not found during background extraction" ;;
      run UpdateTaskStatus taskID "failed" 0 "剧集信息不存在" ;;
      ret tt
  | Ok episode =>
      match some_nonempty (ep_ScriptContent episode) with
      | None =>
          run log Error "Episode has no script content during background extraction" ;;
          run UpdateTaskStatus taskID "failed" 0 "剧本内容为空" ;;
          ret tt
      | Some scriptContent =>
          run log Info "Extracting backgrounds from script" ;;
          let dramaID := ep_DramaID episode in
          do extracted <- extractBackgroundsFromScript scriptContent dramaID model style ;;
          match extracted with
          | Err err =>
              run log Error "Failed to extract backgrounds from script" ;;
              run UpdateTaskStatus taskID "failed" 0 ("AI提取场景失败: " +:+ err) ;;
              ret tt
          | Ok backgroundsInfo =>
              do saved <- Transaction (replaceScenes taskID episode backgroundsInfo) ;;
              match saved with
              | Err err =>
                  run log Error "Failed to save scenes to database" ;;
                  run UpdateTaskStatus taskID "failed" 0 ("保存场景信息失败: " +:+ err) ;;
                  ret tt
              | Ok scenes_ =>
                  run UpdateTaskResult taskID
                        (ScenesExtracted scenes_ (len scenes_) episodeID dramaID) ;;
                  log Info "Background extraction completed"
              end
          end
      end
  end.

(** ** ScriptGenerationService *)

Record GenerateCharactersRequest : Type := mkGenerateCharactersRequest {
  gc_DramaID : string;
  gc_EpisodeID : Z;
  gc_Outline : string;
  gc_Count : Z;
  gc_Temperature : Z;   (* hundredths *)
  gc_Model : string
}.

(** The number [strconv.ParseUint] hands back next to its error: zero on
    a syntax error, the largest value of the size on a range error. *)
Definition ParseUint_value (s : string) (bits : Z) : Z :=
  match s with
  | EmptyString => 0
  | _ =>
      match parse_digits s 0 with
      | None => 0
      | Some n => if n <? 2 ^ bits then n else 2 ^ bits - 1
      end
  end.

Definition sameCharacter (dramaID name : string) (c : Character) : bool :=
  key_is dramaID (ch_DramaID c) && String.eqb (ch_Name c) name.

Definition newCharacter (id dramaID : Z) (char : ParsedCharacter) : Character :=
  mkCharacter id dramaID (pc_Name char) (Some (pc_Role char))
    (Some (pc_Description char)) (Some (pc_Personality char))
    (Some (pc_Appearance char)) (Some (pc_VoiceStyle char)) None.

Definition insertCharacter (dramaID : Z) (char : ParsedCharacter) (d : DB)
  : Result Character * DB :=
  let character := newCharacter (next_id (map ch_ID (characters d))) dramaID char in
  (Ok character, with_characters (characters d ++ [character]) d).

(** One turn of the loop over the parsed characters; [characters_] is the
    slice collected so far. *)
Definition persistCharacter (req : GenerateCharactersRequest) (char : ParsedCharacter)
    (characters_ : list Character) : M (list Character) :=
  do existing <- query (fun d =>
    first_by ch_ID (sameCharacter (gc_DramaID req) (pc_Name char)) (characters d)) ;;
  match existing with
  | Ok existingChar =>
      run log Info "Character already exists, skipping" ;;
      ret (characters_ ++ [existingChar])%list
  | Err _ =>
      let dramaID := ParseUint_value (gc_DramaID req) 32 in
      do created <- stmt (insertCharacter dramaID char) ;;
      match created with
      | Err _ =>
          run log Error "Failed to create character" ;;
          ret characters_
      | Ok character => ret (characters_ ++ [character])%list
      end
  end.

Fixpoint persistCharacters (req : GenerateCharactersRequest)
    (result : list ParsedCharacter) (characters_ : list Character)
  : M (list Character) :=
  match result with
  | [] => ret characters_
  | char :: rest =>
      do collected <- persistCharacter req char characters_ ;;
      persistCharacters req rest collected
  end.

(** [Association("Characters").Append]: the join rows that are not there
    yet are added; the characters themselves are not rewritten. *)
Definition appendEpisodeCharacters (episodeID : Z) (chars : list Character) (d : DB) : DB :=
  with_episode_characters
    (fold_left
       (fun rows c =>
          if existsb (fun p => (fst p =? episodeID) && (snd p =? ch_ID c)) rows
          then rows else (rows ++ [(episodeID, ch_ID c)])%list)
       chars (episode_characters d)) d.

Definition processCharacterGeneration (taskID : string) (req : GenerateCharactersRequest)
  : M unit :=
  run UpdateTaskStatus taskID "processing" 0 "正在生成角色..." ;;
  let count := if gc_Count req =? 0 then 5 else gc_Count req in
  let systemPrompt := GetCharacterExtractionPrompt (promptI18n env) in
  do outline <-
    (if String.eqb (gc_Outline req) "" then
       do found <- query (fun d =>
         first_by dr_ID (fun dr => key_is (gc_DramaID req) (dr_ID dr)) (dramas d)) ;;
       match found with
       | Err e => ret (Err e)
       | Ok drama =>
           ret (Ok (FormatUserPrompt (promptI18n env) "drama_info_template"
                      [dr_Title drama; dr_Description drama; dr_Genre drama]))
       end
     else ret (Ok (gc_Outline req))) ;;
  match outline with
  | Err _ =>
      run log Error "Drama not found during character generation" ;;
      run UpdateTaskStatus taskID "failed" 0 "剧本信息不存在" ;;
      ret tt
  | Ok outlineText =>
  let userPrompt :=
    FormatUserPrompt (promptI18n env) "character_request" [outlineText; sprint_d count] in
  let temperature := if gc_Temperature req =? 0 then 70 else gc_Temperature req in
  run when (negb (String.eqb (gc_Model req) ""))
        (log Info "Using specified model for character generation") ;;
  do generated <-
    generateWithModel (gc_Model req) userPrompt systemPrompt [WithTemperature temperature] ;;
  match generated with
  | Err err =>
      run log Error "Failed to generate characters" ;;
      run UpdateTaskStatus taskID "failed" 0 ("AI生成失败: " +:+ err) ;;
      ret tt
  | Ok text =>
  run log Info "AI response received for character generation" ;;
  match SafeParseAIJSON text (dec_slice decodeParsedCharacter) with
  | Err _ =>
      run log Error "Failed to parse characters JSON" ;;
      run UpdateTaskStatus taskID "failed" 0 "解析AI返回结果失败" ;;
      ret tt
  | Ok result =>
  do characters_ <- persistCharacters req result [] ;;
  run when (0 <? gc_EpisodeID req)
        (do found <- query (fun d =>
           first_by ep_ID (fun e => ep_ID e =? gc_EpisodeID req) (episodes d)) ;;
         match found with
         | Ok episode =>
             do appended <- exec (appendEpisodeCharacters (ep_ID episode) characters_) ;;
             match appended with
             | Err _ => log Error "Failed to associate characters with episode"
             | Ok _ => log Info "Characters associated with episode"
             end
         | Err _ => log Error "Episode not found for association"
         end) ;;
  run UpdateTaskResult taskID (CharactersGenerated characters_ (len characters_)) ;;
  log Info "Character generation completed"
  end end end.

End Services.


(** * More of the services *)

Section MoreServices.

Variable env : Env.

(** ** ImageGenerationService, continued *)

(** [truncateImageURL]: what the logs show of a URL.  [len] and the slices
    count bytes. *)
Definition truncateImageURL (url : string) : string :=
  if String.eqb url "" then ""
  else
    if String.prefix "data:" url && (50 <? Z.of_nat (String.length url)) then
      substring 0 50 url +:+ "...[base64 data]"
    else if 100 <? Z.of_nat (String.length url) then substring 0 100 url +:+ "..."
    else url.

(** [getImageClient]: the client of the default image config. *)
Definition getImageClient (provider : string) : M (Result ImageClient) :=
  match GetDefaultConfig env "image" with
  | Err e => ret (Err ("no image AI config found: " +:+ e))
  | Ok config =>
      let model :=
        match cfg_Model config with
        | first :: _ => first
        | [] => ""
        end in
      let actualProvider :=
        if String.eqb (cfg_Provider config) "" then provider else cfg_Provider config in
      let named name := String.eqb actualProvider name in
      if named "openai" || named "dalle" then
        ret (Ok (NewOpenAIImageClient (cfg_BaseURL config) (cfg_APIKey config) model
                   "/images/generations"))
      else if named "chatfire" then
        ret (Ok (NewOpenAIImageClient (cfg_BaseURL config) (cfg_APIKey config) model
                   "/images/generations"))
      else if named "volcengine" || named "volces" || named "doubao" then
        ret (Ok (NewVolcEngineImageClient (cfg_BaseURL config) (cfg_APIKey config) model
                   "/images/generations" ""))
      else if named "gemini" || named "google" then
        ret (Ok (NewGeminiImageClient (cfg_BaseURL config) (cfg_APIKey config) model
                   "/v1beta/models/{model}:generateContent"))
      else
        ret (Ok (NewOpenAIImageClient (cfg_BaseURL config) (cfg_APIKey config) model
                   "/images/generations"))
  end.

Definition GetImageGeneration (imageGenID : Z) : M (Result ImageGeneration) :=
  query env (fun d =>
    first_by ig_ID (fun g => ig_ID g =? imageGenID) (image_generations d)).

(** [DeleteImageGeneration]: the statement answers with the number of rows
    it removed. *)
Definition DeleteImageGeneration (imageGenID : Z) : M (Result unit) :=
  do result <- stmt env (fun d =>
    let kept :=
      List.filter (fun g => negb (ig_ID g =? imageGenID)) (image_generations d) in
    (Ok (len (image_generations d) - len kept), with_image_generations kept d)) ;;
  match result with
  | Err e => ret (Err e)
  | Ok rowsAffected =>
      if rowsAffected =? 0 then ret (Err "image generation not found")
      else ret (Ok tt)
  end.

(** [extractUniqueBackgrounds]: the map from [location + "|" + time] to the
    background collected for that key.  The slice the function returns
    lists the map's values in the order Go happens to range over it. *)
Definition addUniqueBackground (backgroundMap : gmap string BackgroundInfo)
    (scene : StoryboardRow) : gmap string BackgroundInfo :=
  match st_Location scene, st_Time scene with
  | Some location, Some time =>
      let key := location +:+ "|" +:+ time in
      match backgroundMap !! key with
      | Some bg =>
          <[key := mkBackgroundInfo (bg_Location bg) (bg_Time bg) (bg_Atmosphere bg)
                     (bg_Prompt bg) (bg_StoryboardNumbers bg)
                     (bg_SceneIDs bg ++ [st_ID scene])
                     (int_add (bg_StoryboardCount bg) 1)]> backgroundMap
      | None =>
          let prompt :=
            match st_ImagePrompt scene with
            | Some p => p
            | None => ""
            end in
          <[key := mkBackgroundInfo location time "" prompt [] [st_ID scene] 1]>
            backgroundMap
      end
  | _, _ => backgroundMap
  end.

Definition uniqueBackgroundMap (scenes : list StoryboardRow) : gmap string BackgroundInfo :=
  fold_left addUniqueBackground scenes ∅.

(** [backgrounds] is a slice [extractUniqueBackgrounds] can return. *)
Definition extractUniqueBackgrounds (scenes : list StoryboardRow)
    (backgrounds : list BackgroundInfo) : Prop :=
  backgrounds ≡ₚ map snd (map_to_list (uniqueBackgroundMap scenes)).

(** ** StoryboardService, continued *)

(** [UpdateStoryboardCharacters]: [Association("Characters").Clear()]
    removes the storyboard's join rows, [Append] adds one per character
    found. *)
Definition UpdateStoryboardCharacters (storyboardID : string) (characterIDs : list Z)
  : M (Result unit) :=
  do found <- query env (fun d =>
    first_by st_ID (fun r => key_is storyboardID (st_ID r)) (storyboards d)) ;;
  match found with
  | Err e => ret (Err ("storyboard not found: " +:+ e))
  | Ok storyboard =>
      do cleared <- exec env (fun d =>
        with_storyboard_characters
          (List.filter (fun p => negb (fst p =? st_ID storyboard))
             (storyboard_characters d)) d) ;;
      match cleared with
      | Err e => ret (Err ("failed to clear characters: " +:+ e))
      | Ok _ =>
          try _u <-
            (if 0 <? len characterIDs then
               do loaded <- query env (fun d =>
                 Ok (List.filter (fun c => in_ids characterIDs (ch_ID c))
                       (characters d))) ;;
               match loaded with
               | Err e => ret (Err ("failed to find characters: " +:+ e))
               | Ok chars =>
                   do appended <- exec env (fun d =>
                     with_storyboard_characters
                       (storyboard_characters d
                        ++ map (fun c => (st_ID storyboard, ch_ID c)) chars) d) ;;
                   match appended with
                   | Err e => ret (Err ("failed to associate characters: " +:+ e))
                   | Ok _ => ret (Ok tt)
                   end
               end
             else ret (Ok tt)) ;;
          run log Info "Storyboard characters updated" ;;
          ret (Ok tt)
      end
  end.

End MoreServices.

(** ** Go's [strings] and [unicode/utf8], as far as the prompts need them

    A Go string is a sequence of bytes; [len], indexing and slicing count
    bytes.  The trimming functions read it as UTF-8: a byte that starts no
    valid encoding is the rune [RuneError] of width 1. *)

Definition byte (c : ascii) : Z := Z.of_N (N_of_ascii c).

Definition byteAt (i : Z) (s : string) : Z :=
  match String.get (Z.to_nat i) s with
  | Some c => byte c
  | None => 0
  end.

Definition RuneError : Z := 65533.
Definition RuneSelf : Z := 128.
Definition UTFMax : Z := 4.

(** [utf8.first] and [utf8.acceptRanges]: the length of the encoding a
    lead byte announces and the range its second byte must be in. *)
Definition leadByte (b : Z) : option (nat * Z * Z) :=
  if (194 <=? b) && (b <=? 223) then Some (2%nat, 128, 191)
  else if b =? 224 then Some (3%nat, 160, 191)
  else if (225 <=? b) && (b <=? 236) then Some (3%nat, 128, 191)
  else if b =? 237 then Some (3%nat, 128, 159)
  else if (238 <=? b) && (b <=? 239) then Some (3%nat, 128, 191)
  else if b =? 240 then Some (4%nat, 144, 191)
  else if (241 <=? b) && (b <=? 243) then Some (4%nat, 128, 191)
  else if b =? 244 then Some (4%nat, 128, 143)
  else None.

Definition continuation (b : Z) : bool := (128 <=? b) && (b <=? 191).

(** [utf8.DecodeRuneInString]. *)
Definition DecodeRuneInString (s : string) : Z * nat :=
  match s with
  | EmptyString => (RuneError, 0%nat)
  | String c0 rest =>
      let s0 := byte c0 in
      if s0 <? RuneSelf then (s0, 1%nat)
      else
        match leadByte s0 with
        | None => (RuneError, 1%nat)
        | Some (sz, lo, hi) =>
            if (String.length s <? sz)%nat then (RuneError, 1%nat)
            else
              let s1 := byteAt 1 s in
              if (s1 <? lo) || (hi <? s1) then (RuneError, 1%nat)
              else if (sz <=? 2)%nat then
                (Z.lor (Z.shiftl (Z.land s0 31) 6) (Z.land s1 63), 2%nat)
              else
                let s2 := byteAt 2 s in
                if negb (continuation s2) then (RuneError, 1%nat)
                else if (sz <=? 3)%nat then
                  (Z.lor (Z.lor (Z.shiftl (Z.land s0 15) 12)
                                (Z.shiftl (Z.land s1 63) 6))
                         (Z.land s2 63), 3%nat)
                else
                  let s3 := byteAt 3 s in
                  if negb (continuation s3) then (RuneError, 1%nat)
                  else
                    (Z.lor (Z.lor (Z.lor (Z.shiftl (Z.land s0 7) 18)
                                         (Z.shiftl (Z.land s1 63) 12))
                                  (Z.shiftl (Z.land s2 63) 6))
                           (Z.land s3 63), 4%nat)
        end
  end.

(** [utf8.RuneStart]. *)
Definition RuneStart (b : Z) : bool := negb (Z.land b 192 =? 128).

(** The loop of [DecodeLastRuneInString] that walks back to a byte that
    can start a rune, at most to [lim]. *)
Fixpoint lastRuneStart (fuel : nat) (s : string) (start lim : Z) : Z :=
  match fuel with
  | O => start
  | S fuel' =>
      if start <? lim then start
      else if RuneStart (byteAt start s) then start
      else lastRuneStart fuel' s (start - 1) lim
  end.

(** [utf8.DecodeLastRuneInString]. *)
Definition DecodeLastRuneInString (s : string) : Z * nat :=
  let end_ := Z.of_nat (String.length s) in
  if end_ =? 0 then (RuneError, 0%nat)
  else
    let r := byteAt (end_ - 1) s in
    if r <? RuneSelf then (r, 1%nat)
    else
      let lim := Z.max 0 (end_ - UTFMax) in
      let start := Z.max 0 (lastRuneStart 4 s (end_ - 2) lim) in
      let decoded :=
        DecodeRuneInString (substring (Z.to_nat start) (Z.to_nat (end_ - start)) s) in
      if start + Z.of_nat (snd decoded) =? end_ then decoded
      else (RuneError, 1%nat).

(** [unicode.IsSpace]. *)
Definition IsSpace (r : Z) : bool :=
  if r <=? 255 then
    (r =? 9) || (r =? 10) || (r =? 11) || (r =? 12) || (r =? 13) || (r =? 32)
    || (r =? 133) || (r =? 160)
  else
    (r =? 5760) || ((8192 <=? r) && (r <=? 8202)) || (r =? 8232) || (r =? 8233)
    || (r =? 8239) || (r =? 8287) || (r =? 12288).

(** The runes of a string, as [range] yields them. *)
Fixpoint runesOf (fuel : nat) (s : string) : list Z :=
  match fuel with
  | O => []
  | S fuel' =>
      match DecodeRuneInString s with
      | (_, O) => []
      | (r, size) =>
          r :: runesOf fuel' (substring size (String.length s - size) s)
      end
  end.

(** [strings.ContainsRune]. *)
Definition ContainsRune (s : string) (r : Z) : bool :=
  existsb (Z.eqb r) (runesOf (String.length s) s).

(** Dropping the runes that satisfy [f] from the left ([TrimLeftFunc]) and
    from the right ([TrimRightFunc], [trimRightUnicode]). *)
Fixpoint trimLeftWhile (f : Z -> bool) (fuel : nat) (s : string) : string :=
  match fuel with
  | O => s
  | S fuel' =>
      match DecodeRuneInString s with
      | (_, O) => s
      | (r, size) =>
          if f r then
            trimLeftWhile f fuel' (substring size (String.length s - size) s)
          else s
      end
  end.

Fixpoint trimRightWhile (f : Z -> bool) (fuel : nat) (s : string) : string :=
  match fuel with
  | O => s
  | S fuel' =>
      match DecodeLastRuneInString s with
      | (_, O) => s
      | (r, size) =>
          if f r then trimRightWhile f fuel' (substring 0 (String.length s - size) s)
          else s
      end
  end.

(** [strings.TrimSpace]. *)
Definition TrimSpace (s : string) : string :=
  let left := trimLeftWhile IsSpace (String.length s) s in
  trimRightWhile IsSpace (String.length left) left.

(** [strings.TrimRight]. *)
Definition TrimRight (s cutset : string) : string :=
  if String.eqb s "" || String.eqb cutset "" then s
  else trimRightWhile (ContainsRune cutset) (String.length s) s.

(** [strings.Index]. *)
Definition Index (s substr : string) : Z :=
  match String.index 0 substr s with
  | Some n => Z.of_nat n
  | None => -1
  end.

(** ** StoryboardService: the prompts of a shot *)

Definition processWords : list string :=
  ["然后"; "接着"; "接下来"; "随后"; "紧接着";
   "向下"; "向上"; "向前"; "向后"; "向左"; "向右";
   "开始"; "继续"; "逐渐"; "慢慢"; "快速"; "突然"; "猛然"].

(** The loop of [extractInitialPose]: the text is cut before the first
    word of the list that occurs in it after its first byte. *)
Fixpoint cutBeforeProcess (words : list string) (result : string) : string :=
  match words with
  | [] => result
  | word :: rest =>
      let idx := Index result word in
      if 0 <? idx then substring 0 (Z.to_nat idx) result
      else cutBeforeProcess rest result
  end.

Definition extractInitialPose (action : string) : string :=
  let result := cutBeforeProcess processWords action in
  let result := TrimRight result "，。,. " in
  TrimSpace result.

Module Prompts.

(** [generateImagePrompt]. *)
Definition generateImagePrompt (sb : Storyboard) : string :=
  let parts := [] in
  let parts :=
    if negb (String.eqb (sb_Location sb) "") then
      let locationDesc := sb_Location sb in
      let locationDesc :=
        if negb (String.eqb (sb_Time sb) "") then locationDesc +:+ ", " +:+ sb_Time sb
        else locationDesc in
      (parts ++ [locationDesc])%list
    else parts in
  let parts :=
    if negb (String.eqb (sb_Action sb) "") then
      let initialPose := extractInitialPose (sb_Action sb) in
      if negb (String.eqb initialPose "") then (parts ++ [initialPose])%list
      else parts
    else parts in
  let parts :=
    if negb (String.eqb (sb_Emotion sb) "") then (parts ++ [sb_Emotion sb])%list
    else parts in
  let parts := (parts ++ ["anime style, first frame"])%list in
  if 0 <? len parts then Join parts ", " else "anime scene".

(** [generateVideoPrompt]; [style] and [videoRatio] are the configured
    default style and video ratio. *)
Definition generateVideoPrompt (style videoRatio : string) (sb : Storyboard) : string :=
  let labelled (name value : string) (parts : list string) : list string :=
    if negb (String.eqb value "") then (parts ++ [name +:+ ": " +:+ value])%list
    else parts in
  let parts := [] in
  let parts := labelled "Action" (sb_Action sb) parts in
  let parts := labelled "Dialogue" (sb_Dialogue sb) parts in
  let parts := labelled "Camera movement" (sb_Movement sb) parts in
  let parts := labelled "Shot type" (sb_ShotType sb) parts in
  let parts := labelled "Camera angle" (sb_Angle sb) parts in
  let parts :=
    if negb (String.eqb (sb_Location sb) "") then
      let locationDesc := sb_Location sb in
      let locationDesc :=
        if negb (String.eqb (sb_Time sb) "") then locationDesc +:+ ", " +:+ sb_Time sb
        else locationDesc in
      (parts ++ ["Scene: " +:+ locationDesc])%list
    else parts in
  let parts := labelled "Atmosphere" (sb_Atmosphere sb) parts in
  let parts := labelled "Mood" (sb_Emotion sb) parts in
  let parts := labelled "Result" (sb_Result sb) parts in
  let parts := labelled "BGM" (sb_BgmPrompt sb) parts in
  let parts := labelled "Sound effects" (sb_SoundEffect sb) parts in
  let parts := (parts ++ ["Style: " +:+ style])%list in
  let parts := (parts ++ ["=VideoRatio: " +:+ videoRatio])%list in
  if 0 <? len parts then Join parts ". " else "Anime style video scene".

End Prompts.
(** * Notions used in the statements *)

(** [keeps proj m]: running [m] does not change the part [proj] of the
    world. *)
Definition keeps {A X} (proj : World -> X) (m : M A) : Prop :=
  forall w, proj (snd (m w)) = proj w.

Definition hoare {A} (P : World -> Prop) (m : M A) (Q : A -> World -> Prop) : Prop :=
  forall w, P w -> Q (fst (m w)) (snd (m w)).


(** The task is in the registry and not yet terminal. *)
Definition live_in (taskID : string) (ts : gmap string AsyncTask) : Prop :=
  exists t, ts !! taskID = Some t /\ is_terminal (task_Status t) = false.

(** The task is terminal: completed with a result that satisfies [good],
    or failed with an error or a message. *)
Definition settled_in (good : TaskResult -> Prop) (taskID : string)
    (ts : gmap string AsyncTask) : Prop :=
  exists t, ts !! taskID = Some t /\
    ((task_Status t = "completed" /\ exists r, task_Result t = Some r /\ good r) \/
     (task_Status t = "failed" /\ (task_Error t <> "" \/ task_Message t <> ""))).

Definition live (taskID : string) : World -> Prop :=
  fun w => live_in taskID (tasks w).

Definition settled (good : TaskResult -> Prop) (taskID : string) : World -> Prop :=
  fun w => settled_in good taskID (tasks w).

Definition registry_sound (env : Env) : Prop :=
  forall n, registry_fault env n = false.

Definition is_storyboards_result (r : TaskResult) : Prop :=
  exists sbs,
    r = StoryboardsGenerated sbs (len sbs) (totalDurationOf sbs)
          (durationMinutesOf (totalDurationOf sbs)).


Definition is_frame_prompt_result (req : GenerateFramePromptRequest) (r : TaskResult) : Prop :=
  exists response,
    r = FramePromptGenerated response (req_StoryboardID req) (req_FrameType req).

(** ** Fixtures: a small environment and world to run the services in *)

Definition demoPrompts : PromptI18n :=
  mkPromptI18n "first-frame system prompt" "key-frame system prompt"
    "last-frame system prompt" (fun style => "scene extraction: " +:+ style)
    "character extraction" (fun key args => Join (key :: args) "|") false.

(** Nothing fails, no provider is configured, no model answers. *)
Definition baseEnv : Env :=
  mkEnv (fun _ => false) (fun _ => false)
    (fun _ _ => Err "model not configured") (fun _ => Ok "default")
    (fun _ => Err "provider unavailable")
    (fun _ => None) (fun _ => None)
    (fun _ => Err "status unavailable") None
    (fun _ _ => Err "model not configured") (fun _ => Err "no default config")
    demoPrompts (fun _ => "image prompt") (fun _ => "video prompt").

Definition with_store_fault (f : nat -> bool) (e : Env) : Env :=
  mkEnv f (registry_fault e) (GetAIClientForModel e) (GetAIClient e) (text_reply e)
    (extractJSON e) (parseFramePromptJSON e) (status_reply e) (localStorage e)
    (GetConfigForModel e) (GetDefaultConfig e) (promptI18n e)
    (generateImagePrompt e) (generateVideoPrompt e).

Definition with_registry_fault (f : nat -> bool) (e : Env) : Env :=
  mkEnv (store_fault e) f (GetAIClientForModel e) (GetAIClient e) (text_reply e)
    (extractJSON e) (parseFramePromptJSON e) (status_reply e) (localStorage e)
    (GetConfigForModel e) (GetDefaultConfig e) (promptI18n e)
    (generateImagePrompt e) (generateVideoPrompt e).

Definition with_text_reply (f : nat -> Result string) (e : Env) : Env :=
  mkEnv (store_fault e) (registry_fault e) (GetAIClientForModel e) (GetAIClient e) f
    (extractJSON e) (parseFramePromptJSON e) (status_reply e) (localStorage e)
    (GetConfigForModel e) (GetDefaultConfig e) (promptI18n e)
    (generateImagePrompt e) (generateVideoPrompt e).

Definition with_extractJSON (f : string -> option json) (e : Env) : Env :=
  mkEnv (store_fault e) (registry_fault e) (GetAIClientForModel e) (GetAIClient e)
    (text_reply e) f (parseFramePromptJSON e) (status_reply e) (localStorage e)
    (GetConfigForModel e) (GetDefaultConfig e) (promptI18n e)
    (generateImagePrompt e) (generateVideoPrompt e).

Definition with_status_reply (f : nat -> Result ImageResult) (e : Env) : Env :=
  mkEnv (store_fault e) (registry_fault e) (GetAIClientForModel e) (GetAIClient e)
    (text_reply e) (extractJSON e) (parseFramePromptJSON e) f (localStorage e)
    (GetConfigForModel e) (GetDefaultConfig e) (promptI18n e)
    (generateImagePrompt e) (generateVideoPrompt e).

Definition with_localStorage (s : option (string -> Result string)) (e : Env) : Env :=
  mkEnv (store_fault e) (registry_fault e) (GetAIClientForModel e) (GetAIClient e)
    (text_reply e) (extractJSON e) (parseFramePromptJSON e) (status_reply e) s
    (GetConfigForModel e) (GetDefaultConfig e) (promptI18n e)
    (generateImagePrompt e) (generateVideoPrompt e).

Definition with_configs (forModel : string -> string -> Result AIServiceConfig)
    (default : string -> Result AIServiceConfig) (e : Env) : Env :=
  mkEnv (store_fault e) (registry_fault e) (GetAIClientForModel e) (GetAIClient e)
    (text_reply e) (extractJSON e) (parseFramePromptJSON e) (status_reply e)
    (localStorage e) forModel default (promptI18n e)
    (generateImagePrompt e) (generateVideoPrompt e).

(** A document finder that knows the literal texts of the fixtures. *)
Definition demoExtract (docs : list (string * json)) (text : string) : option json :=
  snd <$> List.find (fun p => String.eqb (fst p) text) docs.

Definition pendingTask (type resource : string) : AsyncTask :=
  mkAsyncTask type resource "pending" 0 "" "" None.

Definition emptyDB : DB := mkDB [] [] [] [] [] [] [] [] [].

Definition newWorld (ts : gmap string AsyncTask) (d : DB) : World :=
  mkWorld ts 0 d 0 [] [] 0.

Definition demoEpisode : Episode :=
  mkEpisode 1 7 1 "pilot" (Some "INT. WAREHOUSE - NIGHT") 0.

Definition demoTasks : gmap string AsyncTask :=
  {[ "t1" := pendingTask "storyboard_generation" "1" ]}.

Definition sceneOf (episodeID : Z) (sc : Scene) : bool :=
  match sc_EpisodeID sc with
  | Some e => e =? episodeID
  | None => false
  end.

Definition demoScene (id episodeID : Z) (location : string) : Scene :=
  mkScene id 7 (Some episodeID) location "night" "a prompt" 1 "generated"
    (Some "https://cdn.example/scene.png").

Definition demoRow (id episodeID : Z) : StoryboardRow :=
  mkStoryboardRow id episodeID None id None (Some "warehouse") (Some "night") None
    None None (Some "a shot") (Some "walks in") None None None None None None None 6
    None.

(** An episode with two scenes and two shots of its own, and a scene of
    another episode. *)
Definition demoDB : DB :=
  mkDB [] [demoEpisode; mkEpisode 2 7 2 "second" (Some "EXT. PIER - DAY") 0]
    [demoRow 1 1; demoRow 2 1] []
    [demoScene 1 1 "warehouse"; demoScene 2 1 "pier"; demoScene 3 2 "office"]
    [] [] [] [].

(** The model answers with an empty array. *)
Definition emptyBatchEnv : Env :=
  with_extractJSON (demoExtract [("[]", JArr [])])
    (with_text_reply (fun _ => Ok "[]") baseEnv).

Definition noInstructions : bool -> string := fun _ => "".

(** The typed result of each parser, with the shape and the error message
    forgotten. *)
Definition parsedStoryboards (env : Env) (text : string) : option GenerateStoryboardResult :=
  snd <$> result_value (parseStoryboardResponse env text).

Definition parsedBackgrounds (env : Env) (text : string) : option (list BackgroundInfo) :=
  snd <$> result_value (parseBackgroundsResponse env text).

Definition shapeOf {A} (r : Result (Shape * A)) : option Shape :=
  fst <$> result_value r.

Definition demoShot : json :=
  JObj [("shot_number", JNum 1); ("title", JStr "wakes up"); ("duration", JNum 9);
        ("characters", JArr [JNum 159]); ("scene_id", JNull); ("is_primary", JBool true)].

Definition demoBackdrop : json :=
  JObj [("location", JStr "warehouse"); ("time", JStr "night");
        ("prompt", JStr "an empty warehouse at night")].

(** The same two items as a bare array and inside either wrapper. *)
Definition shapesEnv : Env :=
  with_extractJSON
    (demoExtract
       [("bare", JArr [demoShot; demoBackdrop]);
        ("storyboards wrapper", JObj [("storyboards", JArr [demoShot; demoBackdrop])]);
        ("backgrounds wrapper", JObj [("backgrounds", JArr [demoShot; demoBackdrop])])])
    baseEnv.

(** What the two items decode to, as shots and as backdrops: the keys a
    target does not know are skipped, the fields an item lacks stay zero. *)
Definition shapesStoryboards : list Storyboard :=
  [mkStoryboard 1 "wakes up" "" "" "" "" None "" "" "" "" "" "" 9 "" "" [159] true;
   mkStoryboard 0 "" "" "" "night" "warehouse" None "" "" "" "" "" "" 0 "" "" [] false].

Definition shapesBackgrounds : list BackgroundInfo :=
  [mkBackgroundInfo "" "" "" "" [] [] 0;
   mkBackgroundInfo "warehouse" "night" "" "an empty warehouse at night" [] [] 0].

Definition store_sound (env : Env) : Prop :=
  forall n, store_fault env n = false.

(** The shots' durations added up as numbers. *)
Definition secondsOf (sbs : list Storyboard) : Z :=
  foldr (fun sb total => sb_Duration sb + total) 0 sbs.

Definition has_episode (episodeID : string) (d : DB) : Prop :=
  exists e, e ∈ episodes d /\ key_is episodeID (ep_ID e) = true.

(** The episode is in the store and its duration column holds [minutes]. *)
Definition stored_duration (episodeID : string) (minutes : Z) (d : DB) : Prop :=
  has_episode episodeID d /\
  forall e, e ∈ episodes d -> key_is episodeID (ep_ID e) = true -> ep_Duration e = minutes.

Definition completed_with (taskID : string) (r : TaskResult) (w : World) : Prop :=
  exists t, tasks w !! taskID = Some t /\
    task_Status t = "completed" /\ task_Result t = Some r.

Definition failed (taskID : string) (w : World) : Prop :=
  exists t, tasks w !! taskID = Some t /\ task_Status t = "failed".

(** The model returns one shot that lasts [2^63 - 1] seconds. *)
Definition longShotEnv : Env :=
  with_extractJSON
    (demoExtract [("one long shot", JArr [JObj [("duration", JNum 9223372036854775807)]])])
    (with_text_reply (fun _ => Ok "one long shot") baseEnv).

(** The model returns two shots of 9 and 7 seconds. *)
Definition twoShotsEnv : Env :=
  with_extractJSON
    (demoExtract
       [("two shots",
         JObj [("storyboards",
                JArr [JObj [("shot_number", JNum 1); ("duration", JNum 9)];
                      JObj [("shot_number", JNum 2); ("duration", JNum 7)]])])])
    (with_text_reply (fun _ => Ok "two shots") baseEnv).

(** How a storyboard job can end once the registry and the store work. *)
Definition duration_outcome (taskID episodeID : string) (w : World) : Prop :=
  failed taskID w \/
  exists sbs,
    completed_with taskID
      (StoryboardsGenerated sbs (len sbs) (totalDurationOf sbs)
         (durationMinutesOf (totalDurationOf sbs))) w /\
    stored_duration episodeID (durationMinutesOf (totalDurationOf sbs)) (db w).

Definition shotOf (number duration : Z) : Storyboard :=
  mkStoryboard number "" "" "" "" "" None "" "" "" "" "" "" duration "" "" [] false.

(** *** Polling *)


(** One turn of the loop up to the decision: the sleep, the status call,
    and the log line when the call failed. *)
Definition pollRound (env : Env) (client : ImageClient) (taskID : string) : M unit :=
  run Sleep pollInterval ;;
  do status <- GetTaskStatus env client taskID ;;
  match status with
  | Err _ => log Error "Failed to get task status"
  | Ok _ => ret tt
  end.

Fixpoint pollRounds (env : Env) (client : ImageClient) (taskID : string) (k : nat)
    (w : World) : World :=
  match k with
  | O => w
  | S k' => pollRounds env client taskID k' (snd (pollRound env client taskID w))
  end.



Definition has_image_generation (imageGenID : Z) (d : DB) : Prop :=
  exists g, g ∈ image_generations d /\ ig_ID g = imageGenID.



Definition demoImageGeneration : ImageGeneration :=
  mkImageGeneration 5 None None None "storyboard" "processing" (Some "job-1") None None
    (Some 512) None None.

Definition imagesDB : DB := mkDB [] [] [] [] [] [demoImageGeneration] [] [] [].

Definition pendingResult : ImageResult := mkImageResult false "" "job-1" "" 0 0.

Definition doneResult : ImageResult :=
  mkImageResult true "https://provider.example/out.png" "job-1" "" 1024 0.


(** A provider that fails one call, is pending once and then is done. *)
Definition slowEnv : Env :=
  with_status_reply
    (fun n => match n with
              | O => Err "connection reset"
              | S O => Ok pendingResult
              | _ => Ok doneResult
              end) baseEnv.

Definition demoClient : ImageClient :=
  NewOpenAIImageClient "https://provider.example" "key" "model" "/images/generations".

(** [grows proj m]: running [m] only adds to the list [proj] of the world
    (newest first). *)
Definition grows {A X} (proj : World -> list X) (m : M A) : Prop :=
  forall w, exists extra, proj (snd (m w)) = (extra ++ proj w)%list.

(** The record's row after [completeImageGeneration]'s update. *)
Definition completed_rows (imageGenID : Z) (result : ImageResult) (now : Z)
    (rows : list ImageGeneration) : list ImageGeneration :=
  map (fun g => if ig_ID g =? imageGenID then markCompleted result now g else g) rows.

(** A local storage whose downloads always fail. *)
Definition brokenStorageEnv : Env :=
  with_localStorage (Some (fun _ => Err "disk full")) baseEnv.

(** The URLs [completeImageGeneration] tries to cache. *)
Definition cacheable (url : string) : bool :=
  negb (String.eqb url "") && (String.prefix "http://" url || String.prefix "https://" url).

(** *** Resolving an image client *)

Definition known_provider (name : string) : bool :=
  existsb (String.eqb name)
    ["openai"; "dalle"; "chatfire"; "volcengine"; "volces"; "doubao"; "gemini"; "google"].

(** The provider and the model [getImageClientWithModel] settles on once
    it has a config. *)
Definition actualProviderOf (provider : string) (config : AIServiceConfig) : string :=
  if String.eqb (cfg_Provider config) "" then provider else cfg_Provider config.

Definition modelOf (modelName : string) (config : AIServiceConfig) : string :=
  if String.eqb modelName "" then
    match cfg_Model config with
    | first :: _ => first
    | [] => modelName
    end
  else modelName.

Definition resolvedWith (provider modelName : string) (config : AIServiceConfig) : ImageClient :=
  clientForProvider (actualProviderOf provider config) config (modelOf modelName config).

(** The config the resolution works with: the named model's own when a
    model is named and its lookup succeeds, the default image config
    otherwise. *)
Definition config_in_use (env : Env) (modelName : string) (config : AIServiceConfig)
  : Prop :=
  (modelName <> "" /\ GetConfigForModel env "image" modelName = Ok config) \/
  ((modelName = "" \/ is_ok (GetConfigForModel env "image" modelName) = false) /\
   GetDefaultConfig env "image" = Ok config).

Definition demoConfig : AIServiceConfig :=
  mkAIServiceConfig "midjourney-proxy" "https://images.example/v1" "secret" ["mj-6"].

(** Only a default image config exists; no model has a config of its own. *)
Definition defaultOnlyEnv : Env :=
  with_configs (fun _ _ => Err "record not found")
    (fun kind => if String.eqb kind "image" then Ok demoConfig else Err "record not found")
    baseEnv.

(** *** Frame prompts *)







(** The rows of [frame_prompts] kept for a storyboard and frame type. *)
Definition framePromptsOf (storyboardID : Z) (frameType : string) (d : DB) : list FramePrompt :=
  List.filter
    (fun f => (fp_StoryboardID f =? storyboardID) && String.eqb (fp_FrameType f) frameType)
    (frame_prompts d).

Definition has_storyboard (storyboardID : string) (d : DB) : Prop :=
  exists row, row ∈ storyboards d /\ key_is storyboardID (st_ID row) = true.

(** [k] copies of the separator and nothing else. *)
Fixpoint separators (k : nat) : string :=
  match k with
  | O => ""
  | S k' => frameSeparator +:+ separators k'
  end.

(** A multi-frame job ended well: the task is completed with [frames] as
    its multi-frame response, and the storyboard has exactly one record of
    the request's frame type, holding the frames' prompts joined by the
    separator. *)
Definition multi_outcome (taskID : string) (req : GenerateFramePromptRequest) (n : Z)
    (description : string) (frames : MultiFramePrompt) (w : World) : Prop :=
  completed_with taskID
    (FramePromptGenerated
       (mkFramePromptResponse (req_FrameType req) None (Some frames))
       (req_StoryboardID req) (req_FrameType req)) w /\
  exists id,
    framePromptsOf n (req_FrameType req) (db w)
      = [mkFramePrompt id n (req_FrameType req)
           (Join (map Prompt (Frames frames)) (nl +:+ "---" +:+ nl))
           (Some description) (nonempty (Layout frames))].

Definition panelCountOf (req : GenerateFramePromptRequest) : Z :=
  if req_PanelCount req =? 0 then 3 else req_PanelCount req.

Definition panelRequest (storyboardID : string) (count : Z) : GenerateFramePromptRequest :=
  mkGenerateFramePromptRequest storyboardID FrameTypePanel count.

(** One storyboard, id 1, and a pending frame-prompt task. *)
Definition framesDB : DB := mkDB [] [demoEpisode] [demoRow 1 1] [] [] [] [] [] [].

Definition frameTasks : gmap string AsyncTask :=
  {[ "t1" := pendingTask "frame_prompt_generation" "1" ]}.

(** What [generatePanelFrames] leaves unfilled. *)
Definition unfilledPanel (count : Z) : MultiFramePrompt :=
  mkMultiFramePrompt ("horizontal_" +:+ sprint_d count)
    (repeat (mkSingleFramePrompt "" "") (Z.to_nat count)).

(** *** Character generation *)





Definition demoHero : Character :=
  mkCharacter 3 7 "Chen Zheng" (Some "lead") (Some "a locksmith") None None None
    (Some "https://cdn.example/chen.png").

Definition charactersDB : DB := mkDB [] [demoEpisode] [] [] [] [] [demoHero] [] [].

Definition charactersRequest : GenerateCharactersRequest :=
  mkGenerateCharactersRequest "7" 0 "an outline" 2 0 "".

Definition characterTasks : gmap string AsyncTask :=
  {[ "t1" := pendingTask "character_generation" "7" ]}.

(** The model returns the hero the drama already has and a new character. *)
Definition charactersEnv : Env :=
  with_extractJSON
    (demoExtract
       [("two characters",
         JArr [JObj [("name", JStr "Chen Zheng"); ("role", JStr "villain")];
               JObj [("name", JStr "Li Fang"); ("role", JStr "support")]])])
    (with_text_reply (fun _ => Ok "two characters") baseEnv).


Definition liFang (id : Z) : Character :=
  mkCharacter id 7 "Li Fang" (Some "support") (Some "") (Some "") (Some "") (Some "")
    None.


(** ** Fixtures for the further properties *)

(** The store refuses its sixth statement: in [saveStoryboards] on the
    fixture that is the first insert, after the old shots were deleted. *)
Definition sixthStatementFails : Env :=
  with_store_fault (fun n => Nat.eqb n 5) baseEnv.





(** The task is not (yet) marked failed. *)
Definition unfailed (taskID : string) (w : World) : Prop := ~ failed taskID w.

(** The model finds one backdrop; the store refuses the insert that
    follows the deletion of the episode's scenes. *)
Definition insertFailsEnv : Env :=
  with_store_fault (fun n => Nat.eqb n 3)
    (with_extractJSON (demoExtract [("one backdrop", JArr [demoBackdrop])])
       (with_text_reply (fun _ => Ok "one backdrop") baseEnv)).

(** The rows the transaction of [processBackgroundExtraction] creates for
    the backdrops [bgs], given the ids the store assigned. *)
Definition extractedScenes (episode : Episode) (ids : list Z) (bgs : list BackgroundInfo)
  : list Scene :=
  zip_with (fun id bg => newScene id (ep_DramaID episode) (ep_ID episode) bg) ids bgs.

(** The model finds two backdrops. *)
Definition twoBackdropsEnv : Env :=
  with_extractJSON
    (demoExtract
       [("two backdrops",
         JArr [demoBackdrop;
               JObj [("location", JStr "pier"); ("time", JStr "dawn");
                     ("prompt", JStr "a pier at dawn")]])])
    (with_text_reply (fun _ => Ok "two backdrops") baseEnv).

(** The task is failed and carries [message]. *)
Definition failed_with (taskID message : string) (w : World) : Prop :=
  exists t, tasks w !! taskID = Some t /\
    task_Status t = "failed" /\ task_Message t = message.

(** The five frame types [processFramePromptGeneration] knows. *)
Definition supported_frame_type (frameType : string) : bool :=
  String.eqb frameType FrameTypeFirst || String.eqb frameType FrameTypeKey
  || String.eqb frameType FrameTypeLast || String.eqb frameType FrameTypePanel
  || String.eqb frameType FrameTypeAction.

(** The scene [processFramePromptGeneration] hands to the generators: the
    storyboard's scene when it has one and the store finds it. *)
Definition sceneFor (sb : LoadedStoryboard) (d : DB) : option Scene :=
  match st_SceneID (fst sb) with
  | None => None
  | Some sceneID =>
      result_value (first_by sc_ID (fun sc => sc_ID sc =? sceneID) (scenes d))
  end.

(** A reply no frame can be read from: the call failed, or its text does
    not parse. *)
Definition unusable (env : Env) (reply : Result string) : bool :=
  match reply with
  | Err _ => true
  | Ok text =>
      match parseFramePromptJSON env text with
      | Some _ => false
      | None => true
      end
  end.

Definition single_frame_type (frameType : string) : bool :=
  String.eqb frameType FrameTypeFirst || String.eqb frameType FrameTypeKey
  || String.eqb frameType FrameTypeLast.

(** The fallback of [generateFirstFrame], [generateKeyFrame] and
    [generateLastFrame]. *)
Definition fallbackFrame (env : Env) (frameType : string) (sb : LoadedStoryboard)
    (scene : option Scene) : SingleFramePrompt :=
  if String.eqb frameType FrameTypeFirst then
    mkSingleFramePrompt (buildFallbackPrompt sb scene "first frame, static shot")
      "镜头开始的静态画面，展示初始状态"
  else if String.eqb frameType FrameTypeKey then
    mkSingleFramePrompt (buildFallbackPrompt sb scene "key frame, dynamic action")
      "动作高潮瞬间，展示关键动作"
  else
    mkSingleFramePrompt (buildFallbackPrompt sb scene "last frame, final state")
      "镜头结束画面，展示最终状态和结果".

Definition frameRequest (storyboardID frameType : string) : GenerateFramePromptRequest :=
  mkGenerateFramePromptRequest storyboardID frameType 0.


Definition sceneImage : ImageGeneration :=
  mkImageGeneration 1 None (Some 2) None "scene" "processing" (Some "job-1") None None
    None None None.

Definition sceneImagesDB : DB :=
  mkDB [] (episodes demoDB) (storyboards demoDB) [] (scenes demoDB) [sceneImage] [] [] [].

(** No image generation of the store has the id. *)
Definition no_record (imageGenID : Z) (d : DB) : Prop :=
  forall g, g ∈ image_generations d -> ig_ID g <> imageGenID.

Definition demoImageConfig : AIServiceConfig :=
  mkAIServiceConfig "" "https://images.example" "key" ["model-a"; "model-b"].

Definition imageConfigEnv : Env :=
  with_configs (fun _ _ => Err "model not configured") (fun _ => Ok demoImageConfig)
    baseEnv.

(** The join rows of the other storyboards. *)
Definition otherStoryboards (id : Z) (rows : list (Z * Z)) : list (Z * Z) :=
  List.filter (fun p => negb (fst p =? id)) rows.

(** The characters whose id is in the list. *)
Definition charactersIn (ids : list Z) (d : DB) : list Character :=
  List.filter (fun c => in_ids ids (ch_ID c)) (characters d).

Definition castDB : DB :=
  mkDB [] [demoEpisode] [demoRow 1 1; demoRow 2 1] [(1, 3); (2, 3)] [] []
    [demoHero;
     mkCharacter 4 7 "Li Fang" (Some "support") None None None None None] [] [].

(** The key [extractUniqueBackgrounds] files a shot under, when the shot
    has both a location and a time. *)
Definition placeKey (scene : StoryboardRow) : option string :=
  match st_Location scene, st_Time scene with
  | Some location, Some time => Some (location +:+ "|" +:+ time)
  | _, _ => None
  end.

Definition filedUnder (key : string) (scene : StoryboardRow) : bool :=
  match placeKey scene with
  | Some k => String.eqb k key
  | None => false
  end.

Definition backgroundKey (bg : BackgroundInfo) : string :=
  bg_Location bg +:+ "|" +:+ bg_Time bg.

(** The background of a group of shots that starts with [first]. *)
Definition backgroundOf (first : StoryboardRow) (group : list StoryboardRow)
  : BackgroundInfo :=
  mkBackgroundInfo
    (default "" (st_Location first)) (default "" (st_Time first)) ""
    (default "" (st_ImagePrompt first)) [] (map st_ID group) (len group).

Definition shotAt (id : Z) (location time : string) : StoryboardRow :=
  mkStoryboardRow id 1 None id None (Some location) (Some time) None None None None
    None None None None (Some ("prompt " +:+ location)) None None None 5 None.
(** * Properties *)

(** ** What a computation leaves alone *)

Lemma keeps_ret {A X} (proj : World -> X) (a : A) : keeps proj (ret a).
Proof. intros w. reflexivity. Qed.

Lemma keeps_bind {A B X} (proj : World -> X) (m : M A) (k : A -> M B) :
  keeps proj m -> (forall a, keeps proj (k a)) -> keeps proj (bind m k).
Proof.
  intros Hm Hk w. unfold bind. destruct (m w) as [a w1] eqn:E.
  rewrite Hk. specialize (Hm w). rewrite E in Hm. exact Hm.
Qed.

Lemma keeps_try_bind {A B X} (proj : World -> X) (m : M (Result A))
    (k : A -> M (Result B)) :
  keeps proj m -> (forall a, keeps proj (k a)) -> keeps proj (try_bind m k).
Proof.
  intros Hm Hk. unfold try_bind. apply keeps_bind; [exact Hm|].
  intros [a|e]; [apply Hk | apply keeps_ret].
Qed.

Lemma keeps_log {X} (proj : World -> X) lvl msg :
  (forall l w, proj (with_logs l w) = proj w) -> keeps proj (log lvl msg).
Proof. intros H w. apply H. Qed.

Lemma keeps_stmt {A X} env (proj : World -> X) (q : DB -> Result A * DB) :
  (forall d w, proj (with_db d w) = proj w) ->
  (forall n w, proj (with_stmts n w) = proj w) ->
  keeps proj (stmt env q).
Proof.
  intros Hd Hn w. unfold stmt.
  destruct (store_fault env (stmts w)); [apply Hn|].
  destruct (q (db (with_stmts (S (stmts w)) w))) as [r d] eqn:E.
  simpl in E. rewrite E. simpl. rewrite Hd. apply Hn.
Qed.

Lemma keeps_stmt_table {A X} env (table : DB -> X) (q : DB -> Result A * DB) :
  (forall d, table (snd (q d)) = table d) ->
  keeps (fun w => table (db w)) (stmt env q).
Proof.
  intros Hq w. unfold stmt.
  destruct (store_fault env (stmts w)); [reflexivity|].
  simpl. specialize (Hq (db w)). destruct (q (db w)) as [r d]. exact Hq.
Qed.

Lemma keeps_Transaction {A X} env (proj : World -> X) (body : M (Result A)) :
  (forall d w, proj (with_db d w) = proj w) ->
  (forall n w, proj (with_stmts n w) = proj w) ->
  keeps proj body -> keeps proj (Transaction env body).
Proof.
  intros Hd Hn Hb w. unfold Transaction.
  pose proof (keeps_stmt env proj (fun d => (Ok tt, d)) Hd Hn) as Hs.
  unfold exec.
  destruct (stmt env (fun d => (Ok tt, d)) w) as [rb w1] eqn:E1.
  pose proof (Hs w) as H1. rewrite E1 in H1. simpl in H1.
  destruct rb as [u|e]; [|exact H1].
  destruct (body w1) as [r w2] eqn:E2.
  pose proof (Hb w1) as H2. rewrite E2 in H2. simpl in H2.
  destruct r as [a|e].
  - destruct (stmt env (fun d => (Ok tt, d)) w2) as [rc w3] eqn:E3.
    pose proof (Hs w2) as H3. rewrite E3 in H3. simpl in H3.
    destruct rc; simpl; [|rewrite Hd]; congruence.
  - simpl. rewrite Hd. congruence.
Qed.

Lemma keeps_Transaction_table {A X} env (table : DB -> X) (body : M (Result A)) :
  keeps (fun w => table (db w)) body ->
  keeps (fun w => table (db w)) (Transaction env body).
Proof.
  intros Hb w. unfold Transaction, exec.
  pose proof (keeps_stmt_table env table (fun d => (Ok tt, d))
                (fun d => eq_refl)) as Hs.
  destruct (stmt env (fun d => (Ok tt, d)) w) as [rb w1] eqn:E1.
  pose proof (Hs w) as H1. rewrite E1 in H1. simpl in H1.
  destruct rb as [u|e]; [|exact H1].
  destruct (body w1) as [r w2] eqn:E2.
  destruct r as [a|e]; [|reflexivity].
  pose proof (Hb w1) as H2. rewrite E2 in H2. simpl in H2.
  destruct (stmt env (fun d => (Ok tt, d)) w2) as [rc w3] eqn:E3.
  pose proof (Hs w2) as H3. rewrite E3 in H3. simpl in H3.
  destruct rc; simpl; congruence.
Qed.

Lemma keeps_GenerateText {X} env (proj : World -> X) client prompt sys opts :
  (forall e w, proj (with_events e w) = proj w) ->
  keeps proj (GenerateText env client prompt sys opts).
Proof. intros H w. apply H. Qed.

Lemma keeps_registry_write {X} env (proj : World -> X) taskID f :
  (forall t w, proj (with_tasks t w) = proj w) ->
  (forall n w, proj (with_task_ops n w) = proj w) ->
  keeps proj (registry_write env taskID f).
Proof.
  intros Ht Hn w. unfold registry_write.
  destruct (registry_fault env (task_ops w)); [apply Hn|].
  destruct (tasks w !! taskID) as [t|]; [|apply Hn].
  destruct (is_terminal (task_Status t)); [apply Hn|].
  simpl. rewrite Ht. apply Hn.
Qed.

(** One step of a frame proof: peel the outermost construct. *)
Ltac keeps_step :=
  lazymatch goal with
  | |- keeps _ (ret _) => apply keeps_ret
  | |- keeps _ (log _ _) => apply keeps_log; reflexivity
  | |- keeps _ (GenerateText _ _ _ _ _) => apply keeps_GenerateText; reflexivity
  | |- keeps _ (stmt _ _) => apply keeps_stmt; reflexivity
  | |- keeps _ (registry_write _ _ _) => apply keeps_registry_write; reflexivity
  | |- keeps _ (Transaction _ _) =>
      apply keeps_Transaction; [reflexivity | reflexivity | ]
  | |- keeps _ (try_bind _ _) => apply keeps_try_bind; [ | intros; cbv beta ]
  | |- keeps _ (bind _ _) => apply keeps_bind; [ | intros; cbv beta ]
  | |- keeps _ (match ?x with _ => _ end) => destruct x
  end.

Ltac keeps_tac := repeat keeps_step.

Ltac keeps_unfold :=
  progress unfold when, when_ok, query, exec.

Ltac keeps_auto := repeat first [ keeps_step | keeps_unfold ].

Lemma keeps_tasks_generateWithModel env model prompt sys opts :
  keeps tasks (generateWithModel env model prompt sys opts).
Proof. unfold generateWithModel. keeps_auto. Qed.

Lemma keeps_tasks_createStoryboard env epID sb :
  keeps tasks (createStoryboard env epID sb).
Proof. unfold createStoryboard. keeps_auto. Qed.

Lemma keeps_tasks_createStoryboards env epID sbs :
  keeps tasks (createStoryboards env epID sbs).
Proof.
  induction sbs as [|sb rest IH]; simpl.
  - apply keeps_ret.
  - apply keeps_try_bind; [apply keeps_tasks_createStoryboard | intros; exact IH].
Qed.

Lemma keeps_tasks_saveStoryboards env episodeID sbs :
  keeps tasks (saveStoryboards env episodeID sbs).
Proof.
  unfold saveStoryboards, replaceStoryboards.
  repeat first [ apply keeps_tasks_createStoryboards | keeps_step | keeps_unfold ].
Qed.

(** ** Pre- and postconditions *)

Lemma hoare_ret {A} (P : World -> Prop) (a : A) (Q : A -> World -> Prop) :
  (forall w, P w -> Q a w) -> hoare P (ret a) Q.
Proof. intros H w HP. apply H, HP. Qed.

Lemma hoare_bind {A B} (P : World -> Prop) (m : M A) (Q : A -> World -> Prop)
    (k : A -> M B) (R : B -> World -> Prop) :
  hoare P m Q -> (forall a, hoare (Q a) (k a) R) -> hoare P (bind m k) R.
Proof.
  intros Hm Hk w HP. unfold bind. specialize (Hm w HP).
  destruct (m w) as [a w1]. apply Hk, Hm.
Qed.

Lemma hoare_weaken {A} (P P' : World -> Prop) (m : M A) (Q Q' : A -> World -> Prop) :
  hoare P' m Q' -> (forall w, P w -> P' w) -> (forall a w, Q' a w -> Q a w) ->
  hoare P m Q.
Proof. intros H HP HQ w Hw. apply HQ, H, HP, Hw. Qed.

Lemma hoare_false {A} (m : M A) (Q : A -> World -> Prop) :
  hoare (fun _ => False) m Q.
Proof. intros w []. Qed.

(** A condition on one part of the world survives what keeps that part. *)
Lemma hoare_keeps {A X} (proj : World -> X) (T : X -> Prop) (m : M A) :
  keeps proj m -> hoare (fun w => T (proj w)) m (fun _ w => T (proj w)).
Proof. intros H w HP. simpl. rewrite H. exact HP. Qed.

Lemma hoare_and {A} (P P' : World -> Prop) (m : M A) (Q Q' : A -> World -> Prop) :
  hoare P m Q -> hoare P' m Q' ->
  hoare (fun w => P w /\ P' w) m (fun a w => Q a w /\ Q' a w).
Proof. intros H H' w [HP HP']. split; [apply H, HP | apply H', HP']. Qed.

(** ** Reading results back *)

Lemma fold_min_in {A} (key : A -> Z) (l : list A) (a : A) :
  In (fold_left (fun best x => if key x <? key best then x else best) l a) (a :: l).
Proof.
  revert a. induction l as [|x l IH]; intros a; simpl.
  - left. reflexivity.
  - destruct (IH (if key x <? key a then x else a)) as [H|H].
    + destruct (key x <? key a); [right; left | left]; exact H.
    + right. right. exact H.
Qed.

Lemma first_by_ok {A} (key : A -> Z) (p : A -> bool) (rows : list A) (r : A) :
  first_by key p rows = Ok r -> In r rows /\ p r = true.
Proof.
  unfold first_by. destruct (List.filter p rows) as [|x rest] eqn:E; [discriminate|].
  intros [= <-]. apply List.filter_In. rewrite E. apply fold_min_in.
Qed.

Lemma first_by_found {A} (key : A -> Z) (p : A -> bool) (rows : list A) (r : A) :
  In r rows -> p r = true -> exists r', first_by key p rows = Ok r'.
Proof.
  intros Hin Hp. unfold first_by.
  destruct (List.filter p rows) as [|x rest] eqn:E; [|eauto].
  assert (H : In r (List.filter p rows)) by (apply List.filter_In; auto).
  rewrite E in H. destruct H.
Qed.

Lemma stmt_sound {A} env (q : DB -> Result A * DB) w :
  store_fault env (stmts w) = false ->
  stmt env q w =
    (fst (q (db w)), with_db (snd (q (db w))) (with_stmts (S (stmts w)) w)).
Proof.
  intros H. unfold stmt. rewrite H. simpl. destruct (q (db w)); reflexivity.
Qed.

Lemma stmt_ok_inv {A} env (q : DB -> Result A * DB) w a w' :
  stmt env q w = (Ok a, w') ->
  q (db w) = (Ok a, db w') /\ stmts w' = S (stmts w).
Proof.
  unfold stmt. destruct (store_fault env (stmts w)); [discriminate|].
  simpl. destruct (q (db w)) as [r d]. intros [= -> <-]. auto.
Qed.

Lemma Transaction_ok_inv {A} env (body : M (Result A)) w a :
  fst (Transaction env body w) = Ok a ->
  exists w1, db w1 = db w /\ fst (body w1) = Ok a.
Proof.
  unfold Transaction, exec.
  destruct (stmt env (fun d => (Ok tt, d)) w) as [rb w1] eqn:E1.
  destruct rb as [u|e]; [|discriminate].
  destruct u. apply stmt_ok_inv in E1 as [E1 _]. injection E1 as E1.
  destruct (body w1) as [r w2] eqn:E2.
  destruct r as [a'|e]; [|discriminate].
  destruct (stmt env (fun d => (Ok tt, d)) w2) as [rc w3].
  destruct rc; [|discriminate]. simpl. intros [= ->].
  exists w1. rewrite E2. auto.
Qed.

Lemma keeps_db_query {A} env (q : DB -> Result A) : keeps db (query env q).
Proof.
  intros w. unfold query, stmt.
  destruct (store_fault env (stmts w)); reflexivity.
Qed.

(** ** The task never stays in [processing] (C2) *)

Lemma live_frame {A} taskID (m : M A) :
  keeps tasks m -> hoare (live taskID) m (fun _ => live taskID).
Proof. intros H. apply (hoare_keeps tasks (live_in taskID)), H. Qed.

Lemma settled_frame {A} good taskID (m : M A) :
  keeps tasks m -> hoare (settled good taskID) m (fun _ => settled good taskID).
Proof. intros H. apply (hoare_keeps tasks (settled_in good taskID)), H. Qed.

Lemma registry_write_live env taskID f w t :
  registry_sound env ->
  tasks w !! taskID = Some t ->
  is_terminal (task_Status t) = false ->
  registry_write env taskID f w =
    (Ok tt, with_tasks (<[taskID := f t]> (tasks w)) (with_task_ops (S (task_ops w)) w)).
Proof.
  intros Hs Ht Hl. unfold registry_write. rewrite Hs, Ht, Hl. reflexivity.
Qed.

Lemma hoare_UpdateTaskStatus_processing env taskID progress message :
  registry_sound env ->
  hoare (live taskID) (UpdateTaskStatus env taskID "processing" progress message)
    (fun r w => r = Ok tt /\ live taskID w).
Proof.
  intros Hs w (t & Ht & Hl). unfold UpdateTaskStatus.
  rewrite (registry_write_live _ _ _ _ t Hs Ht Hl). simpl. split; [reflexivity|].
  eexists. split; [apply lookup_insert_eq | reflexivity].
Qed.

Lemma hoare_UpdateTaskStatus_failed {good} env taskID progress message :
  registry_sound env -> message <> "" ->
  hoare (live taskID) (UpdateTaskStatus env taskID "failed" progress message)
    (fun _ => settled good taskID).
Proof.
  intros Hs Hm w (t & Ht & Hl). unfold UpdateTaskStatus.
  rewrite (registry_write_live _ _ _ _ t Hs Ht Hl). simpl.
  eexists. split; [apply lookup_insert_eq|]. right. simpl. auto.
Qed.

Lemma hoare_UpdateTaskError {good} env taskID err :
  registry_sound env -> err <> "" ->
  hoare (live taskID) (UpdateTaskError env taskID err) (fun _ => settled good taskID).
Proof.
  intros Hs Hm w (t & Ht & Hl). unfold UpdateTaskError.
  rewrite (registry_write_live _ _ _ _ t Hs Ht Hl). simpl.
  eexists. split; [apply lookup_insert_eq|]. right. simpl. auto.
Qed.

Lemma hoare_UpdateTaskResult {good : TaskResult -> Prop} env taskID result :
  registry_sound env -> good result ->
  hoare (live taskID) (UpdateTaskResult env taskID result) (fun _ => settled good taskID).
Proof.
  intros Hs Hg w (t & Ht & Hl). unfold UpdateTaskResult.
  rewrite (registry_write_live _ _ _ _ t Hs Ht Hl). simpl.
  eexists. split; [apply lookup_insert_eq|]. left. simpl. eauto.
Qed.

Lemma prefixed_nonempty (c : ascii) (prefix s : string) :
  String c prefix +:+ s <> "".
Proof. discriminate. Qed.

(** [do r <- UpdateTaskStatus .. "processing" ..; if err { log; return }]. *)
Lemma hoare_progress {A} env taskID progress message (bad rest : M A)
    (Q : A -> World -> Prop) :
  registry_sound env ->
  hoare (live taskID) rest Q ->
  hoare (live taskID)
    (bind (UpdateTaskStatus env taskID "processing" progress message)
       (fun r => match r with Ok _ => rest | Err _ => bad end)) Q.
Proof.
  intros Hs Hrest. eapply hoare_bind.
  - apply hoare_UpdateTaskStatus_processing, Hs.
  - intros [u|e]; intros w [Hr Hl]; [apply Hrest, Hl | discriminate].
Qed.

(** [UpdateTaskError] followed by the log line for its own failure. *)
Lemma hoare_fail {good} env taskID err msg :
  registry_sound env -> err <> "" ->
  hoare (live taskID)
    (bind (UpdateTaskError env taskID err)
       (fun updated => when (negb (is_ok updated)) (log Error msg)))
    (fun _ => settled good taskID).
Proof.
  intros Hs He. eapply hoare_bind.
  - apply (hoare_UpdateTaskError (good:=good)); assumption.
  - intros r. apply settled_frame. keeps_auto.
Qed.

Lemma parseStoryboardResponse_total env text shape result :
  parseStoryboardResponse env text = Ok (shape, result) ->
  Total result = len (Storyboards result).
Proof.
  unfold parseStoryboardResponse.
  destruct (SafeParseAIJSON env text (dec_slice decodeStoryboard)).
  - intros [= _ <-]. reflexivity.
  - destruct (SafeParseAIJSON env text decodeGenerateStoryboardResult);
      [intros [= _ <-]; reflexivity | discriminate].
Qed.

Lemma processStoryboardGeneration_settles env taskID episodeID model prompt :
  registry_sound env ->
  hoare (live taskID) (processStoryboardGeneration env taskID episodeID model prompt)
    (fun _ => settled is_storyboards_result taskID).
Proof.
  intros Hs. unfold processStoryboardGeneration.
  apply hoare_progress; [exact Hs|].
  eapply hoare_bind; [apply live_frame; keeps_auto | intros ?; cbv beta].
  eapply hoare_bind; [apply live_frame; keeps_auto | intros ?; cbv beta].
  eapply hoare_bind; [apply live_frame, keeps_tasks_generateWithModel | intros [text|err]; cbv beta iota].
  2: { eapply hoare_bind; [apply live_frame; keeps_auto | intros ?; cbv beta].
       apply hoare_fail; [exact Hs | apply prefixed_nonempty]. }
  apply hoare_progress; [exact Hs|].
  destruct (parseStoryboardResponse env text) as [[shape result]|err] eqn:Hparse.
  2: { eapply hoare_bind; [apply live_frame; keeps_auto | intros ?; cbv beta].
       apply hoare_fail; [exact Hs | apply prefixed_nonempty]. }
  eapply hoare_bind; [apply live_frame; keeps_auto | intros ?; cbv beta].
  eapply hoare_bind; [apply live_frame; keeps_auto | intros ?; cbv beta].
  apply hoare_progress; [exact Hs|].
  eapply hoare_bind; [apply live_frame, keeps_tasks_saveStoryboards | intros [u|err]; cbv beta iota].
  2: { eapply hoare_bind; [apply live_frame; keeps_auto | intros ?; cbv beta].
       apply hoare_fail; [exact Hs | apply prefixed_nonempty]. }
  apply hoare_progress; [exact Hs|].
  eapply hoare_bind; [apply live_frame; keeps_auto | intros stored; cbv beta].
  eapply hoare_bind; [apply live_frame; keeps_auto | intros ?; cbv beta].
  eapply hoare_bind.
  - apply (hoare_UpdateTaskResult (good:=is_storyboards_result)); [exact Hs|].
    exists (Storyboards result).
    rewrite (parseStoryboardResponse_total _ _ _ _ Hparse). reflexivity.
  - intros r. apply settled_frame. keeps_auto.
Qed.

Lemma keeps_tasks_generateFrame env sys key suffix desc sb scene model :
  keeps tasks (generateFrame env sys key suffix desc sb scene model).
Proof.
  unfold generateFrame.
  repeat first [ apply keeps_tasks_generateWithModel | keeps_step | keeps_unfold ].
Qed.

Ltac keeps_frames :=
  repeat first
    [ apply keeps_tasks_generateFrame
    | apply keeps_tasks_generateWithModel
    | keeps_step
    | keeps_unfold ].

Lemma keeps_tasks_generatePanelFrames env sb scene count model :
  keeps tasks (generatePanelFrames env sb scene count model).
Proof.
  unfold generatePanelFrames, generateFirstFrame, generateKeyFrame, generateLastFrame.
  keeps_frames.
Qed.

Lemma keeps_tasks_generateActionSequence env sb scene model :
  keeps tasks (generateActionSequence env sb scene model).
Proof.
  unfold generateActionSequence, generateFirstFrame, generateKeyFrame, generateLastFrame.
  keeps_frames.
Qed.

Lemma keeps_tasks_saveFramePrompt env sid ft prompt desc layout :
  keeps tasks (saveFramePrompt env sid ft prompt desc layout).
Proof. unfold saveFramePrompt. keeps_auto. Qed.

Lemma hoare_run_processing {A} env taskID progress message (rest : M A)
    (Q : A -> World -> Prop) :
  registry_sound env ->
  hoare (live taskID) rest Q ->
  hoare (live taskID)
    (bind (UpdateTaskStatus env taskID "processing" progress message) (fun _ => rest)) Q.
Proof.
  intros Hs Hrest. eapply hoare_bind.
  - apply hoare_UpdateTaskStatus_processing, Hs.
  - intros r w [_ Hl]. apply Hrest, Hl.
Qed.

(** The two ways [processFramePromptGeneration] gives up. *)
Lemma hoare_give_up req env taskID lvl line message :
  registry_sound env -> message <> "" ->
  hoare (live taskID)
    (bind (log lvl line) (fun _ =>
     bind (UpdateTaskStatus env taskID "failed" 0 message) (fun _ =>
     ret (Returned tt))))
    (fun r w => r = Returned tt -> settled (is_frame_prompt_result req) taskID w).
Proof.
  intros Hs Hm.
  eapply hoare_bind; [apply live_frame; keeps_auto | intros ?; cbv beta].
  eapply hoare_bind; [apply (hoare_UpdateTaskStatus_failed
                               (good:=is_frame_prompt_result req)); assumption|].
  intros r. apply hoare_ret. auto.
Qed.

Lemma hoare_finishFramePrompt env taskID req response :
  registry_sound env ->
  hoare (live taskID) (finishFramePrompt env taskID req response)
    (fun r w => r = Returned tt -> settled (is_frame_prompt_result req) taskID w).
Proof.
  intros Hs. unfold finishFramePrompt.
  eapply hoare_bind.
  - apply (hoare_UpdateTaskResult (good:=is_frame_prompt_result req)); [exact Hs|].
    eexists. reflexivity.
  - intros r. eapply hoare_bind; [apply settled_frame; keeps_auto|].
    intros ?. apply hoare_ret. auto.
Qed.

Lemma hoare_singleFrame env taskID req generate :
  registry_sound env -> keeps tasks generate ->
  hoare (live taskID) (singleFrame env taskID req generate)
    (fun r w => r = Returned tt -> settled (is_frame_prompt_result req) taskID w).
Proof.
  intros Hs Hg. unfold singleFrame.
  eapply hoare_bind; [apply live_frame, Hg | intros frame; cbv beta].
  eapply hoare_bind;
    [apply live_frame, keeps_tasks_saveFramePrompt | intros ?; cbv beta].
  apply hoare_finishFramePrompt, Hs.
Qed.

Lemma hoare_multiFrame env taskID req description frames :
  registry_sound env ->
  hoare (live taskID) (multiFrame env taskID req description frames)
    (fun r w => r = Returned tt -> settled (is_frame_prompt_result req) taskID w).
Proof.
  intros Hs. unfold multiFrame.
  eapply hoare_bind;
    [apply live_frame, keeps_tasks_saveFramePrompt | intros ?; cbv beta].
  apply hoare_finishFramePrompt, Hs.
Qed.

Lemma processFramePromptGeneration_settles env taskID req model :
  registry_sound env ->
  hoare (live taskID) (processFramePromptGeneration env taskID req model)
    (fun r w => r = Returned tt -> settled (is_frame_prompt_result req) taskID w).
Proof.
  intros Hs. unfold processFramePromptGeneration.
  apply hoare_run_processing; [exact Hs|].
  eapply hoare_bind; [apply live_frame; keeps_auto | intros [storyboard|err]; cbv beta iota].
  2: { apply hoare_give_up; [exact Hs | discriminate]. }
  eapply hoare_bind; [apply live_frame; keeps_auto | intros scene; cbv beta].
  destruct (String.eqb (req_FrameType req) FrameTypeFirst).
  { apply hoare_singleFrame; [exact Hs | apply keeps_tasks_generateFrame]. }
  destruct (String.eqb (req_FrameType req) FrameTypeKey).
  { apply hoare_singleFrame; [exact Hs | apply keeps_tasks_generateFrame]. }
  destruct (String.eqb (req_FrameType req) FrameTypeLast).
  { apply hoare_singleFrame; [exact Hs | apply keeps_tasks_generateFrame]. }
  destruct (String.eqb (req_FrameType req) FrameTypePanel).
  { eapply hoare_bind;
      [apply live_frame, keeps_tasks_generatePanelFrames | intros [frames|msg]; cbv beta iota].
    - apply hoare_multiFrame, Hs.
    - apply hoare_ret. discriminate. }
  destruct (String.eqb (req_FrameType req) FrameTypeAction).
  { eapply hoare_bind;
      [apply live_frame, keeps_tasks_generateActionSequence | intros frames; cbv beta].
    apply hoare_multiFrame, Hs. }
  apply hoare_give_up; [exact Hs | discriminate].
Qed.

(** C2 (as amended).  Provided the task registry accepts the writes it is
    sent, a task that is registered and not yet terminal when the background
    job starts is terminal when [processStoryboardGeneration] returns and
    when [processFramePromptGeneration] returns: completed with its
    structured result, or failed with an error or a message. *)
Theorem C2_task_is_terminal_when_the_job_returns
    (env : Env) (taskID : string) (w : World) :
  registry_sound env ->
  live taskID w ->
  (forall episodeID model prompt,
     settled is_storyboards_result taskID
       (snd (processStoryboardGeneration env taskID episodeID model prompt w))) /\
  (forall req model,
     fst (processFramePromptGeneration env taskID req model w) = Returned tt ->
     settled (is_frame_prompt_result req) taskID
       (snd (processFramePromptGeneration env taskID req model w))).
Proof.
  intros Hs Hl. split.
  - intros episodeID model prompt.
    exact (processStoryboardGeneration_settles env taskID episodeID model prompt Hs w Hl).
  - intros req model.
    exact (processFramePromptGeneration_settles env taskID req model Hs w Hl).
Qed.

(** C2, witness.  The registry accepts every write and no provider is
    configured: the storyboard job fails its task. *)
Lemma C2_witness :
  settled is_storyboards_result "t1"
    (snd (processStoryboardGeneration baseEnv "t1" "1" "" "prompt"
            (newWorld demoTasks emptyDB))).
Proof.
  refine (proj1 (C2_task_is_terminal_when_the_job_returns baseEnv "t1"
                   (newWorld demoTasks emptyDB) _ _) "1" "" "prompt").
  - intros n. reflexivity.
  - eexists. split; [vm_compute; reflexivity | reflexivity].
Defined.

(** C2, counterexample.  The provider answers, the registry refuses the
    progress report at 50%: [processStoryboardGeneration] logs the failure
    and returns, and the task it had moved to [processing] stays there. *)
Lemma C2_counterexample :
  let env :=
    with_registry_fault (fun n => Nat.eqb n 1)
      (with_text_reply (fun _ => Ok "[]") baseEnv) in
  let w := newWorld demoTasks emptyDB in
  let w' := snd (processStoryboardGeneration env "t1" "1" "" "prompt" w) in
  live "t1" w /\
  task_Status <$> tasks (snd (UpdateTaskStatus env "t1" "processing" 10 "" w)) !! "t1"
    = Some "processing" /\
  task_Status <$> tasks w' !! "t1" = Some "processing" /\
  ~ settled (fun _ => True) "t1" w'.
Proof.
  cbv zeta. split; [|split; [|split]].
  - eexists. split; [vm_compute; reflexivity | reflexivity].
  - vm_compute. reflexivity.
  - vm_compute. reflexivity.
  - intros (t & Ht & Hst).
    assert (Hstatus : task_Status <$> Some t = Some "processing")
      by (rewrite <- Ht; vm_compute; reflexivity).
    simpl in Hstatus. injection Hstatus as Hstatus.
    destruct Hst as [[Hc _]|[Hf _]]; rewrite Hstatus in *; discriminate.
Qed.

(** ** The empty-result guard (C1) *)

(** [saveStoryboards] refuses an empty batch before it sends the store a
    single statement. *)
Lemma saveStoryboards_empty_batch env episodeID w :
  is_ok (fst (saveStoryboards env episodeID [] w)) = false /\
  db (snd (saveStoryboards env episodeID [] w)) = db w /\
  stmts (snd (saveStoryboards env episodeID [] w)) = stmts w.
Proof.
  unfold saveStoryboards.
  destruct (ParseUint episodeID 32); simpl; auto.
Qed.

(** C1, at the failing input.  The model answers [[]] to both jobs of an
    episode that already has two shots and two scenes.  Storyboard
    generation fails and keeps the shots; scene extraction deletes the
    episode's scenes, creates none and completes the task with a count of
    zero. *)
Theorem C1_empty_batch_wipes_the_scenes :
  let w := newWorld demoTasks demoDB in
  let shots := snd (processStoryboardGeneration emptyBatchEnv "t1" "1" "" "prompt" w) in
  let extraction :=
    snd (processBackgroundExtraction emptyBatchEnv noInstructions "t1" "1" "" "anime" w) in
  (storyboards (db shots) = storyboards (db w) /\
   task_Status <$> tasks shots !! "t1" = Some "failed") /\
  (length (List.filter (sceneOf 1) (scenes (db w))) = 2%nat /\
   List.filter (sceneOf 1) (scenes (db extraction)) = [] /\
   task_Status <$> tasks extraction !! "t1" = Some "completed" /\
   task_Result <$> tasks extraction !! "t1" = Some (Some (ScenesExtracted [] 0 "1" 7))).
Proof. vm_compute. repeat split; reflexivity. Qed.

(** ** Shape invariance of the two parsers (C4) *)

Section Shapes.

Variable env : Env.
Variable items : list json.

Lemma parseStoryboardResponse_array text :
  extractJSON env text = Some (JArr items) ->
  parseStoryboardResponse env text =
    match rmap decodeStoryboard items with
    | Ok sbs => Ok (ArrayFormat, mkGenerateStoryboardResult sbs (len sbs))
    | Err _ => Err "json: cannot unmarshal into Go value of struct type"
    end.
Proof.
  intros H. unfold parseStoryboardResponse, SafeParseAIJSON. rewrite H. simpl.
  destruct (rmap decodeStoryboard items); reflexivity.
Qed.

Lemma parseStoryboardResponse_object text :
  extractJSON env text = Some (JObj [("storyboards", JArr items)]) ->
  parseStoryboardResponse env text =
    match rmap decodeStoryboard items with
    | Ok sbs => Ok (ObjectFormat, mkGenerateStoryboardResult sbs (len sbs))
    | Err e => Err e
    end.
Proof.
  intros H. unfold parseStoryboardResponse, SafeParseAIJSON. rewrite H.
  cbn [dec_slice decodeGenerateStoryboardResult dec_struct].
  change (key_matches "storyboards" "storyboards") with true.
  change (key_matches "total" "storyboards") with false.
  cbn [field rbind dec_slice].
  destruct (rmap decodeStoryboard items); reflexivity.
Qed.

Lemma parseBackgroundsResponse_array text :
  extractJSON env text = Some (JArr items) ->
  parseBackgroundsResponse env text =
    match rmap decodeBackgroundInfo items with
    | Ok bgs => Ok (ArrayFormat, bgs)
    | Err _ => Err "json: cannot unmarshal into Go value of struct type"
    end.
Proof.
  intros H. unfold parseBackgroundsResponse, SafeParseAIJSON. rewrite H. simpl.
  destruct (rmap decodeBackgroundInfo items); reflexivity.
Qed.

Lemma parseBackgroundsResponse_object text :
  extractJSON env text = Some (JObj [("backgrounds", JArr items)]) ->
  parseBackgroundsResponse env text =
    match rmap decodeBackgroundInfo items with
    | Ok bgs => Ok (ObjectFormat, bgs)
    | Err e => Err e
    end.
Proof.
  intros H. unfold parseBackgroundsResponse, SafeParseAIJSON. rewrite H.
  cbn [dec_slice decodeBackgroundsWrapper dec_struct].
  change (key_matches "backgrounds" "backgrounds") with true.
  cbn [field rbind dec_slice].
  destruct (rmap decodeBackgroundInfo items); reflexivity.
Qed.

End Shapes.

(** C4.  When the document found in one response is the bare array of
    some items and the document found in another is the wrapper object
    around the same items ([storyboards] for the breakdown, [backgrounds] for
    scene extraction), each parser gives the same typed result for both.
    When the items decode, both responses parse: the bare array at the
    first attempt (the array shape), the wrapper at the second (the object
    shape), each to the list of the decoded items, for the breakdown with
    the number of items as its total.  When an item does not decode, both
    fail.  A bare array is never read as an object, and a wrapper is read
    as an object only after the array attempt failed. *)
Theorem C4_bare_array_and_wrapper_parse_alike
    (env : Env) (items : list json) (arrayText : string) :
  extractJSON env arrayText = Some (JArr items) ->
  (forall objectText,
     extractJSON env objectText = Some (JObj [("storyboards", JArr items)]) ->
     parsedStoryboards env objectText = parsedStoryboards env arrayText /\
     shapeOf (parseStoryboardResponse env arrayText) <> Some ObjectFormat /\
     shapeOf (parseStoryboardResponse env objectText) <> Some ArrayFormat /\
     (forall sbs, rmap decodeStoryboard items = Ok sbs ->
        parseStoryboardResponse env arrayText
          = Ok (ArrayFormat, mkGenerateStoryboardResult sbs (len sbs)) /\
        parseStoryboardResponse env objectText
          = Ok (ObjectFormat, mkGenerateStoryboardResult sbs (len sbs))) /\
     (is_ok (rmap decodeStoryboard items) = false ->
        parsedStoryboards env arrayText = None /\
        parsedStoryboards env objectText = None)) /\
  (forall objectText,
     extractJSON env objectText = Some (JObj [("backgrounds", JArr items)]) ->
     parsedBackgrounds env objectText = parsedBackgrounds env arrayText /\
     shapeOf (parseBackgroundsResponse env arrayText) <> Some ObjectFormat /\
     shapeOf (parseBackgroundsResponse env objectText) <> Some ArrayFormat /\
     (forall bgs, rmap decodeBackgroundInfo items = Ok bgs ->
        parseBackgroundsResponse env arrayText = Ok (ArrayFormat, bgs) /\
        parseBackgroundsResponse env objectText = Ok (ObjectFormat, bgs)) /\
     (is_ok (rmap decodeBackgroundInfo items) = false ->
        parsedBackgrounds env arrayText = None /\
        parsedBackgrounds env objectText = None)).
Proof.
  intros Harray. split; intros objectText Hobject.
  - unfold parsedStoryboards, shapeOf.
    rewrite (parseStoryboardResponse_array env items _ Harray).
    rewrite (parseStoryboardResponse_object env items _ Hobject).
    destruct (rmap decodeStoryboard items) as [decoded|e]; simpl.
    + repeat split; try congruence.
      all: intros sbs Hsbs; injection Hsbs as <-; reflexivity.
    + repeat split; congruence.
  - unfold parsedBackgrounds, shapeOf.
    rewrite (parseBackgroundsResponse_array env items _ Harray).
    rewrite (parseBackgroundsResponse_object env items _ Hobject).
    destruct (rmap decodeBackgroundInfo items) as [decoded|e]; simpl.
    + repeat split; try congruence.
      all: intros bgs Hbgs; injection Hbgs as <-; reflexivity.
    + repeat split; congruence.
Qed.

(** C4, witness.  A shot and a backdrop, as a bare array and inside either
    wrapper: each parser reads both shapes to the same two items. *)
Lemma C4_witness :
  (parseStoryboardResponse shapesEnv "bare"
     = Ok (ArrayFormat, mkGenerateStoryboardResult shapesStoryboards 2) /\
   parseStoryboardResponse shapesEnv "storyboards wrapper"
     = Ok (ObjectFormat, mkGenerateStoryboardResult shapesStoryboards 2)) /\
  (parseBackgroundsResponse shapesEnv "bare" = Ok (ArrayFormat, shapesBackgrounds) /\
   parseBackgroundsResponse shapesEnv "backgrounds wrapper"
     = Ok (ObjectFormat, shapesBackgrounds)).
Proof.
  pose proof (C4_bare_array_and_wrapper_parse_alike shapesEnv
                [demoShot; demoBackdrop] "bare" eq_refl) as [Hs Hb].
  split.
  - exact (proj1 (proj2 (proj2 (proj2 (Hs "storyboards wrapper" eq_refl))))
             shapesStoryboards eq_refl).
  - exact (proj1 (proj2 (proj2 (proj2 (Hb "backgrounds wrapper" eq_refl))))
             shapesBackgrounds eq_refl).
Defined.

(** ** The episode's duration (C6) *)

Lemma wrap_int_small z : int_min <= z <= int_max -> wrap_int z = z.
Proof.
  unfold int_min, int_max, wrap_int. intros H.
  rewrite Z.mod_small; lia.
Qed.

Lemma totalDurationOf_from (sbs : list Storyboard) (acc : Z) :
  Forall (fun sb => 0 <= sb_Duration sb) sbs ->
  0 <= acc -> acc + secondsOf sbs <= int_max ->
  fold_left (fun total sb => int_add total (sb_Duration sb)) sbs acc
    = acc + secondsOf sbs.
Proof.
  revert acc. induction sbs as [|sb rest IH]; intros acc Hall Hacc Hmax; simpl.
  - lia.
  - inversion Hall as [|? ? Hsb Hrest]; subst. simpl in Hmax.
    assert (Hsum : 0 <= secondsOf rest).
    { clear -Hrest. induction Hrest; simpl; lia. }
    unfold int_add at 2. rewrite wrap_int_small by (unfold int_min, int_max in *; lia).
    rewrite IH; [lia | assumption | lia | lia].
Qed.

Lemma secondsOf_nonneg sbs :
  Forall (fun sb => 0 <= sb_Duration sb) sbs -> 0 <= secondsOf sbs.
Proof. induction 1; simpl; lia. Qed.

(** Without overflow the two Go expressions are the sum and its ceiling
    in minutes. *)
Lemma duration_in_minutes sbs :
  Forall (fun sb => 0 <= sb_Duration sb) sbs ->
  secondsOf sbs + 59 <= int_max ->
  totalDurationOf sbs = secondsOf sbs /\
  durationMinutesOf (totalDurationOf sbs) = (secondsOf sbs + 59) / 60 /\
  60 * (durationMinutesOf (totalDurationOf sbs) - 1) < secondsOf sbs
    <= 60 * durationMinutesOf (totalDurationOf sbs).
Proof.
  intros Hall Hmax. pose proof (secondsOf_nonneg sbs Hall) as Hpos.
  assert (Htotal : totalDurationOf sbs = secondsOf sbs).
  { unfold totalDurationOf. rewrite totalDurationOf_from; [lia | assumption | lia | lia]. }
  assert (Hmin : durationMinutesOf (totalDurationOf sbs) = (secondsOf sbs + 59) / 60).
  { rewrite Htotal. unfold durationMinutesOf, int_div, int_add.
    rewrite (wrap_int_small (secondsOf sbs + 59)) by (unfold int_min, int_max in *; lia).
    rewrite Z.quot_div_nonneg by lia.
    apply wrap_int_small.
    pose proof (Z.div_pos (secondsOf sbs + 59) 60 ltac:(lia) ltac:(lia)).
    pose proof (Z.div_le_upper_bound (secondsOf sbs + 59) 60 int_max ltac:(lia)
                  ltac:(unfold int_max in *; lia)).
    unfold int_min, int_max in *. lia. }
  split; [exact Htotal|]. split; [exact Hmin|].
  rewrite Hmin.
  pose proof (Z.div_mod (secondsOf sbs + 59) 60 ltac:(lia)) as Hdm.
  pose proof (Z.mod_pos_bound (secondsOf sbs + 59) 60 ltac:(lia)) as Hb.
  lia.
Qed.

Ltac keeps_episodes_step :=
  lazymatch goal with
  | |- keeps _ (stmt _ _) => apply (keeps_stmt_table _ episodes); intros; reflexivity
  | |- keeps _ (Transaction _ _) => apply (keeps_Transaction_table _ episodes)
  | |- keeps _ (if ?b then _ else _) => destruct b
  | _ => keeps_step
  end.

Ltac keeps_episodes := repeat first [ keeps_episodes_step | keeps_unfold ].

Lemma keeps_episodes_createStoryboards env epID sbs :
  keeps (fun w => episodes (db w)) (createStoryboards env epID sbs).
Proof.
  induction sbs as [|sb rest IH]; simpl.
  - apply keeps_ret.
  - apply keeps_try_bind; [|intros; exact IH].
    unfold createStoryboard. keeps_episodes.
Qed.

Lemma keeps_episodes_saveStoryboards env episodeID sbs :
  keeps (fun w => episodes (db w)) (saveStoryboards env episodeID sbs).
Proof.
  unfold saveStoryboards, replaceStoryboards.
  repeat first
    [ apply keeps_episodes_createStoryboards | keeps_episodes_step | keeps_unfold ].
Qed.

Lemma ParseUint_key s n : ParseUint s 32 = Ok n -> key_is s n = true.
Proof.
  unfold key_is, sql_key, ParseUint. destruct s as [|c s]; [discriminate|].
  destruct (parse_digits (String c s) 0) as [m|]; [|discriminate].
  destruct (m <? 2 ^ 32) eqn:E32; [|discriminate]. intros [= ->].
  assert (H : (n <? 2 ^ 64) = true) by (apply Z.ltb_lt; apply Z.ltb_lt in E32; lia).
  rewrite H. simpl. apply Z.eqb_refl.
Qed.

(** When [saveStoryboards] succeeds the episode it was given is in the
    store. *)
Lemma saveStoryboards_ok_has_episode env episodeID sbs w :
  is_ok (fst (saveStoryboards env episodeID sbs w)) = true ->
  has_episode episodeID (db (snd (saveStoryboards env episodeID sbs w))).
Proof.
  intros Hok.
  assert (Hinit : has_episode episodeID (db w)).
  { revert Hok. unfold saveStoryboards.
    destruct (ParseUint episodeID 32) as [epID|] eqn:Hparse; [|discriminate].
    destruct (len sbs =? 0); [discriminate|].
    unfold bind at 1. simpl.
    destruct (fst (Transaction env (replaceStoryboards env episodeID epID sbs)
                     (with_logs ((Info, "开始保存分镜头") :: logs w) w))) eqn:Htx;
      [|discriminate].
    intros _. apply Transaction_ok_inv in Htx as (w1 & Hdb & Hbody).
    revert Hbody. unfold replaceStoryboards. unfold bind at 1, query at 1.
    destruct (stmt env _ w1) as [found w2] eqn:Hq.
    destruct found as [episode|]; [|discriminate]. intros _.
    apply stmt_ok_inv in Hq as [Hq _]. injection Hq as Hq _.
    apply first_by_ok in Hq as [Hin Hid].
    exists episode. split.
    - apply list_elem_of_In. simpl in Hdb. rewrite <- Hdb. exact Hin.
    - apply Z.eqb_eq in Hid. rewrite Hid. apply ParseUint_key, Hparse. }
  destruct Hinit as (e & He & Hk). exists e. split; [|exact Hk].
  pose proof (keeps_episodes_saveStoryboards env episodeID sbs w) as Hkeep.
  simpl in Hkeep. rewrite Hkeep. exact He.
Qed.

Lemma hoare_live_db {A} taskID (X : DB -> Prop) (m : M A) :
  keeps tasks m -> keeps db m ->
  hoare (fun w => live taskID w /\ X (db w)) m (fun _ w => live taskID w /\ X (db w)).
Proof.
  intros Ht Hd. apply hoare_and; [apply live_frame, Ht|].
  apply (hoare_keeps db X), Hd.
Qed.

Lemma hoare_progress_db {A} env taskID (X : DB -> Prop) progress message
    (bad rest : M A) (Q : A -> World -> Prop) :
  registry_sound env ->
  hoare (fun w => live taskID w /\ X (db w)) rest Q ->
  hoare (fun w => live taskID w /\ X (db w))
    (bind (UpdateTaskStatus env taskID "processing" progress message)
       (fun r => match r with Ok _ => rest | Err _ => bad end)) Q.
Proof.
  intros Hs Hrest. eapply hoare_bind.
  - apply hoare_and.
    + apply hoare_UpdateTaskStatus_processing, Hs.
    + apply (hoare_keeps db X). unfold UpdateTaskStatus. keeps_auto.
  - intros [u|e]; intros w [[Hr Hl] HX]; [apply Hrest; auto | discriminate].
Qed.

Lemma settled_failed taskID w :
  settled (fun _ => False) taskID w -> failed taskID w.
Proof.
  intros (t & Ht & [[_ (r & _ & [])]|[Hf _]]). exists t. auto.
Qed.

Lemma hoare_fail_outcome env taskID episodeID err msg :
  registry_sound env -> err <> "" ->
  hoare (live taskID)
    (bind (UpdateTaskError env taskID err)
       (fun updated => when (negb (is_ok updated)) (log Error msg)))
    (fun _ => duration_outcome taskID episodeID).
Proof.
  intros Hs He. eapply hoare_weaken.
  - apply (hoare_fail (good:=fun _ => False)); eassumption.
  - auto.
  - intros a w H. left. apply settled_failed, H.
Qed.

Lemma setEpisodeDuration_stores episodeID minutes d :
  has_episode episodeID d ->
  stored_duration episodeID minutes
    (with_episodes (map (setEpisodeDuration episodeID minutes) (episodes d)) d).
Proof.
  intros (e & He & Hk). split.
  - exists (setEpisodeDuration episodeID minutes e). split.
    + simpl. apply list_elem_of_fmap. exists e. auto.
    + unfold setEpisodeDuration. rewrite Hk. exact Hk.
  - intros e' He' Hk'. simpl in He'. apply list_elem_of_fmap in He' as (e0 & -> & _).
    revert Hk'. unfold setEpisodeDuration.
    destruct (key_is episodeID (ep_ID e0)) eqn:E; simpl; [reflexivity|].
    rewrite E. discriminate.
Qed.

Lemma processStoryboardGeneration_outcome env taskID episodeID model prompt :
  registry_sound env -> store_sound env ->
  hoare (live taskID) (processStoryboardGeneration env taskID episodeID model prompt)
    (fun _ => duration_outcome taskID episodeID).
Proof.
  intros Hs Hst. unfold processStoryboardGeneration.
  apply hoare_progress; [exact Hs|].
  eapply hoare_bind; [apply live_frame; keeps_auto | intros ?; cbv beta].
  eapply hoare_bind; [apply live_frame; keeps_auto | intros ?; cbv beta].
  eapply hoare_bind;
    [apply live_frame, keeps_tasks_generateWithModel | intros [text|err]; cbv beta iota].
  2: { eapply hoare_bind; [apply live_frame; keeps_auto | intros ?; cbv beta].
       apply hoare_fail_outcome; [exact Hs | apply prefixed_nonempty]. }
  apply hoare_progress; [exact Hs|].
  destruct (parseStoryboardResponse env text) as [[shape result]|err] eqn:Hparse.
  2: { eapply hoare_bind; [apply live_frame; keeps_auto | intros ?; cbv beta].
       apply hoare_fail_outcome; [exact Hs | apply prefixed_nonempty]. }
  eapply hoare_bind; [apply live_frame; keeps_auto | intros ?; cbv beta].
  eapply hoare_bind; [apply live_frame; keeps_auto | intros ?; cbv beta].
  apply hoare_progress; [exact Hs|].
  eapply hoare_bind with
    (Q := fun r w => live taskID w /\
                     (is_ok r = true -> has_episode episodeID (db w))).
  { intros w Hl. split.
    - exact (live_frame taskID _ (keeps_tasks_saveStoryboards _ _ _) w Hl).
    - apply saveStoryboards_ok_has_episode. }
  intros [u|err]; cbv beta iota.
  2: { eapply hoare_weaken with (P' := live taskID)
         (Q' := fun _ => duration_outcome taskID episodeID); [| tauto | auto].
       eapply hoare_bind; [apply live_frame; keeps_auto | intros ?; cbv beta].
       apply hoare_fail_outcome; [exact Hs | apply prefixed_nonempty]. }
  eapply hoare_weaken with
    (P' := fun w => live taskID w /\ has_episode episodeID (db w))
    (Q' := fun _ => duration_outcome taskID episodeID);
    [| intros w [Hl Hh]; split; [exact Hl | apply Hh; reflexivity] | auto].
  apply hoare_progress_db; [exact Hs|].
  set (minutes := durationMinutesOf (totalDurationOf (Storyboards result))).
  eapply hoare_bind with
    (Q := fun _ w => live taskID w /\ stored_duration episodeID minutes (db w)).
  { intros w [Hl Hh]. unfold exec. rewrite stmt_sound by apply Hst. simpl.
    split; [exact Hl | apply setEpisodeDuration_stores, Hh]. }
  intros stored; cbv beta.
  eapply hoare_bind;
    [apply (hoare_live_db taskID (stored_duration episodeID minutes)); keeps_auto
    | intros ?; cbv beta].
  eapply hoare_bind with
    (Q := fun _ w =>
            completed_with taskID
              (StoryboardsGenerated (Storyboards result) (Total result)
                 (totalDurationOf (Storyboards result)) minutes) w /\
            stored_duration episodeID minutes (db w)).
  { intros w [(t & Ht & Hl) Hd]. unfold UpdateTaskResult.
    rewrite (registry_write_live _ _ _ _ t Hs Ht Hl). simpl. split; [|exact Hd].
    eexists. split; [apply lookup_insert_eq | split; reflexivity]. }
  intros r. eapply hoare_weaken with
    (P' := fun w => duration_outcome taskID episodeID w)
    (Q' := fun _ w => duration_outcome taskID episodeID w); [| | auto].
  - assert (Hk : keeps tasks (match r with
                              | Ok _ => log Info "Storyboard generation completed"
                              | Err _ => log Error "Failed to update task result"
                              end)) by keeps_auto.
    assert (Hd : keeps db (match r with
                           | Ok _ => log Info "Storyboard generation completed"
                           | Err _ => log Error "Failed to update task result"
                           end)) by keeps_auto.
    intros w Hout. unfold duration_outcome, failed, completed_with in *.
    rewrite Hk, Hd. exact Hout.
  - intros w [Hc Hd]. right. exists (Storyboards result).
    rewrite <- (parseStoryboardResponse_total _ _ _ _ Hparse). auto.
Qed.

(** C6 (as amended).  Let the registry and the store accept what they are
    sent.  When the storyboard job ends with the task completed, the
    episode's duration column holds the minutes reported in the task's
    result; and when the parsed shots' durations are non-negative and their
    sum plus 59 fits Go's 64-bit [int], the reported total is that sum and
    the minutes are [(sum + 59) / 60], the sum in minutes rounded up. *)
Theorem C6_episode_duration_is_the_total_rounded_up
    (env : Env) (taskID episodeID model prompt : string) (w : World)
    (sbs : list Storyboard) (total totalDuration durationMinutes : Z) :
  registry_sound env ->
  store_sound env ->
  live taskID w ->
  completed_with taskID
    (StoryboardsGenerated sbs total totalDuration durationMinutes)
    (snd (processStoryboardGeneration env taskID episodeID model prompt w)) ->
  Forall (fun sb => 0 <= sb_Duration sb) sbs ->
  secondsOf sbs + 59 <= int_max ->
  stored_duration episodeID durationMinutes
    (db (snd (processStoryboardGeneration env taskID episodeID model prompt w))) /\
  totalDuration = secondsOf sbs /\
  durationMinutes = (secondsOf sbs + 59) / 60 /\
  60 * (durationMinutes - 1) < secondsOf sbs <= 60 * durationMinutes.
Proof.
  intros Hs Hst Hl (t & Ht & Hstatus & Hresult) Hall Hmax.
  destruct (processStoryboardGeneration_outcome env taskID episodeID model prompt
              Hs Hst w Hl) as [(t' & Ht' & Hf)|(sbs' & (t' & Ht' & _ & Hr') & Hd)].
  - simpl in Ht'. rewrite Ht in Ht'. injection Ht' as <-.
    rewrite Hstatus in Hf. discriminate.
  - simpl in Ht', Hd. rewrite Ht in Ht'. injection Ht' as <-.
    rewrite Hresult in Hr'. injection Hr' as -> -> -> ->.
    destruct (duration_in_minutes sbs' Hall Hmax) as (Htot & Hmin & Hceil).
    split; [exact Hd|]. split; [exact Htot|]. split; [exact Hmin | exact Hceil].
Qed.

Lemma C6_witness :
  stored_duration "1" 1
    (db (snd (processStoryboardGeneration twoShotsEnv "t1" "1" "" "prompt"
                (newWorld demoTasks demoDB)))) /\
  16 = secondsOf [shotOf 1 9; shotOf 2 7].
Proof.
  refine (let H := C6_episode_duration_is_the_total_rounded_up twoShotsEnv "t1" "1" "" "prompt"
                     (newWorld demoTasks demoDB) [shotOf 1 9; shotOf 2 7] 2 16 1
                     _ _ _ _ _ _ in conj (proj1 H) (proj1 (proj2 H))).
  - intros n. reflexivity.
  - intros n. reflexivity.
  - eexists. split; [vm_compute; reflexivity | reflexivity].
  - eexists. split; [vm_compute; reflexivity | split; reflexivity].
  - repeat constructor; simpl; lia.
  - vm_compute. discriminate.
Defined.

(** C6, counterexample.  The model returns one shot whose duration is
    [2^63 - 1] seconds, a non-negative Go [int].  The job completes, and the
    minutes it stores are negative: [totalDuration + 59] wrapped around.  The
    sum in minutes rounded up is 153722867280912931. *)
Lemma C6_counterexample :
  let w' :=
    snd (processStoryboardGeneration longShotEnv "t1" "1" "" "prompt"
           (newWorld demoTasks demoDB)) in
  let sbs := [shotOf 0 9223372036854775807] in
  completed_with "t1"
    (StoryboardsGenerated sbs 1 9223372036854775807 (-153722867280912929)) w' /\
  Forall (fun sb => 0 <= sb_Duration sb) sbs /\
  map (fun e => (ep_ID e, ep_Duration e)) (episodes (db w'))
    = [(1, -153722867280912929); (2, 0)] /\
  (secondsOf sbs + 59) / 60 = 153722867280912931.
Proof.
  cbv zeta. split; [|split; [|split]].
  - eexists. split; [vm_compute; reflexivity | split; reflexivity].
  - repeat constructor. simpl. lia.
  - vm_compute. reflexivity.
  - vm_compute. reflexivity.
Qed.

(** ** The poll loop (C3) *)

Section Polling.

Variable env : Env.
Variable imageGenID : Z.
Variable client : ImageClient.
Variable taskID : string.




Lemma pollRound_stmts w : stmts (snd (pollRound env client taskID w)) = stmts w.
Proof.
  unfold pollRound, bind, Sleep, GetTaskStatus. cbn.
  destruct (status_reply env _); reflexivity.
Qed.






Lemma pollRounds_stmts k w : stmts (pollRounds env client taskID k w) = stmts w.
Proof.
  revert w. induction k as [|k IH]; intros w; simpl; [reflexivity|].
  rewrite IH. apply pollRound_stmts.
Qed.






End Polling.









(** ** Completing an image generation (C7) *)

Lemma grows_ret {A X} (proj : World -> list X) (a : A) : grows proj (ret a).
Proof. intros w. exists []. reflexivity. Qed.

Lemma grows_bind {A B X} (proj : World -> list X) (m : M A) (k : A -> M B) :
  grows proj m -> (forall a, grows proj (k a)) -> grows proj (bind m k).
Proof.
  intros Hm Hk w. unfold bind. destruct (Hm w) as (e1 & H1).
  destruct (m w) as [a w1]. destruct (Hk a w1) as (e2 & H2).
  exists (e2 ++ e1)%list. rewrite H2. simpl in H1. rewrite H1.
  apply app_assoc.
Qed.

Lemma grows_keeps {A X} (proj : World -> list X) (m : M A) :
  keeps proj m -> grows proj m.
Proof. intros H w. exists []. apply H. Qed.

Lemma grows_log lvl msg : grows logs (log lvl msg).
Proof. intros w. exists [(lvl, msg)]. reflexivity. Qed.

Lemma grows_in {A X} (proj : World -> list X) (m : M A) (x : X) w :
  grows proj m -> x ∈ proj w -> x ∈ proj (snd (m w)).
Proof.
  intros Hm Hx. destruct (Hm w) as (extra & ->).
  apply elem_of_app. right. exact Hx.
Qed.

Ltac grows_logs :=
  repeat
    lazymatch goal with
    | |- grows _ (ret _) => apply grows_ret
    | |- grows _ (log _ _) => apply grows_log
    | |- grows _ (stmt _ _) => apply grows_keeps, keeps_stmt; reflexivity
    | |- grows _ (bind _ _) => apply grows_bind; [ | intros; cbv beta ]
    | |- grows _ (match ?x with _ => _ end) => destruct x
    | |- grows _ _ => progress unfold query, exec
    end.

Lemma grows_logs_syncImageOwners env imageGen result :
  grows logs (syncImageOwners env imageGen result).
Proof. unfold syncImageOwners. grows_logs. Qed.

Lemma keeps_images_syncImageOwners env imageGen result :
  keeps (fun w => image_generations (db w)) (syncImageOwners env imageGen result).
Proof.
  unfold syncImageOwners.
  repeat first
    [ lazymatch goal with
      | |- keeps _ (stmt _ _) =>
          apply (keeps_stmt_table _ image_generations); intros; reflexivity
      | |- keeps _ (if ?b then _ else _) => destruct b
      | _ => keeps_step
      end
    | keeps_unfold ].
Qed.

Lemma keeps_db_cacheImage env result : keeps db (cacheImage env result).
Proof.
  unfold cacheImage, DownloadFromURL.
  repeat first
    [ lazymatch goal with
      | |- keeps _ (fun w => _) => intros w; reflexivity
      | _ => keeps_step
      end ].
Qed.

Lemma keeps_stmts_cacheImage env result : keeps stmts (cacheImage env result).
Proof.
  unfold cacheImage, DownloadFromURL.
  repeat first
    [ lazymatch goal with
      | |- keeps _ (fun w => _) => intros w; reflexivity
      | _ => keeps_step
      end ].
Qed.

Lemma keeps_clock_cacheImage env result : keeps clock (cacheImage env result).
Proof.
  unfold cacheImage, DownloadFromURL.
  repeat first
    [ lazymatch goal with
      | |- keeps _ (fun w => _) => intros w; reflexivity
      | _ => keeps_step
      end ].
Qed.

(** What [completeImageGeneration] does after the caching step. *)
Lemma completeImageGeneration_run env imageGenID result w :
  completeImageGeneration env imageGenID result w =
    bind (findImageGeneration env imageGenID)
      (fun found =>
         match found with
         | Err _ => log Error "Failed to load image generation"
         | Ok imageGen =>
             bind (exec env (updateImageGeneration imageGenID
                               (markCompleted result (clock w))))
               (fun _ => bind (log Info "Image generation completed")
                  (fun _ => syncImageOwners env imageGen result))
         end)
      (snd (cacheImage env result w)).
Proof.
  unfold completeImageGeneration. unfold bind at 1 2. unfold Now.
  destruct (cacheImage env result w) as [u w0]. reflexivity.
Qed.

Lemma completeImageGeneration_rows env imageGenID result w :
  store_fault env (stmts w) = false ->
  store_fault env (S (stmts w)) = false ->
  has_image_generation imageGenID (db w) ->
  image_generations (db (snd (completeImageGeneration env imageGenID result w)))
    = completed_rows imageGenID result (clock w) (image_generations (db w)).
Proof.
  intros H0 H1 (g & Hg & Hid).
  rewrite completeImageGeneration_run.
  pose proof (keeps_db_cacheImage env result w) as Hdb.
  pose proof (keeps_stmts_cacheImage env result w) as Hstmts.
  set (w0 := snd (cacheImage env result w)) in *.
  unfold findImageGeneration, query. unfold bind at 1.
  rewrite stmt_sound by (rewrite Hstmts; exact H0). cbn [fst snd].
  destruct (first_by_found ig_ID (fun g => ig_ID g =? imageGenID)
              (image_generations (db w)) g) as (g' & Hfound).
  { apply list_elem_of_In, Hg. }
  { apply Z.eqb_eq, Hid. }
  rewrite Hdb, Hfound.
  unfold bind at 1, exec.
  rewrite stmt_sound by (cbn [stmts with_db with_stmts]; rewrite Hstmts; exact H1).
  cbn [fst snd].
  pose proof (keeps_bind (fun w => image_generations (db w))
                (log Info "Image generation completed")
                (fun _ => syncImageOwners env g' result)
                ltac:(keeps_auto)
                (fun _ => keeps_images_syncImageOwners env g' result)) as Hk.
  rewrite Hk. reflexivity.
Qed.

Lemma cacheImage_failure_logged env result download e w :
  localStorage env = Some download ->
  cacheable (ir_ImageURL result) = true ->
  download (ir_ImageURL result) = Err e ->
  (Warn, "Failed to download image to local storage")
    ∈ logs (snd (cacheImage env result w)).
Proof.
  intros Hs Hc He. unfold cacheImage. rewrite Hs.
  unfold cacheable in Hc. rewrite Hc.
  unfold bind, DownloadFromURL. rewrite He. simpl. apply list_elem_of_In. left.
  reflexivity.
Qed.

(** C7.  Let the record be in the store and the store execute the lookup
    and the update of [completeImageGeneration].  Then every row of the
    record is marked completed with the provider result's URL as its
    image_url; its width (height) is the result's when that is positive and
    the old one otherwise; the other rows are as they were.  This holds
    whatever the local storage does: a download that fails leaves a warning
    in the log and nothing else. *)
Theorem C7_completed_record_holds_the_provider_url
    (env : Env) (imageGenID : Z) (result : ImageResult) (w : World) :
  store_fault env (stmts w) = false ->
  store_fault env (S (stmts w)) = false ->
  has_image_generation imageGenID (db w) ->
  let w' := snd (completeImageGeneration env imageGenID result w) in
  image_generations (db w')
    = completed_rows imageGenID result (clock w) (image_generations (db w)) /\
  (forall g', g' ∈ image_generations (db w') -> ig_ID g' = imageGenID ->
     ig_Status g' = ImageStatusCompleted /\
     ig_ImageURL g' = Some (ir_ImageURL result)) /\
  (forall g, g ∈ image_generations (db w) -> ig_ID g = imageGenID ->
     exists g', g' ∈ image_generations (db w') /\ ig_ID g' = imageGenID /\
       ig_Width g' = (if 0 <? ir_Width result then Some (ir_Width result)
                      else ig_Width g) /\
       ig_Height g' = (if 0 <? ir_Height result then Some (ir_Height result)
                       else ig_Height g)) /\
  (forall download e,
     localStorage env = Some download ->
     cacheable (ir_ImageURL result) = true ->
     download (ir_ImageURL result) = Err e ->
     (Warn, "Failed to download image to local storage") ∈ logs w').
Proof.
  intros H0 H1 Hhas. cbv zeta.
  pose proof (completeImageGeneration_rows env imageGenID result w H0 H1 Hhas) as Hrows.
  split; [exact Hrows|]. split; [|split].
  - intros g' Hg' Hid. rewrite Hrows in Hg'. unfold completed_rows in Hg'.
    apply list_elem_of_fmap in Hg' as (g0 & -> & _).
    destruct (ig_ID g0 =? imageGenID) eqn:E; [split; reflexivity|].
    apply Z.eqb_neq in E. contradiction.
  - intros g Hg Hid. exists (markCompleted result (clock w) g).
    split; [|repeat split; exact Hid].
    rewrite Hrows. unfold completed_rows. apply list_elem_of_fmap.
    exists g. split; [|exact Hg].
    apply Z.eqb_eq in Hid. rewrite Hid. reflexivity.
  - intros download e Hs Hc He. rewrite completeImageGeneration_run.
    apply (grows_in logs).
    + unfold findImageGeneration.
      repeat first [ apply grows_logs_syncImageOwners | progress grows_logs ].
    + eapply cacheImage_failure_logged; eassumption.
Qed.

Lemma C7_witness :
  image_generations
    (db (snd (completeImageGeneration brokenStorageEnv 5 doneResult
                (newWorld ∅ imagesDB))))
    = [mkImageGeneration 5 None None None "storyboard" ImageStatusCompleted
         (Some "job-1") (Some "https://provider.example/out.png") None
         (Some 1024) None (Some 0)] /\
  (Warn, "Failed to download image to local storage")
    ∈ logs (snd (completeImageGeneration brokenStorageEnv 5 doneResult
                   (newWorld ∅ imagesDB))).
Proof.
  destruct (C7_completed_record_holds_the_provider_url brokenStorageEnv 5 doneResult
              (newWorld ∅ imagesDB) eq_refl eq_refl)
    as (Hrows & _ & _ & Hlog).
  - exists demoImageGeneration. split; [|reflexivity].
    apply list_elem_of_In. left. reflexivity.
  - split; [exact Hrows|].
    exact (Hlog (fun _ => Err "disk full") "disk full" eq_refl eq_refl eq_refl).
Defined.

(** ** Resolving the image client (C8) *)

Lemma clientForProvider_unknown name config model :
  known_provider name = false ->
  clientForProvider name config model =
    NewOpenAIImageClient (cfg_BaseURL config) (cfg_APIKey config) model
      "/images/generations".
Proof.
  unfold known_provider, clientForProvider. cbn [existsb].
  intros H. repeat (apply orb_false_elim in H as [? H]).
  repeat match goal with E : String.eqb name _ = false |- _ => rewrite E; clear E end.
  reflexivity.
Qed.

Lemma getImageClientWithModel_default env provider modelName w :
  modelName = "" \/ is_ok (GetConfigForModel env "image" modelName) = false ->
  fst (getImageClientWithModel env provider modelName w) =
    match GetDefaultConfig env "image" with
    | Ok config => Ok (resolvedWith provider modelName config)
    | Err e => Err ("no image AI config found: " +:+ e)
    end.
Proof.
  intros H. unfold getImageClientWithModel, try_bind, defaultImageConfig.
  destruct (String.eqb modelName "") eqn:Em; cbn [negb].
  - unfold bind, ret. cbn [fst snd]. unfold resolvedWith, modelOf, actualProviderOf.
    rewrite Em. destruct (GetDefaultConfig env "image"); reflexivity.
  - destruct H as [->|H]; [discriminate|].
    destruct (GetConfigForModel env "image" modelName); [discriminate|].
    unfold bind, ret, log. cbn [fst snd].
    unfold resolvedWith, modelOf, actualProviderOf. rewrite Em.
    destruct (GetDefaultConfig env "image"); reflexivity.
Qed.

Lemma getImageClientWithModel_result env provider modelName w :
  (exists config,
     fst (getImageClientWithModel env provider modelName w)
       = Ok (resolvedWith provider modelName config)) \/
  (exists e,
     GetDefaultConfig env "image" = Err e /\
     fst (getImageClientWithModel env provider modelName w)
       = Err ("no image AI config found: " +:+ e)).
Proof.
  destruct (String.eqb modelName "") eqn:Em.
  - rewrite getImageClientWithModel_default by (left; apply String.eqb_eq, Em).
    destruct (GetDefaultConfig env "image") as [config|e]; eauto.
  - destruct (GetConfigForModel env "image" modelName) as [config|e] eqn:Ec.
    + left. exists config.
      unfold getImageClientWithModel, try_bind. rewrite Em, Ec. cbn [negb].
      unfold bind, ret. cbn [fst snd].
      unfold resolvedWith, modelOf, actualProviderOf. rewrite Em. reflexivity.
    + rewrite getImageClientWithModel_default by (right; rewrite Ec; reflexivity).
      destruct (GetDefaultConfig env "image") as [config|e']; eauto.
Qed.

Lemma getImageClientWithModel_in_use env provider modelName config w :
  config_in_use env modelName config ->
  fst (getImageClientWithModel env provider modelName w)
    = Ok (resolvedWith provider modelName config).
Proof.
  intros [[Hm Hc]|[Hd Hc]].
  - apply String.eqb_neq in Hm.
    unfold getImageClientWithModel, try_bind. rewrite Hm, Hc. cbn [negb].
    unfold bind, ret. cbn [fst snd].
    unfold resolvedWith, modelOf, actualProviderOf. rewrite Hm. reflexivity.
  - rewrite getImageClientWithModel_default by exact Hd. rewrite Hc. reflexivity.
Qed.

Lemma getImageClientWithModel_config env provider modelName w c :
  fst (getImageClientWithModel env provider modelName w) = Ok c ->
  exists config,
    config_in_use env modelName config /\ c = resolvedWith provider modelName config.
Proof.
  intros Hc.
  assert (Hcase :
    (exists config, config_in_use env modelName config) \/
    fst (getImageClientWithModel env provider modelName w)
      = match GetDefaultConfig env "image" with
        | Ok config => Ok (resolvedWith provider modelName config)
        | Err e => Err ("no image AI config found: " +:+ e)
        end /\ is_ok (GetDefaultConfig env "image") = false).
  { destruct (String.eqb modelName "") eqn:Em.
    - apply String.eqb_eq in Em.
      destruct (GetDefaultConfig env "image") as [config|e] eqn:Ed.
      + left. exists config. right. split; [left; exact Em | exact Ed].
      + right. split; [|reflexivity].
        rewrite getImageClientWithModel_default by (left; exact Em).
        rewrite Ed. reflexivity.
    - apply String.eqb_neq in Em.
      destruct (GetConfigForModel env "image" modelName) as [config|e] eqn:Ec.
      + left. exists config. left. split; [exact Em | exact Ec].
      + destruct (GetDefaultConfig env "image") as [config|e'] eqn:Ed.
        * left. exists config. right. split; [|exact Ed].
          right. rewrite Ec. reflexivity.
        * right. split; [|reflexivity].
          rewrite getImageClientWithModel_default by (right; rewrite Ec; reflexivity).
          rewrite Ed. reflexivity. }
  destruct Hcase as [(config & Huse)|[Hrun Hnone]].
  - exists config. split; [exact Huse|].
    rewrite (getImageClientWithModel_in_use env provider modelName config w Huse) in Hc.
    injection Hc as <-. reflexivity.
  - rewrite Hrun in Hc. destruct (GetDefaultConfig env "image"); discriminate.
Qed.

(** C8.  (1) When a model is named and the lookup of its config fails,
    [getImageClientWithModel] logs a warning and answers as the default
    image config dictates: a client built from it, not the lookup's error.
    (2) Whenever it returns an error, there is no default image config and
    the error says so.  (3) Whenever it returns a client, the client is
    built from the config in use (the named model's own, or the default
    one when no model is named or its lookup failed).  (4) Whenever the
    provider settled on for the config in use (the config's, or the
    record's when the config names none) is outside
    openai/dalle/chatfire/volcengine/volces/doubao/gemini/google, the
    resolution returns the OpenAI-compatible client on
    [/images/generations], built from that config's base URL and key. *)
Theorem C8_image_client_resolution
    (env : Env) (provider modelName : string) (w : World) :
  (modelName <> "" ->
   is_ok (GetConfigForModel env "image" modelName) = false ->
   fst (getImageClientWithModel env provider modelName w) =
     match GetDefaultConfig env "image" with
     | Ok config => Ok (resolvedWith provider modelName config)
     | Err e => Err ("no image AI config found: " +:+ e)
     end /\
   logs (snd (getImageClientWithModel env provider modelName w))
     = (Warn, "Failed to get config for model, using default") :: logs w) /\
  (forall err,
     fst (getImageClientWithModel env provider modelName w) = Err err ->
     exists e, GetDefaultConfig env "image" = Err e /\
               err = "no image AI config found: " +:+ e) /\
  (forall c,
     fst (getImageClientWithModel env provider modelName w) = Ok c ->
     exists config,
       config_in_use env modelName config /\
       c = resolvedWith provider modelName config) /\
  (forall config,
     config_in_use env modelName config ->
     known_provider (actualProviderOf provider config) = false ->
     fst (getImageClientWithModel env provider modelName w)
       = Ok (NewOpenAIImageClient (cfg_BaseURL config) (cfg_APIKey config)
               (modelOf modelName config) "/images/generations")).
Proof.
  split; [|split; [|split]].
  - intros Hm Hc. split.
    + apply getImageClientWithModel_default. right. exact Hc.
    + apply String.eqb_neq in Hm.
      unfold getImageClientWithModel, try_bind. rewrite Hm. cbn [negb].
      destruct (GetConfigForModel env "image" modelName); [discriminate|].
      unfold bind, ret, log, defaultImageConfig. cbn [fst snd].
      destruct (GetDefaultConfig env "image"); reflexivity.
  - intros err Herr.
    destruct (getImageClientWithModel_result env provider modelName w)
      as [(config & H)|(e & He & H)]; rewrite H in Herr; [discriminate|].
    injection Herr as <-. eauto.
  - intros c Hc. exact (getImageClientWithModel_config env provider modelName w c Hc).
  - intros config Huse Hunknown.
    rewrite (getImageClientWithModel_in_use env provider modelName config w Huse).
    unfold resolvedWith. rewrite clientForProvider_unknown by exact Hunknown.
    reflexivity.
Qed.

(** C8, witness.  Only a default image config exists, of the provider
    [midjourney-proxy], which is none of the known names.  A request that
    names a model without a config of its own is answered from the default
    config, with a warning; so is a request that names no model, with the
    config's first model.  Both get the OpenAI-compatible client on
    [/images/generations]. *)
Lemma C8_witness :
  (fst (getImageClientWithModel defaultOnlyEnv "openai" "unknown-model"
          (newWorld ∅ emptyDB))
     = Ok (resolvedWith "openai" "unknown-model" demoConfig) /\
   logs (snd (getImageClientWithModel defaultOnlyEnv "openai" "unknown-model"
                (newWorld ∅ emptyDB)))
     = [(Warn, "Failed to get config for model, using default")]) /\
  fst (getImageClientWithModel defaultOnlyEnv "openai" "unknown-model"
         (newWorld ∅ emptyDB))
    = Ok (NewOpenAIImageClient "https://images.example/v1" "secret" "unknown-model"
            "/images/generations") /\
  fst (getImageClientWithModel defaultOnlyEnv "gemini" "" (newWorld ∅ emptyDB))
    = Ok (NewOpenAIImageClient "https://images.example/v1" "secret" "mj-6"
            "/images/generations").
Proof.
  split; [|split].
  - exact (proj1 (C8_image_client_resolution defaultOnlyEnv "openai" "unknown-model"
                    (newWorld ∅ emptyDB))
             ltac:(discriminate) eq_refl).
  - apply (proj2 (proj2 (proj2 (C8_image_client_resolution defaultOnlyEnv "openai"
                                  "unknown-model" (newWorld ∅ emptyDB))))
             demoConfig).
    + right. split; [right; reflexivity | reflexivity].
    + reflexivity.
  - apply (proj2 (proj2 (proj2 (C8_image_client_resolution defaultOnlyEnv "gemini" ""
                                  (newWorld ∅ emptyDB))))
             demoConfig).
    + right. split; [left; reflexivity | reflexivity].
    + reflexivity.
Defined.

(** ** The ends of the poll loop (C3) *)




(** ** Multi-frame prompts (C5, C10) *)

Section Frames.

Variable env : Env.
Variable sb : LoadedStoryboard.
Variable scene : option Scene.
Variable model : string.













End Frames.

(** *** The combined record *)

Lemma parse_digits_token s acc n :
  parse_digits s acc = Some n -> number_token s = s.
Proof.
  revert acc. induction s as [|c s IH]; intros acc; [reflexivity|].
  simpl. destruct (is_digit c) eqn:Ed; [|discriminate].
  intros H. simpl. rewrite (IH _ H). reflexivity.
Qed.

Lemma is_digit_not_space c : is_digit c = true -> is_space c = false.
Proof.
  unfold is_digit, is_space. intros H.
  apply andb_true_iff in H as [H1 H2].
  apply Nat.leb_le in H1. apply Nat.leb_le in H2.
  repeat (apply orb_false_intro); apply Nat.eqb_neq; lia.
Qed.

(** A storyboard id the store accepts as a key scans to the same number. *)
Lemma mustParseUint_key s n : sql_key s = Some n -> mustParseUint s = n.
Proof.
  unfold sql_key, mustParseUint. intros H.
  destruct (ParseUint s 64) as [m|] eqn:Ep; [|discriminate].
  injection H as ->.
  assert (Hs : number_token (skip_space s) = s).
  { revert Ep. unfold ParseUint. destruct s as [|c s]; [discriminate|].
    destruct (parse_digits (String c s) 0) as [m|] eqn:Ed; [|discriminate].
    intros _. assert (Hc : is_digit c = true).
    { simpl in Ed. destruct (is_digit c); [reflexivity | discriminate]. }
    cbn [skip_space]. rewrite (is_digit_not_space c Hc).
    eapply parse_digits_token, Ed. }
  rewrite Hs, Ep. reflexivity.
Qed.

Lemma key_is_sql s n x : sql_key s = Some n -> key_is s x = (n =? x).
Proof. unfold key_is. intros ->. reflexivity. Qed.

Lemma saveFramePrompt_db env storyboardID frameType prompt description layout w :
  store_sound env ->
  let kept :=
    List.filter
      (fun f => negb (key_is storyboardID (fp_StoryboardID f)
                      && String.eqb (fp_FrameType f) frameType))
      (frame_prompts (db w)) in
  db (snd (saveFramePrompt env storyboardID frameType prompt description layout w))
    = with_frame_prompts
        (kept ++ [mkFramePrompt (next_id (map fp_ID kept)) (mustParseUint storyboardID)
                    frameType prompt (nonempty description) (nonempty layout)])
        (db w).
Proof.
  intros Hst. cbv zeta. unfold saveFramePrompt, exec.
  unfold bind at 1. rewrite stmt_sound by apply Hst. cbn [fst snd].
  unfold bind at 1. rewrite stmt_sound by apply Hst. cbn [fst snd is_ok negb when].
  reflexivity.
Qed.

Lemma framePromptsOf_saved storyboardID n frameType rows new_id prompt description layout d :
  sql_key storyboardID = Some n ->
  framePromptsOf n frameType
    (with_frame_prompts
       (List.filter
          (fun f => negb (key_is storyboardID (fp_StoryboardID f)
                          && String.eqb (fp_FrameType f) frameType)) rows
        ++ [mkFramePrompt new_id (mustParseUint storyboardID) frameType prompt
              description layout]) d)
    = [mkFramePrompt new_id n frameType prompt description layout].
Proof.
  intros Hk. unfold framePromptsOf. cbn [frame_prompts with_frame_prompts].
  rewrite List.filter_app. rewrite (mustParseUint_key _ _ Hk).
  cbn [List.filter fp_StoryboardID fp_FrameType].
  rewrite Z.eqb_refl, String.eqb_refl. cbn [andb].
  assert (Hnone :
    List.filter
      (fun f => (fp_StoryboardID f =? n) && String.eqb (fp_FrameType f) frameType)
      (List.filter
         (fun f => negb (key_is storyboardID (fp_StoryboardID f)
                         && String.eqb (fp_FrameType f) frameType)) rows) = []).
  { induction rows as [|f rows IH]; [reflexivity|].
    cbn [List.filter]. rewrite (key_is_sql _ _ _ Hk).
    rewrite (Z.eqb_sym n).
    destruct ((fp_StoryboardID f =? n) && String.eqb (fp_FrameType f) frameType)
      eqn:E; cbn [negb]; [exact IH|].
    cbn [List.filter]. rewrite E. exact IH. }
  rewrite Hnone. reflexivity.
Qed.

Lemma nonempty_some s : s <> "" -> nonempty s = Some s.
Proof.
  intros H. unfold nonempty. apply String.eqb_neq in H. rewrite H. reflexivity.
Qed.

Lemma has_storyboard_key storyboardID d :
  has_storyboard storyboardID d -> exists n, sql_key storyboardID = Some n.
Proof.
  intros (row & _ & Hk). unfold key_is in Hk.
  destruct (sql_key storyboardID) as [n|]; [eauto | discriminate].
Qed.

Lemma loadStoryboard_found storyboardID d :
  has_storyboard storyboardID d -> exists sb, loadStoryboard storyboardID d = Ok sb.
Proof.
  intros (row & Hrow & Hk). unfold loadStoryboard.
  destruct (first_by_found st_ID (fun r => key_is storyboardID (st_ID r))
              (storyboards d) row) as (row' & ->); [apply list_elem_of_In, Hrow | exact Hk |].
  simpl. eauto.
Qed.

Lemma multiFrame_outcome env taskID req description frames n :
  registry_sound env -> store_sound env ->
  sql_key (req_StoryboardID req) = Some n -> description <> "" ->
  hoare (live taskID) (multiFrame env taskID req description frames)
    (fun r w' => r = Returned tt /\ multi_outcome taskID req n description frames w').
Proof.
  intros Hs Hst Hk Hd w (t & Ht & Hl).
  pose proof (saveFramePrompt_db env (req_StoryboardID req) (req_FrameType req)
                (combinedPrompt frames) description (Layout frames) w Hst) as Hdb.
  pose proof (keeps_tasks_saveFramePrompt env (req_StoryboardID req) (req_FrameType req)
                (combinedPrompt frames) description (Layout frames) w) as Htasks.
  cbv zeta in Hdb.
  assert (Hrun : exists w',
    multiFrame env taskID req description frames w = (Returned tt, w') /\
    db w' = db (snd (saveFramePrompt env (req_StoryboardID req) (req_FrameType req)
                       (combinedPrompt frames) description (Layout frames) w)) /\
    completed_with taskID
      (FramePromptGenerated
         (mkFramePromptResponse (req_FrameType req) None (Some frames))
         (req_StoryboardID req) (req_FrameType req)) w').
  { unfold multiFrame, finishFramePrompt, UpdateTaskResult. unfold bind at 1.
    destruct (saveFramePrompt env (req_StoryboardID req) (req_FrameType req)
                (combinedPrompt frames) description (Layout frames) w) as [u w1].
    cbn [snd] in Htasks |- *. unfold bind at 1.
    rewrite (registry_write_live env taskID _ w1 t Hs)
      by (try rewrite Htasks; assumption).
    unfold bind, log, ret. eexists. split; [reflexivity|]. split; [reflexivity|].
    eexists. split; [apply lookup_insert_eq | split; reflexivity]. }
  destruct Hrun as (w' & Hrun & Hdb' & Hdone). rewrite Hrun. cbn [fst snd].
  split; [reflexivity|]. split; [exact Hdone|].
  rewrite Hdb', Hdb.
  rewrite (framePromptsOf_saved _ n _ _ _ _ _ _ _ Hk).
  rewrite (nonempty_some description Hd). eexists. reflexivity.
Qed.

Lemma hoare_run_processing_db {A} env taskID (X : DB -> Prop) progress message
    (rest : M A) (Q : A -> World -> Prop) :
  registry_sound env ->
  hoare (fun w => live taskID w /\ X (db w)) rest Q ->
  hoare (fun w => live taskID w /\ X (db w))
    (bind (UpdateTaskStatus env taskID "processing" progress message) (fun _ => rest)) Q.
Proof.
  intros Hs Hrest. eapply hoare_bind.
  - apply hoare_and.
    + apply hoare_UpdateTaskStatus_processing, Hs.
    + apply (hoare_keeps db X). unfold UpdateTaskStatus. keeps_auto.
  - intros r w [[_ Hl] HX]. apply Hrest. auto.
Qed.

Lemma hoare_query {A} env taskID (X : DB -> Prop) (q : DB -> Result A) :
  store_sound env ->
  hoare (fun w => live taskID w /\ X (db w)) (query env q)
    (fun r w' => (live taskID w' /\ X (db w')) /\ r = q (db w')).
Proof.
  intros Hst w [Hl HX]. unfold query. rewrite stmt_sound by apply Hst.
  cbn [fst snd db with_db with_stmts]. auto.
Qed.

Lemma keeps_db_generateFrame env sys key suffix desc sb scene model :
  keeps db (generateFrame env sys key suffix desc sb scene model).
Proof. unfold generateFrame, generateWithModel. keeps_auto. Qed.

Lemma keeps_db_generatePanelFrames env sb scene count model :
  keeps db (generatePanelFrames env sb scene count model).
Proof.
  unfold generatePanelFrames, generateFirstFrame, generateKeyFrame, generateLastFrame.
  repeat first [ apply keeps_db_generateFrame | keeps_step ].
Qed.

Lemma keeps_db_generateActionSequence env sb scene model :
  keeps db (generateActionSequence env sb scene model).
Proof.
  unfold generateActionSequence, generateFirstFrame, generateKeyFrame, generateLastFrame.
  repeat first [ apply keeps_db_generateFrame | keeps_step ].
Qed.

(** Running [m] from a live task: the task stays live, and the result and
    the world reached are a run of [m]. *)
Lemma hoare_run {A} taskID (m : M A) :
  keeps tasks m ->
  hoare (live taskID) m (fun a w' => live taskID w' /\ exists w1, m w1 = (a, w')).
Proof.
  intros Hk w Hl. split.
  - exact (live_frame taskID m Hk w Hl).
  - exists w. destruct (m w); reflexivity.
Qed.

Lemma maxFrames_value : maxFrames = 8796093022208.
Proof. reflexivity. Qed.

Lemma generatePanelFrames_panics env sb scene count model w msg :
  fst (generatePanelFrames env sb scene count model w) = Panicked msg ->
  count < 0 \/ maxFrames < count.
Proof.
  unfold generatePanelFrames.
  destruct (count <? 0) eqn:E; [intros _; left; lia|].
  destruct (maxFrames <? count) eqn:E'; [intros _; right; lia|].
  cbn [orb]. destruct (count =? 3).
  { unfold bind, ret.
    destruct (generateFirstFrame env sb scene model w) as [f0 w1].
    destruct (generateKeyFrame env sb scene model w1) as [f1 w2].
    destruct (generateLastFrame env sb scene model w2) as [f2 w3]. discriminate. }
  destruct (count =? 4).
  { unfold bind, ret.
    destruct (generateFirstFrame env sb scene model w) as [f0 w1].
    destruct (generateKeyFrame env sb scene model w1) as [f1 w2].
    destruct (generateKeyFrame env sb scene model w2) as [f2 w3].
    destruct (generateLastFrame env sb scene model w3) as [f3 w4]. discriminate. }
  discriminate.
Qed.

(** The scene lookup of [processFramePromptGeneration]. *)
Lemma hoare_scene_lookup env taskID (X : DB -> Prop) (sceneID : option Z) :
  hoare (fun w => live taskID w /\ X (db w))
    (match sceneID with
     | None => ret None
     | Some id =>
         bind (query env (fun d => first_by sc_ID (fun sc => sc_ID sc =? id) (scenes d)))
           (fun found =>
              match found with
              | Ok sc => ret (Some sc)
              | Err _ =>
                  bind (log Warn "Scene not found during frame prompt generation")
                    (fun _ => ret None)
              end)
     end)
    (fun _ w' => live taskID w' /\ X (db w')).
Proof.
  apply hoare_live_db; [keeps_auto|].
  repeat first [ apply keeps_db_query | keeps_step ].
Qed.

Lemma processFramePromptGeneration_panel env taskID req model n :
  registry_sound env -> store_sound env ->
  req_FrameType req = FrameTypePanel ->
  sql_key (req_StoryboardID req) = Some n ->
  hoare (fun w => live taskID w /\ has_storyboard (req_StoryboardID req) (db w))
    (processFramePromptGeneration env taskID req model)
    (fun r w' =>
       (0 <= panelCountOf req <= maxFrames -> r = Returned tt) /\
       (r = Returned tt ->
        exists storyboard scene frames w1 w2,
          generatePanelFrames env storyboard scene (panelCountOf req) model w1
            = (Returned frames, w2) /\
          multi_outcome taskID req n "分镜板组合提示词" frames w')).
Proof.
  intros Hs Hst Htype Hk. unfold processFramePromptGeneration.
  apply hoare_run_processing_db; [exact Hs|].
  eapply hoare_bind; [apply hoare_query, Hst|].
  intros loaded. cbv beta.
  destruct loaded as [storyboard|err].
  2: { intros w [[_ Hhas] Hload].
       destruct (loadStoryboard_found _ _ Hhas) as (sb & Hsb).
       rewrite Hsb in Hload. discriminate. }
  eapply hoare_weaken with
    (P' := fun w => live taskID w /\ has_storyboard (req_StoryboardID req) (db w));
    [| intros w [H _]; exact H | intros a w H; exact H].
  eapply hoare_bind; [apply hoare_scene_lookup | intros scene; cbv beta].
  rewrite Htype. cbn [String.eqb Ascii.eqb Bool.eqb FrameTypeFirst FrameTypeKey
                        FrameTypeLast FrameTypePanel FrameTypeAction].
  fold (panelCountOf req).
  eapply hoare_weaken with (P' := live taskID);
    [| intros w [H _]; exact H | intros a w H; exact H].
  eapply hoare_bind;
    [apply hoare_run, keeps_tasks_generatePanelFrames | intros [frames|msg]; cbv beta iota].
  - intros w [Hl (w1 & Hgen)].
    destruct (multiFrame_outcome env taskID req "分镜板组合提示词" frames n Hs Hst
                Hk ltac:(discriminate) w Hl) as [Hr Hout].
    split; [intros _; exact Hr|].
    intros _. exists storyboard, scene, frames, w1, w. split; [|exact Hout].
    exact Hgen.
  - intros w [Hl (w1 & Hgen)]. unfold ret. cbn [fst snd]. split; [|discriminate].
    intros Hcount.
    assert (Hneg : panelCountOf req < 0 \/ maxFrames < panelCountOf req).
    { eapply generatePanelFrames_panics. rewrite Hgen. reflexivity. }
    lia.
Qed.





(** The run of the witness.  No provider is configured, so each frame
    falls back to its fixed prompt; the three panels carry their labels and
    the record holds the three prompts with the separator between them. *)
Lemma processFramePromptGeneration_panel_demo :
  let w' :=
    snd (processFramePromptGeneration baseEnv "t1" (panelRequest "1" 3) ""
           (newWorld frameTasks framesDB)) in
  completed_with "t1"
    (FramePromptGenerated
       (mkFramePromptResponse FrameTypePanel None
          (Some (mkMultiFramePrompt "horizontal_3"
                   [mkSingleFramePrompt "anime style, first frame, static shot"
                      "第1格：初始状态";
                    mkSingleFramePrompt "anime style, key frame, dynamic action"
                      "第2格：动作高潮";
                    mkSingleFramePrompt "anime style, last frame, final state"
                      "第3格：最终状态"])))
       "1" FrameTypePanel) w' /\
  frame_prompts (db w')
    = [mkFramePrompt 1 1 FrameTypePanel
         ("anime style, first frame, static shot" +:+ nl +:+ "---" +:+ nl +:+
          "anime style, key frame, dynamic action" +:+ nl +:+ "---" +:+ nl +:+
          "anime style, last frame, final state")
         (Some "分镜板组合提示词") (Some "horizontal_3")].
Proof.
  cbv zeta. split; [|vm_compute; reflexivity].
  eexists. split; [vm_compute; reflexivity | split; reflexivity].
Qed.

(** ** Panels of other sizes (C10) *)

Lemma generatePanelFrames_unfilled env sb scene count model w :
  0 <= count <= maxFrames -> count <> 3 -> count <> 4 ->
  generatePanelFrames env sb scene count model w = (Returned (unfilledPanel count), w).
Proof.
  intros H0 H3 H4. unfold generatePanelFrames.
  destruct (count <? 0) eqn:E; [apply Z.ltb_lt in E; lia|].
  destruct (maxFrames <? count) eqn:E'; [apply Z.ltb_lt in E'; lia|]. cbn [orb].
  apply Z.eqb_neq in H3. apply Z.eqb_neq in H4. rewrite H3, H4. reflexivity.
Qed.

Lemma keeps_events_unfilled_panel env taskID req model :
  req_FrameType req = FrameTypePanel ->
  panelCountOf req <> 3 -> panelCountOf req <> 4 ->
  keeps events (processFramePromptGeneration env taskID req model).
Proof.
  intros Htype H3 H4. unfold processFramePromptGeneration.
  rewrite Htype. cbn [String.eqb Ascii.eqb Bool.eqb FrameTypeFirst FrameTypeKey
                        FrameTypeLast FrameTypePanel FrameTypeAction].
  fold (panelCountOf req).
  assert (Hgen : forall sb scene,
            keeps events (generatePanelFrames env sb scene (panelCountOf req) model)).
  { intros sb scene. unfold generatePanelFrames.
    apply Z.eqb_neq in H3. apply Z.eqb_neq in H4. rewrite H3, H4.
    destruct ((panelCountOf req <? 0) || (maxFrames <? panelCountOf req));
      apply keeps_ret. }
  unfold UpdateTaskStatus.
  repeat first
    [ apply Hgen
    | keeps_step
    | progress unfold when, when_ok, query, exec, multiFrame, saveFramePrompt,
        finishFramePrompt, UpdateTaskResult, UpdateTaskStatus ].
Qed.

Lemma join_empty_prompts k :
  Join (map Prompt (repeat (mkSingleFramePrompt "" "") (S k))) frameSeparator
    = separators k.
Proof.
  unfold Join. induction k as [|k IH]; [reflexivity|].
  change (repeat (mkSingleFramePrompt "" "") (S (S k)))
    with (mkSingleFramePrompt "" "" :: repeat (mkSingleFramePrompt "" "") (S k)).
  cbn [map Prompt String.concat separators] in *. rewrite IH. reflexivity.
Qed.

(** C10 (as amended).  A [panel] request with a PanelCount of 0 runs as
    the same request with a count of 3.  With a count other than 3 and 4,
    at least 1 and at most [maxFrames], the longest slice [make] builds (the
    registry and the store accepting what they are sent, the task live, the
    storyboard in the store) the job returns without a
    single call outside the process, the task is completed with a
    multi-frame response of layout [horizontal_<count>] and exactly [count]
    frames whose prompt and description are empty, and the record saved for
    the storyboard has as its prompt [count - 1] separators and nothing
    else. *)
Theorem C10_panel_of_another_size_is_left_empty
    (env : Env) (taskID : string) (req : GenerateFramePromptRequest) (model : string)
    (n : Z) (w : World) :
  registry_sound env -> store_sound env ->
  live taskID w ->
  has_storyboard (req_StoryboardID req) (db w) ->
  sql_key (req_StoryboardID req) = Some n ->
  req_FrameType req = FrameTypePanel ->
  (req_PanelCount req = 0 ->
   processFramePromptGeneration env taskID req model w =
     processFramePromptGeneration env taskID (panelRequest (req_StoryboardID req) 3)
       model w) /\
  (1 <= req_PanelCount req <= maxFrames ->
   req_PanelCount req <> 3 -> req_PanelCount req <> 4 ->
   let count := req_PanelCount req in
   let r := fst (processFramePromptGeneration env taskID req model w) in
   let w' := snd (processFramePromptGeneration env taskID req model w) in
   r = Returned tt /\
   events w' = events w /\
   multi_outcome taskID req n "分镜板组合提示词" (unfilledPanel count) w' /\
   Layout (unfilledPanel count) = "horizontal_" +:+ sprint_d count /\
   len (Frames (unfilledPanel count)) = count /\
   Forall (fun f => Prompt f = "" /\ Description f = "") (Frames (unfilledPanel count)) /\
   Join (map Prompt (Frames (unfilledPanel count))) (nl +:+ "---" +:+ nl)
     = separators (Z.to_nat count - 1)).
Proof.
  intros Hs Hst Hl Hhas Hk Htype. split.
  - intros Hzero. destruct req as [sid ft count]. cbn in Htype, Hzero |- *. subst.
    reflexivity.
  - intros H1 H3 H4. cbv zeta.
    assert (Hcount : panelCountOf req = req_PanelCount req).
    { unfold panelCountOf. destruct (req_PanelCount req =? 0) eqn:E; [|reflexivity].
      apply Z.eqb_eq in E. lia. }
    destruct (processFramePromptGeneration_panel env taskID req model n Hs Hst Htype Hk
                w (conj Hl Hhas)) as [Hret Hout].
    rewrite Hcount in Hret, Hout. specialize (Hret ltac:(lia)).
    split; [exact Hret|]. split.
    { apply keeps_events_unfilled_panel; [exact Htype | rewrite Hcount; exact H3
                                          | rewrite Hcount; exact H4]. }
    destruct (Hout Hret) as (sb & scene & frames & w1 & w2 & Hgen & Hmulti).
    rewrite generatePanelFrames_unfilled in Hgen by lia.
    injection Hgen as <- _.
    split; [exact Hmulti|]. split; [reflexivity|]. split; [|split].
    + unfold unfilledPanel, len. cbn [Frames]. rewrite repeat_length. lia.
    + unfold unfilledPanel. cbn [Frames]. apply Forall_forall.
      intros f Hf. apply list_elem_of_In, repeat_spec in Hf. subst. auto.
    + unfold unfilledPanel. cbn [Frames].
      replace (Z.to_nat (req_PanelCount req))
        with (S (Z.to_nat (req_PanelCount req) - 1)) at 1 by lia.
      apply join_empty_prompts.
Qed.

Lemma C10_witness :
  events (snd (processFramePromptGeneration baseEnv "t1" (panelRequest "1" 5) ""
                 (newWorld frameTasks framesDB))) = [] /\
  multi_outcome "t1" (panelRequest "1" 5) 1 "分镜板组合提示词" (unfilledPanel 5)
    (snd (processFramePromptGeneration baseEnv "t1" (panelRequest "1" 5) ""
            (newWorld frameTasks framesDB))).
Proof.
  refine (let H := proj2 (C10_panel_of_another_size_is_left_empty baseEnv "t1"
                            (panelRequest "1" 5) "" 1 (newWorld frameTasks framesDB)
                            _ _ _ _ eq_refl eq_refl) _ _ _ in
          conj (proj1 (proj2 H)) (proj1 (proj2 (proj2 H)))).
  - intros k. reflexivity.
  - intros k. reflexivity.
  - eexists. split; [vm_compute; reflexivity | reflexivity].
  - exists (demoRow 1 1). split; [apply list_elem_of_In; left; reflexivity | reflexivity].
  - cbn. rewrite maxFrames_value. lia.
  - cbn. lia.
  - cbn. lia.
Defined.

(** C10, counterexample.  A [panel] request with a PanelCount of -1, a
    count other than 0, 3 and 4: [make([]SingleFramePrompt, -1)] panics, the
    job does not return, and the task it had moved to [processing] is never
    completed. *)
Lemma C10_counterexample :
  let outcome :=
    processFramePromptGeneration baseEnv "t1" (panelRequest "1" (-1)) ""
      (newWorld frameTasks framesDB) in
  fst outcome = Panicked "runtime error: makeslice: len out of range" /\
  task_Status <$> tasks (snd outcome) !! "t1" = Some "processing" /\
  frame_prompts (db (snd outcome)) = [].
Proof. vm_compute. repeat split; reflexivity. Qed.

(** ** Characters that already exist (C9) *)

Section Characters.

Variable env : Env.
Variable req : GenerateCharactersRequest.
Variable before : list Character.

Hypothesis store_ok : store_sound env.






End Characters.

Lemma keeps_db_generateWithModel env model prompt sys opts :
  keeps db (generateWithModel env model prompt sys opts).
Proof. unfold generateWithModel. keeps_auto. Qed.


Lemma keeps_tasks_association env episodeID (rows : list Character) :
  keeps tasks
    (when (0 <? episodeID)
       (bind (query env (fun d =>
                first_by ep_ID (fun e => ep_ID e =? episodeID) (episodes d)))
          (fun found =>
             match found with
             | Ok episode =>
                 bind (exec env (appendEpisodeCharacters (ep_ID episode) rows))
                   (fun appended =>
                      match appended with
                      | Err _ => log Error "Failed to associate characters with episode"
                      | Ok _ => log Info "Characters associated with episode"
                      end)
             | Err _ => log Error "Episode not found for association"
             end))).
Proof. unfold when, query, exec. keeps_auto. Qed.





(** The run of the witness: the stored Chen Zheng keeps the role and the
    picture he had, Li Fang is the one new row, and both are in the result. *)
Lemma processCharacterGeneration_demo :
  let w' :=
    snd (processCharacterGeneration charactersEnv "t1" charactersRequest
           (newWorld characterTasks charactersDB)) in
  characters (db w') = [demoHero; liFang 4] /\
  completed_with "t1" (CharactersGenerated [demoHero; liFang 4] 2) w'.
Proof.
  cbv zeta. split; [vm_compute; reflexivity|].
  eexists. split; [vm_compute; reflexivity | split; reflexivity].
Qed.


(** * Further properties *)

(** ** [saveStoryboards] *)

Lemma Transaction_err_db {A} env (body : M (Result A)) w e :
  fst (Transaction env body w) = Err e ->
  db (snd (Transaction env body w)) = db w.
Proof.
  unfold Transaction, exec, stmt.
  destruct (store_fault env (stmts w)); [reflexivity|]. cbn [fst snd].
  destruct (body _) as [r w2]. destruct r as [a|e']; [|reflexivity].
  destruct (store_fault env (stmts w2)); [reflexivity | discriminate].
Qed.

Lemma saveStoryboards_err_db env episodeID sbs w e :
  fst (saveStoryboards env episodeID sbs w) = Err e ->
  db (snd (saveStoryboards env episodeID sbs w)) = db w.
Proof.
  unfold saveStoryboards.
  destruct (ParseUint episodeID 32) as [epID|]; [|reflexivity].
  destruct (len sbs =? 0); [reflexivity|].
  unfold bind at 1 2, log. cbn [fst snd].
  set (w0 := with_logs _ w).
  intros H. change (db w) with (db w0).
  exact (Transaction_err_db env _ w0 e H).
Qed.

(** X1.  Whenever [saveStoryboards] returns an error the tables are what
    they were before the call: the checks that precede the transaction
    write nothing, and a transaction that fails is rolled back.  This holds
    whatever the store does. *)
Theorem saveStoryboards_error_rolls_back
    (env : Env) (episodeID : string) (sbs : list Storyboard) (w : World) (e : string) :
  fst (saveStoryboards env episodeID sbs w) = Err e ->
  db (snd (saveStoryboards env episodeID sbs w)) = db w.
Proof. apply saveStoryboards_err_db. Qed.

(** The first insert fails after the old shots were deleted: they are back. *)
Lemma saveStoryboards_error_rolls_back_witness :
  fst (saveStoryboards sixthStatementFails "1" [shotOf 1 9] (newWorld demoTasks demoDB))
    = Err "store: statement failed" /\
  db (snd (saveStoryboards sixthStatementFails "1" [shotOf 1 9]
             (newWorld demoTasks demoDB)))
    = demoDB.
Proof.
  assert (H : fst (saveStoryboards sixthStatementFails "1" [shotOf 1 9]
                     (newWorld demoTasks demoDB)) = Err "store: statement failed")
    by (vm_compute; reflexivity).
  split; [exact H|].
  exact (saveStoryboards_error_rolls_back sixthStatementFails "1" [shotOf 1 9]
           (newWorld demoTasks demoDB) _ H).
Defined.

Lemma Transaction_sound {A} env (body : M (Result A)) w :
  store_sound env ->
  Transaction env body w =
    (let (r, w2) := body (with_db (db w) (with_stmts (S (stmts w)) w)) in
     match r with
     | Err e => (Err e, with_db (db w) w2)
     | Ok a => (Ok a, with_db (db w2) (with_stmts (S (stmts w2)) w2))
     end).
Proof.
  intros Hst. unfold Transaction, exec. rewrite stmt_sound by apply Hst.
  cbn [fst snd]. destruct (body _) as [r w2]. destruct r as [a|e]; [|reflexivity].
  rewrite stmt_sound by apply Hst. reflexivity.
Qed.

Section SavedShots.

Variable env : Env.
Hypothesis store_ok : store_sound env.



End SavedShots.





(** ** A failed job leaves the tables alone *)

Lemma unfailed_frame {A} taskID (m : M A) :
  keeps tasks m -> hoare (unfailed taskID) m (fun _ => unfailed taskID).
Proof.
  intros Hk w Hu. unfold unfailed, failed in *. rewrite Hk. exact Hu.
Qed.

Lemma registry_write_ok_unfailed env taskID f w :
  (forall t, task_Status (f t) <> "failed") ->
  is_ok (fst (registry_write env taskID f w)) = true ->
  unfailed taskID (snd (registry_write env taskID f w)).
Proof.
  intros Hf. unfold registry_write.
  destruct (registry_fault env (task_ops w)); [discriminate|].
  destruct (tasks w !! taskID) as [t|]; [|discriminate].
  destruct (is_terminal (task_Status t)); [discriminate|]. intros _.
  intros (t' & Ht' & Hfailed). cbn in Ht'. rewrite lookup_insert_eq in Ht'.
  injection Ht' as <-. exact (Hf t Hfailed).
Qed.

Lemma registry_write_unfailed env taskID f :
  (forall t, task_Status (f t) <> "failed") ->
  hoare (unfailed taskID) (registry_write env taskID f) (fun _ => unfailed taskID).
Proof.
  intros Hf w Hu.
  destruct (is_ok (fst (registry_write env taskID f w))) eqn:E.
  - apply registry_write_ok_unfailed; assumption.
  - revert E. unfold registry_write.
    destruct (registry_fault env (task_ops w)); [intros _; exact Hu|].
    destruct (tasks w !! taskID) as [t|]; [|intros _; exact Hu].
    destruct (is_terminal (task_Status t)); [intros _; exact Hu | discriminate].
Qed.

Lemma keeps_db_registry_write env taskID f : keeps db (registry_write env taskID f).
Proof. apply keeps_registry_write; reflexivity. Qed.

Lemma hoare_status_gate env taskID (d0 : DB) status progress message :
  status <> "failed" ->
  hoare (fun w => db w = d0) (UpdateTaskStatus env taskID status progress message)
    (fun r w => db w = d0 /\ (is_ok r = true -> unfailed taskID w)).
Proof.
  intros Hs w Hd. unfold UpdateTaskStatus. split.
  - rewrite keeps_db_registry_write. exact Hd.
  - apply registry_write_ok_unfailed. intros t. exact Hs.
Qed.

Lemma hoare_unfailed_db {A} taskID (d0 : DB) (m : M A) :
  keeps tasks m -> keeps db m ->
  hoare (fun w => unfailed taskID w /\ db w = d0) m
    (fun _ w => unfailed taskID w /\ db w = d0).
Proof.
  intros Ht Hd. apply hoare_and; [apply unfailed_frame, Ht|].
  apply (hoare_keeps db (fun d => d = d0)), Hd.
Qed.

(** What is left to do once the tables can no longer change. *)
Lemma hoare_db_kept {A} taskID (d0 : DB) (P : World -> Prop) (m : M A) :
  keeps db m -> (forall w, P w -> db w = d0) ->
  hoare P m (fun _ w => failed taskID w -> db w = d0).
Proof. intros Hk HP w Hw _. rewrite Hk. apply HP, Hw. Qed.

Lemma hoare_stays_unfailed {A} taskID (d0 : DB) (m : M A) :
  hoare (unfailed taskID) m (fun _ => unfailed taskID) ->
  hoare (unfailed taskID) m (fun _ w => failed taskID w -> db w = d0).
Proof. intros H w Hu Hf. destruct (H w Hu Hf). Qed.

Lemma hoare_saveStoryboards_gate env taskID (d0 : DB) episodeID sbs :
  hoare (fun w => unfailed taskID w /\ db w = d0) (saveStoryboards env episodeID sbs)
    (fun r w => match r with
                | Err _ => db w = d0
                | Ok _ => unfailed taskID w
                end).
Proof.
  intros w [Hu Hd].
  destruct (fst (saveStoryboards env episodeID sbs w)) as [u|e] eqn:E.
  - exact (unfailed_frame taskID _ (keeps_tasks_saveStoryboards env episodeID sbs) w Hu).
  - rewrite (saveStoryboards_err_db env episodeID sbs w e E). exact Hd.
Qed.

(** X3.  Whatever the registry, the store and the provider do: when
    [processStoryboardGeneration] leaves its task failed, it leaves every
    table as it found it.  The shots of the episode are replaced and the
    episode's duration is written only on the way to [completed]. *)
Theorem processStoryboardGeneration_failed_keeps_the_tables
    (env : Env) (taskID episodeID model prompt : string) (w : World) :
  failed taskID (snd (processStoryboardGeneration env taskID episodeID model prompt w)) ->
  db (snd (processStoryboardGeneration env taskID episodeID model prompt w)) = db w.
Proof.
  set (d0 := db w).
  enough (H : hoare (fun w => db w = d0)
                (processStoryboardGeneration env taskID episodeID model prompt)
                (fun _ w' => failed taskID w' -> db w' = d0))
    by (apply (H w); reflexivity).
  clearbody d0. clear w.
  pose (P := fun w => unfailed taskID w /\ db w = d0).
  assert (Htail : forall err line,
    hoare P
      (bind (log Error line) (fun _ =>
       bind (UpdateTaskError env taskID err) (fun updated =>
       when (negb (is_ok updated)) (log Error "Failed to update task error"))))
      (fun _ w' => failed taskID w' -> db w' = d0)).
  { intros err line. apply hoare_db_kept; [|intros w [_ H]; exact H].
    unfold UpdateTaskError. keeps_auto. }
  assert (Hgate : forall progress message (rest : M unit),
    hoare P rest (fun _ w' => failed taskID w' -> db w' = d0) ->
    hoare (fun w => db w = d0)
      (bind (UpdateTaskStatus env taskID "processing" progress message)
         (fun r => match r with
                   | Err _ => log Error "Failed to update task status"
                   | Ok _ => rest
                   end))
      (fun _ w' => failed taskID w' -> db w' = d0)).
  { intros progress message rest Hrest.
    eapply hoare_bind; [apply hoare_status_gate; discriminate|].
    intros [u|e].
    - eapply hoare_weaken; [exact Hrest | | auto].
      intros w [Hd Hu]. split; [apply Hu; reflexivity | exact Hd].
    - apply hoare_db_kept; [keeps_auto | intros w [Hd _]; exact Hd]. }
  assert (Hgate' : forall progress message (rest : M unit),
    hoare P rest (fun _ w' => failed taskID w' -> db w' = d0) ->
    hoare P
      (bind (UpdateTaskStatus env taskID "processing" progress message)
         (fun r => match r with
                   | Err _ => log Error "Failed to update task status"
                   | Ok _ => rest
                   end))
      (fun _ w' => failed taskID w' -> db w' = d0)).
  { intros progress message rest Hrest.
    eapply hoare_weaken; [apply Hgate, Hrest | intros w [_ H]; exact H | auto]. }
  unfold processStoryboardGeneration.
  apply Hgate.
  eapply hoare_bind; [apply hoare_unfailed_db; keeps_auto | intros ?; cbv beta].
  eapply hoare_bind; [apply hoare_unfailed_db; keeps_auto | intros ?; cbv beta].
  eapply hoare_bind;
    [apply hoare_unfailed_db;
       [apply keeps_tasks_generateWithModel | apply keeps_db_generateWithModel]
    | intros [text|err]; cbv beta iota].
  2: apply Htail.
  apply Hgate'.
  destruct (parseStoryboardResponse env text) as [[shape result]|err].
  2: apply Htail.
  eapply hoare_bind; [apply hoare_unfailed_db; keeps_auto | intros ?; cbv beta].
  eapply hoare_bind; [apply hoare_unfailed_db; keeps_auto | intros ?; cbv beta].
  apply Hgate'.
  eapply hoare_bind; [apply hoare_saveStoryboards_gate|].
  intros [u|err]; cbv beta iota.
  2: { apply hoare_db_kept; [unfold UpdateTaskError; keeps_auto | auto]. }
  apply hoare_stays_unfailed.
  eapply hoare_bind;
    [unfold UpdateTaskStatus; apply registry_write_unfailed; discriminate|].
  intros [u'|err]; [|apply unfailed_frame; keeps_auto].
  eapply hoare_bind; [apply unfailed_frame; keeps_auto | intros ?; cbv beta].
  eapply hoare_bind; [apply unfailed_frame; keeps_auto | intros ?; cbv beta].
  eapply hoare_bind;
    [unfold UpdateTaskResult; apply registry_write_unfailed; discriminate|].
  intros [u''|err]; apply unfailed_frame; keeps_auto.
Qed.

(** No provider is configured: the job fails its task and the fixture's
    tables are untouched. *)
Lemma processStoryboardGeneration_failed_keeps_the_tables_witness :
  failed "t1" (snd (processStoryboardGeneration baseEnv "t1" "1" "" "prompt"
                      (newWorld demoTasks demoDB))) /\
  db (snd (processStoryboardGeneration baseEnv "t1" "1" "" "prompt"
             (newWorld demoTasks demoDB))) = demoDB.
Proof.
  assert (H : failed "t1" (snd (processStoryboardGeneration baseEnv "t1" "1" "" "prompt"
                                  (newWorld demoTasks demoDB)))).
  { eexists. split; [vm_compute; reflexivity | reflexivity]. }
  split; [exact H|].
  exact (processStoryboardGeneration_failed_keeps_the_tables baseEnv "t1" "1" "" "prompt"
           (newWorld demoTasks demoDB) H).
Defined.

Lemma hoare_fail_status env taskID (d0 : DB) (P : World -> Prop) line message :
  (forall w, P w -> db w = d0) ->
  hoare P
    (bind (log Error line) (fun _ =>
     bind (UpdateTaskStatus env taskID "failed" 0 message) (fun _ => ret tt)))
    (fun _ w' => failed taskID w' -> db w' = d0).
Proof.
  intros HP. apply hoare_db_kept; [|exact HP]. unfold UpdateTaskStatus. keeps_auto.
Qed.

Lemma keeps_tasks_extractBackgroundsFromScript env fi script dramaID model style :
  keeps tasks (extractBackgroundsFromScript env fi script dramaID model style).
Proof.
  unfold extractBackgroundsFromScript.
  destruct (String.eqb script ""); [apply keeps_ret|].
  apply keeps_bind.
  - destruct (negb (String.eqb model "")); keeps_auto.
  - intros [client|e]; [|apply keeps_ret].
    repeat first
      [ lazymatch goal with
        | |- keeps _ (match ?x with Ok _ => _ | Err _ => _ end) => destruct x as [[? ?]|?]
        end
      | keeps_step ].
Qed.

Lemma keeps_db_extractBackgroundsFromScript env fi script dramaID model style :
  keeps db (extractBackgroundsFromScript env fi script dramaID model style).
Proof.
  unfold extractBackgroundsFromScript.
  destruct (String.eqb script ""); [apply keeps_ret|].
  apply keeps_bind.
  - destruct (negb (String.eqb model "")); keeps_auto.
  - intros [client|e]; [|apply keeps_ret].
    repeat first
      [ lazymatch goal with
        | |- keeps _ (match ?x with Ok _ => _ | Err _ => _ end) => destruct x as [[? ?]|?]
        end
      | keeps_step ].
Qed.

Lemma keeps_tasks_createScenes env taskID dramaID episodeID bgs created :
  keeps tasks (createScenes env taskID dramaID episodeID bgs created).
Proof.
  revert created. induction bgs as [|bg rest IH]; intros created; cbn [createScenes].
  - apply keeps_ret.
  - apply keeps_try_bind; [keeps_auto|]. intros scene.
    apply keeps_bind; [keeps_auto | intros; apply IH].
Qed.

Lemma keeps_tasks_replaceScenes env taskID episode bgs :
  keeps tasks (replaceScenes env taskID episode bgs).
Proof.
  unfold replaceScenes.
  repeat first [ apply keeps_tasks_createScenes | keeps_step | keeps_unfold ].
Qed.

(** X4.  Whatever the registry, the store and the provider do: when the task
    was not failed before and [processBackgroundExtraction] leaves it
    failed, every table is as the job found it.  In particular the scenes
    the transaction deleted are back. *)
Theorem processBackgroundExtraction_failed_keeps_the_tables
    (env : Env) (formatInstructions : bool -> string)
    (taskID episodeID model style : string) (w : World) :
  unfailed taskID w ->
  failed taskID
    (snd (processBackgroundExtraction env formatInstructions taskID episodeID model
            style w)) ->
  db (snd (processBackgroundExtraction env formatInstructions taskID episodeID model
             style w)) = db w.
Proof.
  intros Hu. set (d0 := db w).
  enough (H : hoare (fun w => unfailed taskID w /\ db w = d0)
                (processBackgroundExtraction env formatInstructions taskID episodeID
                   model style)
                (fun _ w' => failed taskID w' -> db w' = d0))
    by (apply (H w); split; [exact Hu | reflexivity]).
  clearbody d0. clear w Hu.
  unfold processBackgroundExtraction.
  eapply hoare_bind with (Q := fun _ w => unfailed taskID w /\ db w = d0).
  { apply hoare_and.
    - unfold UpdateTaskStatus. apply registry_write_unfailed. discriminate.
    - apply (hoare_keeps db (fun d => d = d0)). apply keeps_db_registry_write. }
  intros ?; cbv beta.
  eapply hoare_bind;
    [apply hoare_unfailed_db; [keeps_auto | apply keeps_db_query]|].
  intros [episode|err]; cbv beta iota.
  2: { apply hoare_fail_status. intros w [_ H]; exact H. }
  destruct (some_nonempty (ep_ScriptContent episode)) as [script|].
  2: { apply hoare_fail_status. intros w [_ H]; exact H. }
  eapply hoare_bind; [apply hoare_unfailed_db; keeps_auto | intros ?; cbv beta].
  eapply hoare_bind;
    [apply hoare_unfailed_db;
       [apply keeps_tasks_extractBackgroundsFromScript
       | apply keeps_db_extractBackgroundsFromScript]|].
  intros [bgs|err]; cbv beta iota.
  2: { apply hoare_fail_status. intros w [_ H]; exact H. }
  eapply hoare_bind with
    (Q := fun r w => match r with
                     | Err _ => db w = d0
                     | Ok _ => unfailed taskID w
                     end).
  { intros w [Hu Hd].
    destruct (fst (Transaction env (replaceScenes env taskID episode bgs) w))
      as [scenes_|e] eqn:E.
    - refine (unfailed_frame taskID _ _ w Hu).
      apply keeps_Transaction; [reflexivity | reflexivity|].
      apply keeps_tasks_replaceScenes.
    - rewrite (Transaction_err_db env _ w e E). exact Hd. }
  intros [scenes_|err]; cbv beta iota.
  2: { apply hoare_fail_status. auto. }
  apply hoare_stays_unfailed.
  eapply hoare_bind;
    [unfold UpdateTaskResult; apply registry_write_unfailed; discriminate|].
  intros ?. apply unfailed_frame. keeps_auto.
Qed.

(** The insert after the deletion fails: the task is failed and the three
    scenes of the fixture are all there. *)
Lemma processBackgroundExtraction_failed_keeps_the_tables_witness :
  (Error, "Failed to save scenes to database")
    ∈ logs (snd (processBackgroundExtraction insertFailsEnv noInstructions "t1" "1" ""
                   "anime" (newWorld demoTasks demoDB))) /\
  db (snd (processBackgroundExtraction insertFailsEnv noInstructions "t1" "1" ""
             "anime" (newWorld demoTasks demoDB))) = demoDB.
Proof.
  split.
  - apply list_elem_of_In. vm_compute. auto.
  - apply (processBackgroundExtraction_failed_keeps_the_tables insertFailsEnv
             noInstructions "t1" "1" "" "anime" (newWorld demoTasks demoDB)).
    + intros (t & Ht & Hf). vm_compute in Ht. injection Ht as <-. discriminate.
    + eexists. split; [vm_compute; reflexivity | reflexivity].
Defined.

Lemma keeps_tasks_persistCharacters env req parsed acc :
  keeps tasks (persistCharacters env req parsed acc).
Proof.
  revert acc. induction parsed as [|char rest IH]; intros acc; cbn [persistCharacters].
  - apply keeps_ret.
  - apply keeps_bind; [unfold persistCharacter; keeps_auto | intros; apply IH].
Qed.

(** X5.  Whatever the registry, the store and the provider do: when the task
    was not failed before and [processCharacterGeneration] leaves it
    failed, every table is as the job found it: no character was created
    and none was associated with the episode. *)
Theorem processCharacterGeneration_failed_keeps_the_tables
    (env : Env) (taskID : string) (req : GenerateCharactersRequest) (w : World) :
  unfailed taskID w ->
  failed taskID (snd (processCharacterGeneration env taskID req w)) ->
  db (snd (processCharacterGeneration env taskID req w)) = db w.
Proof.
  intros Hu. set (d0 := db w).
  enough (H : hoare (fun w => unfailed taskID w /\ db w = d0)
                (processCharacterGeneration env taskID req)
                (fun _ w' => failed taskID w' -> db w' = d0))
    by (apply (H w); split; [exact Hu | reflexivity]).
  clearbody d0. clear w Hu.
  unfold processCharacterGeneration.
  eapply hoare_bind with (Q := fun _ w => unfailed taskID w /\ db w = d0).
  { apply hoare_and.
    - unfold UpdateTaskStatus. apply registry_write_unfailed. discriminate.
    - apply (hoare_keeps db (fun d => d = d0)). apply keeps_db_registry_write. }
  intros ?; cbv beta zeta.
  eapply hoare_bind with (Q := fun _ w => unfailed taskID w /\ db w = d0).
  { apply hoare_unfailed_db.
    - unfold query. keeps_auto.
    - destruct (String.eqb (gc_Outline req) ""); [|apply keeps_ret].
      apply keeps_bind; [apply keeps_db_query|]. intros [d|e]; apply keeps_ret. }
  intros [outlineText|err]; cbv beta iota.
  2: { apply hoare_fail_status. intros w [_ H]; exact H. }
  eapply hoare_bind; [apply hoare_unfailed_db; keeps_auto | intros ?; cbv beta].
  eapply hoare_bind;
    [apply hoare_unfailed_db;
       [apply keeps_tasks_generateWithModel | apply keeps_db_generateWithModel]
    | intros [text|err]; cbv beta iota].
  2: { apply hoare_fail_status. intros w [_ H]; exact H. }
  eapply hoare_bind; [apply hoare_unfailed_db; keeps_auto | intros ?; cbv beta].
  destruct (SafeParseAIJSON env text (dec_slice decodeParsedCharacter)) as [parsed|err].
  2: { apply hoare_fail_status. intros w [_ H]; exact H. }
  eapply hoare_weaken with (P' := unfailed taskID)
    (Q' := fun _ w' => failed taskID w' -> db w' = d0);
    [| intros w [H _]; exact H | auto].
  apply hoare_stays_unfailed.
  eapply hoare_bind;
    [apply unfailed_frame, keeps_tasks_persistCharacters | intros ?; cbv beta].
  eapply hoare_bind;
    [apply unfailed_frame, keeps_tasks_association | intros ?; cbv beta].
  eapply hoare_bind;
    [unfold UpdateTaskResult; apply registry_write_unfailed; discriminate|].
  intros ?. apply unfailed_frame. keeps_auto.
Qed.

(** No provider is configured: the job fails its task and the fixture's
    characters are untouched. *)
Lemma processCharacterGeneration_failed_keeps_the_tables_witness :
  failed "t1" (snd (processCharacterGeneration baseEnv "t1" charactersRequest
                      (newWorld characterTasks charactersDB))) /\
  db (snd (processCharacterGeneration baseEnv "t1" charactersRequest
             (newWorld characterTasks charactersDB))) = charactersDB.
Proof.
  assert (H : failed "t1" (snd (processCharacterGeneration baseEnv "t1" charactersRequest
                                  (newWorld characterTasks charactersDB)))).
  { eexists. split; [vm_compute; reflexivity | reflexivity]. }
  split; [exact H|].
  apply (processCharacterGeneration_failed_keeps_the_tables baseEnv "t1" charactersRequest
           (newWorld characterTasks charactersDB)); [|exact H].
  intros (t & Ht & Hf). vm_compute in Ht. injection Ht as <-. discriminate.
Defined.

(** ** What a scene extraction stores *)

Section ExtractedScenes.

Variable env : Env.
Hypothesis store_ok : store_sound env.

Lemma createScenes_sound taskID (episode : Episode) bgs created w :
  exists ids w',
    createScenes env taskID (ep_DramaID episode) (ep_ID episode) bgs created w
      = (Ok (created ++ extractedScenes episode ids bgs)%list, w') /\
    length ids = length bgs /\
    scenes (db w') = (scenes (db w) ++ extractedScenes episode ids bgs)%list /\
    tasks w' = tasks w.
Proof.
  revert created w. induction bgs as [|bg rest IH]; intros created w.
  - exists [], w. cbn. rewrite !app_nil_r. auto.
  - cbn [createScenes]. unfold try_bind. unfold bind at 1.
    rewrite stmt_sound by apply store_ok. cbn [fst snd].
    unfold bind at 1, log at 1. cbn [fst snd].
    set (scene := newScene _ _ _ bg). set (w1 := with_logs _ _).
    destruct (IH (created ++ [scene])%list w1) as (ids & w' & Hrun & Hlen & Hs & Ht).
    exists (sc_ID scene :: ids), w'. rewrite Hrun.
    split; [rewrite <- app_assoc; reflexivity|].
    split; [simpl; congruence|]. split; [|exact Ht].
    rewrite Hs. subst w1. cbn. rewrite <- app_assoc. reflexivity.
Qed.

Lemma replaceScenes_sound taskID (episode : Episode) bgs w :
  exists ids w',
    replaceScenes env taskID episode bgs w
      = (Ok (extractedScenes episode ids bgs), w') /\
    length ids = length bgs /\
    scenes (db w') =
      (List.filter (fun sc => negb (sceneOf (ep_ID episode) sc)) (scenes (db w))
       ++ extractedScenes episode ids bgs)%list /\
    tasks w' = tasks w.
Proof.
  unfold replaceScenes, exec. unfold bind at 1.
  rewrite stmt_sound by apply store_ok. cbn [fst snd].
  unfold bind at 1, log at 1. cbn [fst snd].
  set (w1 := with_logs _ _).
  destruct (createScenes_sound taskID episode bgs [] w1)
    as (ids & w' & Hrun & Hlen & Hs & Ht).
  exists ids, w'. rewrite Hrun. split; [reflexivity|]. split; [exact Hlen|].
  split; [rewrite Hs; reflexivity | exact Ht].
Qed.

End ExtractedScenes.

Lemma processBackgroundExtraction_outcome env fi taskID episodeID model style
    (d0 : DB) :
  registry_sound env -> store_sound env ->
  hoare (fun w => live taskID w /\ db w = d0)
    (processBackgroundExtraction env fi taskID episodeID model style)
    (fun _ w' =>
       failed taskID w' \/
       exists episode script bgs ids w1,
         first_by ep_ID (fun e => key_is episodeID (ep_ID e)) (episodes d0)
           = Ok episode /\
         some_nonempty (ep_ScriptContent episode) = Some script /\
         fst (extractBackgroundsFromScript env fi script (ep_DramaID episode) model
                style w1) = Ok bgs /\
         length ids = length bgs /\
         completed_with taskID
           (ScenesExtracted (extractedScenes episode ids bgs)
              (len (extractedScenes episode ids bgs)) episodeID (ep_DramaID episode))
           w' /\
         scenes (db w') =
           (List.filter (fun sc => negb (sceneOf (ep_ID episode) sc)) (scenes d0)
            ++ extractedScenes episode ids bgs)%list).
Proof.
  intros Hs Hst. unfold processBackgroundExtraction.
  set (X := fun d : DB => d = d0).
  assert (Hfail : forall (P : World -> Prop) line message Q,
    (forall w, P w -> live taskID w) ->
    hoare P
      (bind (log Error line) (fun _ =>
       bind (UpdateTaskStatus env taskID "failed" 0 message) (fun _ => ret tt)))
      (fun _ w' => failed taskID w' \/ Q w')).
  { intros P line message Q HP w Hw. left.
    destruct (HP w Hw) as (t & Ht & Hl).
    unfold bind, log, ret, UpdateTaskStatus. cbn [fst snd].
    rewrite (registry_write_live env taskID _ (with_logs _ w) t Hs Ht Hl).
    cbn [fst snd]. eexists. split; [apply lookup_insert_eq | reflexivity]. }
  eapply hoare_bind with (Q := fun _ w => live taskID w /\ X (db w)).
  { apply hoare_and.
    - eapply hoare_weaken;
        [apply hoare_UpdateTaskStatus_processing, Hs | auto | intros a w H; apply H].
    - apply (hoare_keeps db X). unfold UpdateTaskStatus. keeps_auto. }
  intros ?; cbv beta.
  eapply hoare_bind; [apply hoare_query, Hst|].
  intros [episode|err]; cbv beta iota.
  2: { apply Hfail. intros w [[H _] _]; exact H. }
  destruct (some_nonempty (ep_ScriptContent episode)) as [script|] eqn:Hscript.
  2: { apply Hfail. intros w [[H _] _]; exact H. }
  eapply hoare_bind with
    (Q := fun _ w =>
            (live taskID w /\ db w = d0) /\
            Ok episode =
              first_by ep_ID (fun e => key_is episodeID (ep_ID e)) (episodes d0)).
  { intros w [[Hl Hd] Hq]. unfold log. cbn [fst snd db with_logs].
    unfold X in Hd. rewrite Hd in Hq. auto. }
  intros ?; cbv beta.
  eapply hoare_bind with
    (Q := fun r w =>
            ((live taskID w /\ db w = d0) /\
             Ok episode =
               first_by ep_ID (fun e => key_is episodeID (ep_ID e)) (episodes d0)) /\
            exists w1,
              fst (extractBackgroundsFromScript env fi script (ep_DramaID episode)
                     model style w1) = r).
  { intros w [[Hl Hd] Hq]. split; [split; [split|]|].
    - exact (live_frame taskID _
               (keeps_tasks_extractBackgroundsFromScript env fi script _ model style)
               w Hl).
    - rewrite keeps_db_extractBackgroundsFromScript. exact Hd.
    - exact Hq.
    - exists w. reflexivity. }
  intros [bgs|err]; cbv beta iota.
  2: { apply Hfail. intros w [[[H _] _] _]; exact H. }
  eapply hoare_bind with
    (Q := fun r w =>
            live taskID w /\
            exists ids w1,
              r = Ok (extractedScenes episode ids bgs) /\
              first_by ep_ID (fun e => key_is episodeID (ep_ID e)) (episodes d0)
                = Ok episode /\
              fst (extractBackgroundsFromScript env fi script (ep_DramaID episode)
                     model style w1) = Ok bgs /\
              length ids = length bgs /\
              scenes (db w) =
                (List.filter (fun sc => negb (sceneOf (ep_ID episode) sc)) (scenes d0)
                 ++ extractedScenes episode ids bgs)%list).
  { intros w [[[Hl Hd] Hq] (w1 & Hex)].
    rewrite Transaction_sound by exact Hst.
    set (w0 := with_db _ _).
    destruct (replaceScenes_sound env Hst taskID episode bgs w0)
      as (ids & w' & Hrun & Hlen & Hsc & Ht).
    rewrite Hrun. cbn [fst snd]. split.
    - unfold live. cbn [tasks with_db with_stmts]. rewrite Ht. exact Hl.
    - exists ids, w1. split; [reflexivity|]. split; [auto|]. split; [exact Hex|].
      split; [exact Hlen|]. cbn [db with_db with_stmts]. rewrite Hsc.
      subst w0. cbn. rewrite Hd. reflexivity. }
  intros [scenes_|err]; cbv beta iota.
  2: { intros w [_ (ids & w1 & Hr & _)]. discriminate. }
  eapply hoare_bind with
    (Q := fun _ w' =>
       exists ids w1,
         first_by ep_ID (fun e => key_is episodeID (ep_ID e)) (episodes d0)
           = Ok episode /\
         fst (extractBackgroundsFromScript env fi script (ep_DramaID episode) model
                style w1) = Ok bgs /\
         length ids = length bgs /\
         completed_with taskID
           (ScenesExtracted (extractedScenes episode ids bgs)
              (len (extractedScenes episode ids bgs)) episodeID (ep_DramaID episode))
           w' /\
         scenes (db w') =
           (List.filter (fun sc => negb (sceneOf (ep_ID episode) sc)) (scenes d0)
            ++ extractedScenes episode ids bgs)%list).
  { intros w [(t & Ht & Hl) (ids & w1 & Hr & Hq & Hex & Hlen & Hsc)].
    injection Hr as ->. unfold UpdateTaskResult.
    rewrite (registry_write_live _ _ _ _ t Hs Ht Hl). cbn [fst snd].
    exists ids, w1. split; [exact Hq|]. split; [exact Hex|]. split; [exact Hlen|].
    split; [|exact Hsc].
    eexists. split; [apply lookup_insert_eq | split; reflexivity]. }
  intros ? w (ids & w1 & Hq & Hex & Hlen & Hc & Hsc). right.
  exists episode, script, bgs, ids, w1. unfold log. cbn [fst snd].
  repeat split; auto.
Qed.

(** X6.  Let the registry and the store accept what they are sent and the task
    be live.  When [processBackgroundExtraction] ends with the task
    completed, the result lists one new scene per backdrop the extraction
    returned, in that order, each of them pending, without an image, with a
    storyboard count of 1 and filed under the episode and its drama; the
    count is their number; and the scenes table holds the scenes of the
    other episodes as they were, followed by these.  The scenes the episode
    had before are gone. *)
Theorem processBackgroundExtraction_replaces_the_episode_scenes
    (env : Env) (formatInstructions : bool -> string)
    (taskID episodeID model style : string) (w : World)
    (extracted : list Scene) (count : Z) (episode_id : string) (drama_id : Z) :
  registry_sound env -> store_sound env ->
  live taskID w ->
  completed_with taskID (ScenesExtracted extracted count episode_id drama_id)
    (snd (processBackgroundExtraction env formatInstructions taskID episodeID model
            style w)) ->
  exists episode script bgs ids w1,
    first_by ep_ID (fun e => key_is episodeID (ep_ID e)) (episodes (db w)) = Ok episode /\
    some_nonempty (ep_ScriptContent episode) = Some script /\
    fst (extractBackgroundsFromScript env formatInstructions script (ep_DramaID episode)
           model style w1) = Ok bgs /\
    length ids = length bgs /\
    extracted = extractedScenes episode ids bgs /\
    count = len bgs /\
    Forall (fun sc => sc_Status sc = "pending" /\ sc_ImageURL sc = None /\
                      sc_StoryboardCount sc = 1 /\
                      sc_EpisodeID sc = Some (ep_ID episode) /\
                      sc_DramaID sc = ep_DramaID episode) extracted /\
    scenes (db (snd (processBackgroundExtraction env formatInstructions taskID
                       episodeID model style w)))
      = (List.filter (fun sc => negb (sceneOf (ep_ID episode) sc)) (scenes (db w))
         ++ extracted)%list.
Proof.
  intros Hs Hst Hl (t & Ht & Hstatus & Hresult).
  destruct (processBackgroundExtraction_outcome env formatInstructions taskID episodeID
              model style (db w) Hs Hst w (conj Hl eq_refl))
    as [(t' & Ht' & Hf)
       |(episode & script & bgs & ids & w1 & Hq & Hscript & Hex & Hlen
         & (t' & Ht' & _ & Hr') & Hsc)].
  - rewrite Ht in Ht'. injection Ht' as <-. rewrite Hstatus in Hf. discriminate.
  - rewrite Ht in Ht'. injection Ht' as <-.
    rewrite Hresult in Hr'. injection Hr' as -> -> -> ->.
    exists episode, script, bgs, ids, w1.
    split; [exact Hq|]. split; [exact Hscript|]. split; [exact Hex|].
    split; [exact Hlen|]. split; [reflexivity|]. split; [|split; [|exact Hsc]].
    + unfold len, extractedScenes. rewrite length_zip_with. f_equal. lia.
    + unfold extractedScenes. clear. revert bgs.
      induction ids as [|id ids IH]; intros [|bg bgs]; cbn [zip_with]; constructor.
      * cbn. auto.
      * apply IH.
Qed.

(** Two backdrops found for the first episode of the fixture: its two
    scenes make way for the scenes 4 and 5, the scene of the second episode
    stays. *)
Lemma processBackgroundExtraction_replaces_the_episode_scenes_witness :
  exists episode script bgs ids w1,
    first_by ep_ID (fun e => key_is "1" (ep_ID e)) (episodes demoDB) = Ok episode /\
    some_nonempty (ep_ScriptContent episode) = Some script /\
    fst (extractBackgroundsFromScript twoBackdropsEnv noInstructions script
           (ep_DramaID episode) "" "anime" w1) = Ok bgs /\
    length ids = length bgs /\
    extractedScenes demoEpisode [4; 5]
      [mkBackgroundInfo "warehouse" "night" "" "an empty warehouse at night" [] [] 0;
       mkBackgroundInfo "pier" "dawn" "" "a pier at dawn" [] [] 0]
      = extractedScenes episode ids bgs /\
    2 = len bgs /\
    Forall (fun sc => sc_Status sc = "pending" /\ sc_ImageURL sc = None /\
                      sc_StoryboardCount sc = 1 /\
                      sc_EpisodeID sc = Some (ep_ID episode) /\
                      sc_DramaID sc = ep_DramaID episode)
      (extractedScenes demoEpisode [4; 5]
         [mkBackgroundInfo "warehouse" "night" "" "an empty warehouse at night" [] [] 0;
          mkBackgroundInfo "pier" "dawn" "" "a pier at dawn" [] [] 0]) /\
    scenes (db (snd (processBackgroundExtraction twoBackdropsEnv noInstructions "t1"
                       "1" "" "anime" (newWorld demoTasks demoDB))))
      = (List.filter (fun sc => negb (sceneOf (ep_ID episode) sc)) (scenes demoDB)
         ++ extractedScenes demoEpisode [4; 5]
              [mkBackgroundInfo "warehouse" "night" "" "an empty warehouse at night"
                 [] [] 0;
               mkBackgroundInfo "pier" "dawn" "" "a pier at dawn" [] [] 0])%list.
Proof.
  apply (processBackgroundExtraction_replaces_the_episode_scenes twoBackdropsEnv
           noInstructions "t1" "1" "" "anime" (newWorld demoTasks demoDB)
           _ 2 "1" 7).
  - intros n. reflexivity.
  - intros n. reflexivity.
  - eexists. split; [vm_compute; reflexivity | reflexivity].
  - eexists. split; [vm_compute; reflexivity | split; reflexivity].
Defined.

(** ** How a frame-prompt job gives up *)

Lemma bind_run {A B} (m : M A) (k : A -> M B) w :
  bind m k w = k (fst (m w)) (snd (m w)).
Proof. unfold bind. destruct (m w). reflexivity. Qed.

Section GivingUp.

Variable env : Env.
Hypothesis registry_ok : registry_sound env.
Hypothesis store_ok : store_sound env.

(** The job up to the decision on the frame type. *)
Lemma processFramePromptGeneration_start taskID req model w t :
  tasks w !! taskID = Some t -> is_terminal (task_Status t) = false ->
  exists w1,
    live taskID w1 /\ db w1 = db w /\ events w1 = events w /\
    processFramePromptGeneration env taskID req model w =
      match loadStoryboard (req_StoryboardID req) (db w) with
      | Err _ =>
          bind (log Error "Storyboard not found during frame prompt generation")
            (fun _ => bind (UpdateTaskStatus env taskID "failed" 0 "分镜信息不存在")
                        (fun _ => ret (Returned tt))) w1
      | Ok storyboard =>
          bind
            (match st_SceneID (fst storyboard) with
             | None => ret None
             | Some sceneID =>
                 bind (query env (fun d =>
                         first_by sc_ID (fun sc => sc_ID sc =? sceneID) (scenes d)))
                   (fun found =>
                      match found with
                      | Ok sc => ret (Some sc)
                      | Err _ =>
                          bind (log Warn "Scene not found during frame prompt generation")
                            (fun _ => ret None)
                      end)
             end)
            (fun scene =>
               let frameType := req_FrameType req in
               if String.eqb frameType FrameTypeFirst then
                 singleFrame env taskID req (generateFirstFrame env storyboard scene model)
               else if String.eqb frameType FrameTypeKey then
                 singleFrame env taskID req (generateKeyFrame env storyboard scene model)
               else if String.eqb frameType FrameTypeLast then
                 singleFrame env taskID req (generateLastFrame env storyboard scene model)
               else if String.eqb frameType FrameTypePanel then
                 let count :=
                   if req_PanelCount req =? 0 then 3 else req_PanelCount req in
                 bind (generatePanelFrames env storyboard scene count model)
                   (fun panel =>
                      match panel with
                      | Panicked msg => ret (Panicked msg)
                      | Returned frames =>
                          multiFrame env taskID req "分镜板组合提示词" frames
                      end)
               else if String.eqb frameType FrameTypeAction then
                 bind (generateActionSequence env storyboard scene model)
                   (fun frames => multiFrame env taskID req "动作序列组合提示词" frames)
               else
                 bind (log Error "Unsupported frame type during frame prompt generation")
                   (fun _ => bind (UpdateTaskStatus env taskID "failed" 0 "不支持的帧类型")
                               (fun _ => ret (Returned tt)))) w1
      end.
Proof.
  intros Ht Hl. unfold processFramePromptGeneration.
  unfold bind at 1. unfold UpdateTaskStatus at 1.
  rewrite (registry_write_live env taskID _ w t registry_ok Ht Hl). cbn [fst snd].
  unfold bind at 1, query at 1. rewrite stmt_sound by apply store_ok. cbn [fst snd].
  cbn [db with_db with_stmts with_tasks with_task_ops].
  set (w1 := with_db _ _). exists w1. split; [|split; [|split]].
  - eexists. split; [cbn; apply lookup_insert_eq | reflexivity].
  - reflexivity.
  - reflexivity.
  - destruct (loadStoryboard (req_StoryboardID req) (db w)); reflexivity.
Qed.

Lemma failing_exit taskID line message w :
  live taskID w ->
  let w' :=
    snd (bind (log Error line)
           (fun _ => bind (UpdateTaskStatus env taskID "failed" 0 message)
                       (fun _ => ret (Returned tt))) w) in
  fst (bind (log Error line)
         (fun _ => bind (UpdateTaskStatus env taskID "failed" 0 message)
                     (fun _ => ret (Returned tt))) w) = Returned tt /\
  failed_with taskID message w' /\ db w' = db w /\ events w' = events w.
Proof.
  intros (t & Ht & Hl). cbv zeta. unfold bind, log, ret, UpdateTaskStatus.
  cbn [fst snd].
  rewrite (registry_write_live env taskID _ (with_logs _ w) t registry_ok Ht Hl).
  cbn [fst snd]. split; [reflexivity|]. split; [|split; reflexivity].
  eexists. split; [cbn; apply lookup_insert_eq | split; reflexivity].
Qed.

End GivingUp.

(** X7.  Let the registry and the store accept what they are sent and the task
    be live.  A request for a storyboard the lookup does not find, and a
    request of a frame type other than first, key, last, panel and action,
    both end with the task failed (with the messages 分镜信息不存在 and
    不支持的帧类型), without a single call to a provider and with every
    table as it was: no frame prompt is saved. *)
Theorem processFramePromptGeneration_gives_up
    (env : Env) (taskID : string) (req : GenerateFramePromptRequest) (model : string)
    (w : World) :
  registry_sound env -> store_sound env ->
  live taskID w ->
  let r := fst (processFramePromptGeneration env taskID req model w) in
  let w' := snd (processFramePromptGeneration env taskID req model w) in
  (is_ok (loadStoryboard (req_StoryboardID req) (db w)) = false ->
   r = Returned tt /\ failed_with taskID "分镜信息不存在" w' /\
   db w' = db w /\ events w' = events w) /\
  (is_ok (loadStoryboard (req_StoryboardID req) (db w)) = true ->
   supported_frame_type (req_FrameType req) = false ->
   r = Returned tt /\ failed_with taskID "不支持的帧类型" w' /\
   db w' = db w /\ events w' = events w).
Proof.
  intros Hs Hst (t & Ht & Hl). cbv zeta.
  destruct (processFramePromptGeneration_start env Hs Hst taskID req model w t Ht Hl)
    as (w1 & Hl1 & Hd1 & He1 & ->).
  destruct (loadStoryboard (req_StoryboardID req) (db w)) as [storyboard|err].
  - split; [discriminate|]. intros _ Htype.
    unfold supported_frame_type in Htype.
    apply orb_false_iff in Htype as [Htype Haction].
    apply orb_false_iff in Htype as [Htype Hpanel].
    apply orb_false_iff in Htype as [Htype Hlast].
    apply orb_false_iff in Htype as [Hfirst Hkey].
    rewrite bind_run.
    set (lookup := match st_SceneID (fst storyboard) with
                   | Some _ => _ | None => _ end).
    assert (Hlook : live taskID (snd (lookup w1)) /\ db (snd (lookup w1)) = db w1
                    /\ events (snd (lookup w1)) = events w1).
    { split; [|split].
      - apply (live_frame taskID lookup); [subst lookup; keeps_auto | exact Hl1].
      - assert (Hk : keeps db lookup)
          by (subst lookup; repeat first [ apply keeps_db_query | keeps_step ]).
        apply Hk.
      - assert (Hk : keeps events lookup) by (subst lookup; keeps_auto).
        apply Hk. }
    destruct (lookup w1) as [scene w2]. cbn [fst snd] in Hlook.
    destruct Hlook as (Hl2 & Hd2 & He2).
    cbv zeta. rewrite Hfirst, Hkey, Hlast, Hpanel, Haction. cbn [fst snd].
    destruct (failing_exit env Hs taskID
                "Unsupported frame type during frame prompt generation"
                "不支持的帧类型" w2 Hl2) as (Hr & Hf & Hd & He).

    split; [exact Hr|]. split; [exact Hf|]. split; congruence.
  - split; [|discriminate]. intros _.
    destruct (failing_exit env Hs taskID
                "Storyboard not found during frame prompt generation"
                "分镜信息不存在" w1 Hl1) as (Hr & Hf & Hd & He).
    split; [exact Hr|]. split; [exact Hf|]. split; congruence.
Qed.

(** A request for a grid on the fixture's storyboard. *)
Lemma processFramePromptGeneration_gives_up_witness :
  fst (processFramePromptGeneration baseEnv "t1" (frameRequest "1" "grid") ""
         (newWorld frameTasks framesDB)) = Returned tt /\
  failed_with "t1" "不支持的帧类型"
    (snd (processFramePromptGeneration baseEnv "t1" (frameRequest "1" "grid") ""
            (newWorld frameTasks framesDB))) /\
  db (snd (processFramePromptGeneration baseEnv "t1" (frameRequest "1" "grid") ""
             (newWorld frameTasks framesDB))) = framesDB /\
  events (snd (processFramePromptGeneration baseEnv "t1" (frameRequest "1" "grid") ""
                 (newWorld frameTasks framesDB))) = [].
Proof.
  apply (processFramePromptGeneration_gives_up baseEnv "t1" (frameRequest "1" "grid") ""
           (newWorld frameTasks framesDB)).
  - intros n. reflexivity.
  - intros n. reflexivity.
  - eexists. split; [vm_compute; reflexivity | reflexivity].
  - reflexivity.
  - reflexivity.
Defined.

(** ** A single frame never fails for want of a model *)

Section Fallback.

Variable env : Env.
Hypothesis registry_ok : registry_sound env.
Hypothesis store_ok : store_sound env.

Lemma scene_lookup_run (sb : LoadedStoryboard) w :
  exists w',
    (match st_SceneID (fst sb) with
     | None => ret None
     | Some sceneID =>
         bind (query env (fun d =>
                 first_by sc_ID (fun sc => sc_ID sc =? sceneID) (scenes d)))
           (fun found =>
              match found with
              | Ok sc => ret (Some sc)
              | Err _ =>
                  bind (log Warn "Scene not found during frame prompt generation")
                    (fun _ => ret None)
              end)
     end) w = (sceneFor sb (db w), w') /\
    tasks w' = tasks w /\ db w' = db w /\ events w' = events w.
Proof.
  unfold sceneFor. destruct (st_SceneID (fst sb)) as [sceneID|].
  - unfold bind at 1, query. rewrite stmt_sound by apply store_ok. cbn [fst snd].
    destruct (first_by sc_ID _ (scenes (db w))) as [sc|e];
      unfold bind, log, ret; cbn [fst snd result_value]; eexists;
      (split; [reflexivity | auto]).
  - exists w. auto.
Qed.

Lemma generateFrame_falls_back sys key suffix description sb scene model w :
  unusable env (text_reply env (text_calls w)) = true ->
  exists w',
    generateFrame env sys key suffix description sb scene model w
      = (mkSingleFramePrompt (buildFallbackPrompt sb scene suffix) description, w') /\
    tasks w' = tasks w /\ db w' = db w.
Proof.
  intros Hbad. unfold generateFrame. cbv zeta. rewrite bind_run.
  assert (Hgen : fst (generateWithModel env model
                        (FormatUserPrompt (promptI18n env) key
                           [buildStoryboardContext env sb scene]) sys [] w)
                 = text_reply env (text_calls w)).
  { unfold generateWithModel.
    destruct (negb (String.eqb model "")); [|reflexivity].
    destruct (GetAIClientForModel env "text" model); reflexivity. }
  pose proof (keeps_tasks_generateWithModel env model
                (FormatUserPrompt (promptI18n env) key
                   [buildStoryboardContext env sb scene]) sys [] w) as Ht.
  pose proof (keeps_db_generateWithModel env model
                (FormatUserPrompt (promptI18n env) key
                   [buildStoryboardContext env sb scene]) sys [] w) as Hd.
  destruct (generateWithModel env model _ sys [] w) as [reply w1].
  cbn [fst snd] in *. subst reply. unfold unusable in Hbad.
  destruct (text_reply env (text_calls w)) as [text|e].
  - destruct (parseFramePromptJSON env text); [discriminate|].
    unfold bind, log, ret. cbn [fst snd]. eexists. split; [reflexivity | auto].
  - unfold bind, log, ret. cbn [fst snd]. eexists. split; [reflexivity | auto].
Qed.

Lemma singleFrame_saves taskID req n frame (generate : M SingleFramePrompt) w w1 :
  sql_key (req_StoryboardID req) = Some n ->
  live taskID w ->
  generate w = (frame, w1) -> tasks w1 = tasks w -> db w1 = db w ->
  let w' := snd (singleFrame env taskID req generate w) in
  fst (singleFrame env taskID req generate w) = Returned tt /\
  completed_with taskID
    (FramePromptGenerated (mkFramePromptResponse (req_FrameType req) (Some frame) None)
       (req_StoryboardID req) (req_FrameType req)) w' /\
  exists id,
    framePromptsOf n (req_FrameType req) (db w')
      = [mkFramePrompt id n (req_FrameType req) (Prompt frame)
           (nonempty (Description frame)) None].
Proof.
  intros Hk (t & Ht & Hl) Hgen Htasks Hdb. cbv zeta.
  unfold singleFrame. rewrite bind_run, Hgen. cbn [fst snd].
  rewrite bind_run.
  pose proof (saveFramePrompt_db env (req_StoryboardID req) (req_FrameType req)
                (Prompt frame) (Description frame) "" w1 store_ok) as Hsaved.
  pose proof (keeps_tasks_saveFramePrompt env (req_StoryboardID req) (req_FrameType req)
                (Prompt frame) (Description frame) "" w1) as Hkept.
  cbv zeta in Hsaved.
  destruct (saveFramePrompt env _ _ _ _ "" w1) as [u w2]. cbn [fst snd] in *.
  unfold finishFramePrompt, UpdateTaskResult. rewrite bind_run.
  rewrite (registry_write_live env taskID _ w2 t registry_ok)
    by (try rewrite Hkept, Htasks; assumption).
  cbn [fst snd]. unfold bind, log, ret. cbn [fst snd].
  split; [reflexivity|]. split.
  - eexists. split; [cbn; apply lookup_insert_eq | split; reflexivity].
  - cbn [db with_logs with_tasks with_task_ops]. rewrite Hsaved.
    rewrite (framePromptsOf_saved _ n _ _ _ _ _ _ _ Hk). eexists. reflexivity.
Qed.

End Fallback.

(** X8.  Let the registry and the store accept what they are sent, the task be
    live and the storyboard be in the store.  A request for a first, key or
    last frame whose text call fails, or whose reply does not parse, still
    completes the task: the frame it reports and saves is the fallback
    built from the scene, the characters' names and the atmosphere, and the
    storyboard has exactly one record of that frame type, holding it. *)
Theorem single_frame_job_falls_back
    (env : Env) (taskID : string) (req : GenerateFramePromptRequest) (model : string)
    (n : Z) (sb : LoadedStoryboard) (w : World) :
  registry_sound env -> store_sound env ->
  live taskID w ->
  loadStoryboard (req_StoryboardID req) (db w) = Ok sb ->
  sql_key (req_StoryboardID req) = Some n ->
  single_frame_type (req_FrameType req) = true ->
  unusable env (text_reply env (text_calls w)) = true ->
  let frame := fallbackFrame env (req_FrameType req) sb (sceneFor sb (db w)) in
  let w' := snd (processFramePromptGeneration env taskID req model w) in
  fst (processFramePromptGeneration env taskID req model w) = Returned tt /\
  completed_with taskID
    (FramePromptGenerated (mkFramePromptResponse (req_FrameType req) (Some frame) None)
       (req_StoryboardID req) (req_FrameType req)) w' /\
  exists id,
    framePromptsOf n (req_FrameType req) (db w')
      = [mkFramePrompt id n (req_FrameType req) (Prompt frame)
           (Some (Description frame)) None].
Proof.
  intros Hs Hst (t & Ht & Hl) Hload Hk Htype Hbad. cbv zeta.
  destruct (processFramePromptGeneration_start env Hs Hst taskID req model w t Ht Hl)
    as (w1 & Hl1 & Hd1 & He1 & ->).
  rewrite Hload. rewrite bind_run.
  destruct (scene_lookup_run env Hst sb w1) as (w2 & -> & Ht2 & Hd2 & He2).
  cbn [fst snd]. cbv zeta. rewrite Hd1.
  assert (Hl2 : live taskID w2) by (unfold live; rewrite Ht2; exact Hl1).
  assert (Hbad2 : unusable env (text_reply env (text_calls w2)) = true).
  { unfold text_calls in *. rewrite He2, He1. exact Hbad. }
  assert (Hsome : forall f, Description f <> "" ->
            nonempty (Description f) = Some (Description f))
    by (intros f; apply nonempty_some).
  unfold single_frame_type in Htype. unfold fallbackFrame.
  unfold generateFirstFrame, generateKeyFrame, generateLastFrame.
  destruct (String.eqb (req_FrameType req) FrameTypeFirst) eqn:Efirst.
  { destruct (generateFrame_falls_back env (GetFirstFramePrompt (promptI18n env))
                "frame_info" "first frame, static shot"
                "镜头开始的静态画面，展示初始状态" sb (sceneFor sb (db w)) model w2 Hbad2)
      as (w3 & Hgen & Ht3 & Hd3).
    destruct (singleFrame_saves env Hs Hst taskID req n _ _ w2 w3 Hk Hl2 Hgen Ht3 Hd3)
      as (Hr & Hc & id & Hrec).
    split; [exact Hr|]. split; [exact Hc|]. exists id. rewrite Hrec.
    rewrite Hsome by discriminate. reflexivity. }
  destruct (String.eqb (req_FrameType req) FrameTypeKey) eqn:Ekey.
  { destruct (generateFrame_falls_back env (GetKeyFramePrompt (promptI18n env))
                "key_frame_info" "key frame, dynamic action"
                "动作高潮瞬间，展示关键动作" sb (sceneFor sb (db w)) model w2 Hbad2)
      as (w3 & Hgen & Ht3 & Hd3).
    destruct (singleFrame_saves env Hs Hst taskID req n _ _ w2 w3 Hk Hl2 Hgen Ht3 Hd3)
      as (Hr & Hc & id & Hrec).
    split; [exact Hr|]. split; [exact Hc|]. exists id. rewrite Hrec.
    rewrite Hsome by discriminate. reflexivity. }
  cbn [orb] in Htype. rewrite Htype.
  destruct (generateFrame_falls_back env (GetLastFramePrompt (promptI18n env))
              "last_frame_info" "last frame, final state"
              "镜头结束画面，展示最终状态和结果" sb (sceneFor sb (db w)) model w2 Hbad2)
    as (w3 & Hgen & Ht3 & Hd3).
  destruct (singleFrame_saves env Hs Hst taskID req n _ _ w2 w3 Hk Hl2 Hgen Ht3 Hd3)
    as (Hr & Hc & id & Hrec).
  split; [exact Hr|]. split; [exact Hc|]. exists id. rewrite Hrec.
  rewrite Hsome by discriminate. reflexivity.
Qed.

(** No provider is configured: the key frame of the fixture's storyboard is
    the fallback. *)
Lemma single_frame_job_falls_back_witness :
  Prompt (fallbackFrame baseEnv "key" (demoRow 1 1, []) None)
    = "anime style, key frame, dynamic action" /\
  completed_with "t1"
    (FramePromptGenerated
       (mkFramePromptResponse "key"
          (Some (fallbackFrame baseEnv "key" (demoRow 1 1, []) None)) None) "1" "key")
    (snd (processFramePromptGeneration baseEnv "t1" (frameRequest "1" "key") ""
            (newWorld frameTasks framesDB))).
Proof.
  split; [reflexivity|].
  refine (proj1 (proj2 (single_frame_job_falls_back baseEnv "t1" (frameRequest "1" "key")
                          "" 1 (demoRow 1 1, []) (newWorld frameTasks framesDB)
                          _ _ _ eq_refl eq_refl eq_refl eq_refl))).
  - intros k. reflexivity.
  - intros k. reflexivity.
  - eexists. split; [vm_compute; reflexivity | reflexivity].
Defined.

(** ** The owners of a generated image *)




(** ** A record that is not there *)

Section MissingRecord.

Variable env : Env.
Variable imageGenID : Z.

Lemma findImageGeneration_missing w :
  no_record imageGenID (db w) ->
  exists e w', findImageGeneration env imageGenID w = (Err e, w') /\ db w' = db w.
Proof.
  intros Hno. unfold findImageGeneration, query, stmt.
  destruct (store_fault env (stmts w)); [eexists; eexists; split; reflexivity|].
  unfold first_by.
  assert (Hnone : List.filter (fun g => ig_ID g =? imageGenID)
                    (image_generations (db w)) = []).
  { specialize (fun g H => Hno g (proj2 (list_elem_of_In _ _) H)).
    induction (image_generations (db w)) as [|g gs IH]; [reflexivity|].
    cbn [List.filter].
    destruct (ig_ID g =? imageGenID) eqn:E.
    - apply Z.eqb_eq in E. destruct (Hno g (or_introl eq_refl) E).
    - apply IH. intros g' Hg'. apply Hno. right. exact Hg'. }
  rewrite Hnone. eexists; eexists; split; reflexivity.
Qed.

Lemma updateImageGenError_missing errorMsg w :
  no_record imageGenID (db w) ->
  db (snd (updateImageGenError env imageGenID errorMsg w)) = db w.
Proof.
  intros Hno. unfold updateImageGenError. rewrite bind_run.
  destruct (findImageGeneration_missing w Hno) as (e & w' & -> & Hdb).
  exact Hdb.
Qed.

Lemma completeImageGeneration_missing result w :
  no_record imageGenID (db w) ->
  db (snd (completeImageGeneration env imageGenID result w)) = db w.
Proof.
  intros Hno. rewrite completeImageGeneration_run.
  pose proof (keeps_db_cacheImage env result w) as Hdb.
  rewrite bind_run.
  destruct (findImageGeneration_missing (snd (cacheImage env result w)))
    as (e & w' & -> & Hdb'); [rewrite Hdb; exact Hno|].
  unfold log. cbn [fst snd db with_logs]. rewrite Hdb', Hdb. reflexivity.
Qed.

Lemma pollLoop_missing remaining client taskID w :
  no_record imageGenID (db w) ->
  db (snd (pollLoop env remaining imageGenID client taskID w)) = db w.
Proof.
  revert w. induction remaining as [|rest IH]; intros w Hno; cbn [pollLoop].
  - apply updateImageGenError_missing, Hno.
  - unfold bind at 1, Sleep. cbn [fst snd]. unfold bind at 1, GetTaskStatus.
    cbn [fst snd].
    set (w1 := with_events _ _).
    assert (Hdb : db w1 = db w) by reflexivity.
    assert (Hno1 : no_record imageGenID (db w1)) by (rewrite Hdb; exact Hno).
    clearbody w1.
    destruct (status_reply env _) as [result|e].
    + destruct (ir_Completed result).
      * rewrite completeImageGeneration_missing by exact Hno1. exact Hdb.
      * destruct (negb (String.eqb (ir_Error result) "")).
        -- rewrite updateImageGenError_missing by exact Hno1. exact Hdb.
        -- rewrite IH by exact Hno1. exact Hdb.
    + unfold bind, log. cbn [fst snd]. rewrite IH; [exact Hdb | exact Hno1].
Qed.

End MissingRecord.

(** X10.  Whatever the store and the provider do: when no image generation has
    the id, neither completing it, nor failing it, nor polling for it
    writes anything.  Every table is as it was (a finished image may still
    be downloaded to the local cache). *)
Theorem image_record_missing_writes_nothing
    (env : Env) (imageGenID : Z) (w : World) :
  no_record imageGenID (db w) ->
  (forall result,
     db (snd (completeImageGeneration env imageGenID result w)) = db w) /\
  (forall errorMsg,
     db (snd (updateImageGenError env imageGenID errorMsg w)) = db w) /\
  (forall client taskID,
     db (snd (pollTaskStatus env imageGenID client taskID w)) = db w).
Proof.
  intros Hno. split; [|split].
  - intros result. apply completeImageGeneration_missing, Hno.
  - intros errorMsg. apply updateImageGenError_missing, Hno.
  - intros client taskID. apply pollLoop_missing, Hno.
Qed.

(** The fixture has image generation 1 and no image generation 9. *)
Lemma image_record_missing_writes_nothing_witness :
  db (snd (pollTaskStatus slowEnv 9 demoClient "job-1"
             (newWorld demoTasks sceneImagesDB))) = sceneImagesDB.
Proof.
  refine (proj2 (proj2 (image_record_missing_writes_nothing slowEnv 9
                          (newWorld demoTasks sceneImagesDB) _)) demoClient "job-1").
  intros g Hg. apply list_elem_of_In in Hg. destruct Hg as [<-|[]]. discriminate.
Defined.

(** ** The two ways to an image client *)

(** X11.  [getImageClient] and [getImageClientWithModel] with no model named
    resolve alike, and log nothing: the same client, built from the default
    image config with its first model, or the same error when there is no
    default config. *)
Theorem getImageClient_is_the_default_resolution
    (env : Env) (provider : string) (w : World) :
  getImageClient env provider w = getImageClientWithModel env provider "" w.
Proof.
  unfold getImageClient, getImageClientWithModel, defaultImageConfig, try_bind.
  cbn [String.eqb negb]. unfold bind, ret.
  destruct (GetDefaultConfig env "image") as [config|e]; [|reflexivity].
  cbv zeta. unfold clientForProvider.
  destruct (cfg_Model config) as [|first rest];
    repeat match goal with
           | |- context [if ?b then _ else _] => destruct b
           end; reflexivity.
Qed.

(** ** Deleting an image generation *)

Lemma filter_length_all {A} (p : A -> bool) (l : list A) :
  (length (List.filter p l) <= length l)%nat /\
  (length (List.filter p l) = length l -> List.filter p l = l).
Proof.
  induction l as [|x l [IH1 IH2]]; [split; reflexivity|].
  cbn [List.filter]. destruct (p x); cbn [length].
  - split; [lia|]. intros H. f_equal. apply IH2. lia.
  - split; [lia|]. intros H. lia.
Qed.

Lemma filter_nil_none {A} (p : A -> bool) (l : list A) :
  List.filter (fun x => negb (p x)) l = l -> List.filter p l = [].
Proof.
  induction l as [|x l IH]; [reflexivity|]. cbn [List.filter].
  destruct (p x) eqn:E; cbn [negb].
  - intros H. pose proof (proj1 (filter_length_all (fun x => negb (p x)) l)) as Hle.
    apply (f_equal (@length A)) in H. cbn [length] in H. lia.
  - intros [= H]. apply IH, H.
Qed.

Lemma filter_filter_neg {A} (p : A -> bool) (l : list A) :
  List.filter p (List.filter (fun x => negb (p x)) l) = [].
Proof.
  induction l as [|x l IH]; [reflexivity|]. cbn [List.filter].
  destruct (p x) eqn:E; cbn [negb List.filter]; [exact IH|]. rewrite E. exact IH.
Qed.

(** X12.  Let the store execute every statement.  Deleting an id no row has
    returns "image generation not found" and changes nothing.  Deleting an
    id that is there succeeds and removes its rows and only them; after
    that the lookup of the id finds nothing and a second deletion returns
    "image generation not found". *)
Theorem DeleteImageGeneration_removes_the_record
    (env : Env) (imageGenID : Z) (w : World) :
  store_sound env ->
  let w' := snd (DeleteImageGeneration env imageGenID w) in
  (no_record imageGenID (db w) ->
   fst (DeleteImageGeneration env imageGenID w) = Err "image generation not found" /\
   db w' = db w) /\
  (~ no_record imageGenID (db w) ->
   fst (DeleteImageGeneration env imageGenID w) = Ok tt /\
   image_generations (db w')
     = List.filter (fun g => negb (ig_ID g =? imageGenID)) (image_generations (db w)) /\
   fst (GetImageGeneration env imageGenID w') = Err "record not found" /\
   fst (DeleteImageGeneration env imageGenID w') = Err "image generation not found").
Proof.
  intros Hst. cbv zeta.
  assert (Hrun : forall w0,
    DeleteImageGeneration env imageGenID w0 =
      (if len (image_generations (db w0))
          - len (List.filter (fun g => negb (ig_ID g =? imageGenID))
                   (image_generations (db w0))) =? 0
       then Err "image generation not found" else Ok tt,
       with_db
         (with_image_generations
            (List.filter (fun g => negb (ig_ID g =? imageGenID))
               (image_generations (db w0))) (db w0))
         (with_stmts (S (stmts w0)) w0))).
  { intros w0. unfold DeleteImageGeneration. rewrite bind_run.
    rewrite stmt_sound by apply Hst. cbn [fst snd].
    destruct (_ =? 0); reflexivity. }
  set (kept := List.filter (fun g => negb (ig_ID g =? imageGenID))
                 (image_generations (db w))).
  destruct (filter_length_all (fun g => negb (ig_ID g =? imageGenID))
              (image_generations (db w))) as [Hle Hall].
  fold kept in Hle, Hall.
  split.
  - intros Hno. rewrite Hrun. fold kept. cbn [fst snd db with_db with_stmts].
    assert (Hkept : kept = image_generations (db w)).
    { unfold kept. clear Hle Hall Hrun.
      specialize (fun g H => Hno g (proj2 (list_elem_of_In _ _) H)).
      induction (image_generations (db w)) as [|g gs IH]; [reflexivity|].
      cbn [List.filter].
      destruct (ig_ID g =? imageGenID) eqn:E.
      + apply Z.eqb_eq in E. destruct (Hno g (or_introl eq_refl) E).
      + cbn [negb]. f_equal. apply IH. intros g' Hg'. apply Hno. right. exact Hg'. }
    rewrite Hkept, Z.sub_diag. cbn [Z.eqb]. split; [reflexivity|].
    destruct (db w); reflexivity.
  - intros Hsome. rewrite !Hrun. fold kept. cbn [fst snd db with_db with_stmts].
    assert (Hlt : (length kept < length (image_generations (db w)))%nat).
    { destruct (Nat.eq_dec (length kept) (length (image_generations (db w))))
        as [Heq|Hne]; [|lia].
      exfalso. apply Hsome. intros g Hg Hid.
      pose proof (filter_nil_none (fun g => ig_ID g =? imageGenID) _ (Hall Heq))
        as Hnil.
      assert (Hin : In g (List.filter (fun g => ig_ID g =? imageGenID)
                            (image_generations (db w)))).
      { apply List.filter_In. split; [apply list_elem_of_In, Hg|].
        apply Z.eqb_eq, Hid. }
      rewrite Hnil in Hin. destruct Hin. }
    assert (Hne : (len (image_generations (db w)) - len kept =? 0) = false).
    { unfold len. apply Z.eqb_neq. lia. }
    rewrite Hne. split; [reflexivity|]. split; [reflexivity|].
    cbn [image_generations with_image_generations].
    split.
    + unfold GetImageGeneration, query. rewrite stmt_sound by apply Hst.
      cbn [fst snd db with_db with_stmts image_generations with_image_generations].
      unfold first_by, kept. rewrite filter_filter_neg. reflexivity.
    + assert (Hidem : List.filter (fun g => negb (ig_ID g =? imageGenID)) kept = kept).
      { unfold kept. clear. induction (image_generations (db w)) as [|g gs IH];
          [reflexivity|].
        cbn [List.filter]. destruct (ig_ID g =? imageGenID) eqn:E; cbn [negb];
          [exact IH|]. cbn [List.filter]. rewrite E. cbn [negb]. f_equal. exact IH. }
      rewrite Hidem, Z.sub_diag. reflexivity.
Qed.

(** Image generation 1 of the fixture is deleted. *)
Lemma DeleteImageGeneration_removes_the_record_witness :
  fst (DeleteImageGeneration baseEnv 1 (newWorld demoTasks sceneImagesDB)) = Ok tt /\
  image_generations
    (db (snd (DeleteImageGeneration baseEnv 1 (newWorld demoTasks sceneImagesDB))))
    = List.filter (fun g => negb (ig_ID g =? 1)) (image_generations sceneImagesDB) /\
  fst (GetImageGeneration baseEnv 1
         (snd (DeleteImageGeneration baseEnv 1 (newWorld demoTasks sceneImagesDB))))
    = Err "record not found" /\
  fst (DeleteImageGeneration baseEnv 1
         (snd (DeleteImageGeneration baseEnv 1 (newWorld demoTasks sceneImagesDB))))
    = Err "image generation not found".
Proof.
  apply (DeleteImageGeneration_removes_the_record baseEnv 1
           (newWorld demoTasks sceneImagesDB) (fun n => eq_refl)).
  intros Hno. apply (Hno sceneImage); [|reflexivity].
  apply list_elem_of_In. left. reflexivity.
Defined.

(** ** The characters of a storyboard *)

Lemma in_ids_map_filter ids (cs : list Character) (c : Character) :
  In c cs ->
  in_ids (map ch_ID (List.filter (fun c => in_ids ids (ch_ID c)) cs)) (ch_ID c)
    = in_ids ids (ch_ID c).
Proof.
  intros Hin. unfold in_ids at 1.
  destruct (in_ids ids (ch_ID c)) eqn:E.
  - apply existsb_exists. exists (ch_ID c). split; [|apply Z.eqb_refl].
    apply in_map. apply List.filter_In. auto.
  - apply Bool.not_true_iff_false. intros H. apply existsb_exists in H as (x & Hx & Hid).
    apply Z.eqb_eq in Hid. subst x.
    apply in_map_iff in Hx as (c' & Hid & Hc'). apply List.filter_In in Hc' as [_ Hc'].
    rewrite Hid in Hc'. congruence.
Qed.

Lemma filter_ext_in' {A} (p q : A -> bool) (l : list A) :
  (forall x, In x l -> p x = q x) -> List.filter p l = List.filter q l.
Proof.
  induction l as [|x l IH]; [reflexivity|]. intros H. cbn [List.filter].
  rewrite (H x (or_introl eq_refl)), IH; [reflexivity|].
  intros y Hy. apply H. right. exact Hy.
Qed.

(** X13.  Let the store execute every statement and the storyboard be in it.
    [UpdateStoryboardCharacters] succeeds; afterwards the storyboard loads
    with exactly the characters of the store whose id is in the list (ids
    that no character has are dropped without an error, an empty list
    leaves it without characters), and the join rows of the other
    storyboards are what they were. *)
Theorem UpdateStoryboardCharacters_sets_the_cast
    (env : Env) (storyboardID : string) (characterIDs : list Z)
    (storyboard : StoryboardRow) (w : World) :
  store_sound env ->
  first_by st_ID (fun r => key_is storyboardID (st_ID r)) (storyboards (db w))
    = Ok storyboard ->
  let w' := snd (UpdateStoryboardCharacters env storyboardID characterIDs w) in
  fst (UpdateStoryboardCharacters env storyboardID characterIDs w) = Ok tt /\
  loadStoryboard storyboardID (db w') = Ok (storyboard, charactersIn characterIDs (db w)) /\
  otherStoryboards (st_ID storyboard) (storyboard_characters (db w'))
    = otherStoryboards (st_ID storyboard) (storyboard_characters (db w)).
Proof.
  intros Hst Hfound. cbv zeta.
  assert (Hrun : exists w',
    UpdateStoryboardCharacters env storyboardID characterIDs w = (Ok tt, w') /\
    storyboards (db w') = storyboards (db w) /\
    characters (db w') = characters (db w) /\
    storyboard_characters (db w') =
      (otherStoryboards (st_ID storyboard) (storyboard_characters (db w))
       ++ map (fun c => (st_ID storyboard, ch_ID c))
            (charactersIn characterIDs (db w)))%list).
  { unfold UpdateStoryboardCharacters, try_bind, query, exec.
    rewrite bind_run. rewrite stmt_sound by apply Hst. cbn [fst snd]. rewrite Hfound.
    rewrite bind_run. rewrite stmt_sound by apply Hst. cbn [fst snd].
    rewrite bind_run.
    destruct (0 <? len characterIDs) eqn:Eids.
    - rewrite bind_run. rewrite stmt_sound by apply Hst. cbn [fst snd].
      rewrite bind_run. rewrite stmt_sound by apply Hst. cbn [fst snd].
      unfold bind, log, ret. cbn [fst snd]. eexists. split; [reflexivity|].
      cbn. auto.
    - unfold bind, log, ret. cbn [fst snd]. eexists. split; [reflexivity|].
      cbn. split; [reflexivity|]. split; [reflexivity|].
      assert (characterIDs = []) as ->.
      { destruct characterIDs; [reflexivity|]. unfold len in Eids. simpl in Eids.
        apply Z.ltb_ge in Eids. lia. }
      unfold charactersIn, in_ids. cbn [existsb].
      assert (Hnone : forall cs : list Character,
                List.filter (fun _ => false) cs = [])
        by (intros cs; induction cs; auto).
      rewrite Hnone, app_nil_r. reflexivity. }
  destruct Hrun as (w' & -> & Hsb & Hch & Hjoin). cbn [fst snd].
  split; [reflexivity|]. split.
  - unfold loadStoryboard. rewrite Hsb, Hfound. cbn [rbind]. rewrite Hch, Hjoin.
    f_equal. f_equal. rewrite List.filter_app.
    unfold otherStoryboards. rewrite filter_filter_neg. cbn [app].
    assert (Hmine : forall cs : list Character,
      map snd (List.filter (fun p => fst p =? st_ID storyboard)
                 (map (fun c => (st_ID storyboard, ch_ID c)) cs)) = map ch_ID cs).
    { intros cs. induction cs as [|c cs IH]; [reflexivity|].
      cbn [map List.filter fst]. rewrite Z.eqb_refl. cbn [map snd]. f_equal. exact IH. }
    rewrite Hmine. unfold charactersIn.
    apply filter_ext_in'. intros c Hc. apply in_ids_map_filter, Hc.
  - rewrite Hjoin. unfold otherStoryboards. rewrite List.filter_app.
    assert (Hidem : forall rows : list (Z * Z),
      List.filter (fun p => negb (fst p =? st_ID storyboard))
        (List.filter (fun p => negb (fst p =? st_ID storyboard)) rows)
      = List.filter (fun p => negb (fst p =? st_ID storyboard)) rows).
    { intros rows. induction rows as [|p rows IH]; [reflexivity|].
      cbn [List.filter]. destruct (fst p =? st_ID storyboard) eqn:E; cbn [negb];
        [exact IH|]. cbn [List.filter]. rewrite E. cbn [negb]. f_equal. exact IH. }
    rewrite Hidem.
    assert (Hnone : forall cs : list Character,
      List.filter (fun p => negb (fst p =? st_ID storyboard))
        (map (fun c => (st_ID storyboard, ch_ID c)) cs) = []).
    { intros cs. induction cs as [|c cs IH]; [reflexivity|].
      cbn [map List.filter fst]. rewrite Z.eqb_refl. exact IH. }
    rewrite Hnone, app_nil_r. reflexivity.
Qed.

(** Storyboard 1 of the fixture had character 3; it is given 4 and the
    unknown 9. *)
Lemma UpdateStoryboardCharacters_sets_the_cast_witness :
  map ch_ID (charactersIn [4; 9] castDB) = [4] /\
  loadStoryboard "1"
    (db (snd (UpdateStoryboardCharacters baseEnv "1" [4; 9] (newWorld demoTasks castDB))))
    = Ok (demoRow 1 1, charactersIn [4; 9] castDB).
Proof.
  split; [reflexivity|].
  exact (proj1 (proj2 (UpdateStoryboardCharacters_sets_the_cast baseEnv "1" [4; 9]
                         (demoRow 1 1) (newWorld demoTasks castDB)
                         (fun n => eq_refl) eq_refl))).
Defined.

Lemma stmt_fault {A} env (q : DB -> Result A * DB) w :
  store_fault env (stmts w) = true ->
  stmt env q w = (Err "store: statement failed", with_stmts (S (stmts w)) w).
Proof. intros H. unfold stmt. rewrite H. reflexivity. Qed.

(** X14.  The update is not atomic.  When the store runs the lookup and the
    clearing of the old join rows and then fails to load the characters,
    [UpdateStoryboardCharacters] returns that error and the storyboard is
    left without any character: the rows it had are gone. *)
Theorem UpdateStoryboardCharacters_can_lose_the_cast
    (env : Env) (storyboardID : string) (characterIDs : list Z)
    (storyboard : StoryboardRow) (w : World) :
  store_fault env (stmts w) = false ->
  store_fault env (S (stmts w)) = false ->
  store_fault env (S (S (stmts w))) = true ->
  first_by st_ID (fun r => key_is storyboardID (st_ID r)) (storyboards (db w))
    = Ok storyboard ->
  characterIDs <> [] ->
  let w' := snd (UpdateStoryboardCharacters env storyboardID characterIDs w) in
  fst (UpdateStoryboardCharacters env storyboardID characterIDs w)
    = Err "failed to find characters: store: statement failed" /\
  storyboard_characters (db w')
    = otherStoryboards (st_ID storyboard) (storyboard_characters (db w)) /\
  loadStoryboard storyboardID (db w') = Ok (storyboard, []).
Proof.
  intros H0 H1 H2 Hfound Hne. cbv zeta.
  assert (Hids : (0 <? len characterIDs) = true).
  { destruct characterIDs; [congruence|]. unfold len. apply Z.ltb_lt.
    cbn [length]. lia. }
  assert (Hrun : exists w',
    UpdateStoryboardCharacters env storyboardID characterIDs w
      = (Err "failed to find characters: store: statement failed", w') /\
    storyboards (db w') = storyboards (db w) /\
    characters (db w') = characters (db w) /\
    storyboard_characters (db w')
      = otherStoryboards (st_ID storyboard) (storyboard_characters (db w))).
  { unfold UpdateStoryboardCharacters, try_bind, query, exec.
    rewrite bind_run. rewrite stmt_sound by exact H0. cbn [fst snd]. rewrite Hfound.
    rewrite bind_run. rewrite stmt_sound by exact H1. cbn [fst snd].
    rewrite bind_run. rewrite Hids. rewrite bind_run.
    rewrite stmt_fault by exact H2. cbn [fst snd].
    unfold bind, log, ret. cbn [fst snd]. eexists. split; [reflexivity|]. cbn. auto. }
  destruct Hrun as (w' & -> & Hsb & Hch & Hjoin). cbn [fst snd].
  split; [reflexivity|]. split; [exact Hjoin|].
  unfold loadStoryboard. rewrite Hsb, Hfound. cbn [rbind]. rewrite Hjoin.
  unfold otherStoryboards. rewrite filter_filter_neg. cbn [map].
  f_equal. f_equal. unfold in_ids. cbn [existsb].
  generalize (characters (db w')). clear.
  intros cs. induction cs as [|c cs IH]; [reflexivity | exact IH].
Qed.

(** The third statement fails on the fixture: storyboard 1 had character 3
    and has none. *)
Lemma UpdateStoryboardCharacters_can_lose_the_cast_witness :
  loadStoryboard "1" castDB = Ok (demoRow 1 1, [demoHero]) /\
  loadStoryboard "1"
    (db (snd (UpdateStoryboardCharacters (with_store_fault (fun n => Nat.eqb n 2) baseEnv)
                "1" [4] (newWorld demoTasks castDB))))
    = Ok (demoRow 1 1, []).
Proof.
  split; [reflexivity|].
  refine (proj2 (proj2 (UpdateStoryboardCharacters_can_lose_the_cast
                          (with_store_fault (fun n => Nat.eqb n 2) baseEnv) "1" [4]
                          (demoRow 1 1) (newWorld demoTasks castDB)
                          eq_refl eq_refl eq_refl eq_refl _))).
  discriminate.
Defined.

(** ** What the logs show of a URL *)

Lemma length_app_string (s t : string) :
  String.length (s +:+ t) = (String.length s + String.length t)%nat.
Proof.
  induction s as [|c s IH]; [reflexivity|].
  change (S (String.length (s +:+ t)) = S (String.length s + String.length t)).
  rewrite IH. reflexivity.
Qed.

Lemma length_substring_0 (n : nat) (s : string) :
  (n <= String.length s)%nat -> String.length (substring 0 n s) = n.
Proof.
  revert n. induction s as [|c s IH]; intros n H.
  - cbn [String.length] in H. assert (n = 0%nat) as -> by lia. reflexivity.
  - destruct n as [|n]; [reflexivity|]. cbn [String.length] in H.
    change (S (String.length (substring 0 n s)) = S n).
    rewrite IH; [reflexivity | lia].
Qed.

Lemma substring_0_0 (s : string) : substring 0 0 s = "".
Proof. destruct s; reflexivity. Qed.

Lemma substring_0_app (n m : nat) (s t : string) :
  (n <= m <= String.length s)%nat ->
  substring 0 n (substring 0 m s +:+ t) = substring 0 n s.
Proof.
  revert n m. induction s as [|c s IH]; intros n m H.
  - cbn [String.length] in H. assert (n = 0%nat) as -> by lia.
    rewrite !substring_0_0. reflexivity.
  - destruct n as [|n]; [rewrite !substring_0_0; reflexivity|].
    destruct m as [|m]; [lia|]. cbn [String.length] in H.
    change (String c (substring 0 n (substring 0 m s +:+ t))
            = String c (substring 0 n s)).
    rewrite IH; [reflexivity | lia].
Qed.

Lemma prefix_substring_app (p : string) (n : nat) (s t : string) :
  (String.length p <= n <= String.length s)%nat ->
  String.prefix p (substring 0 n s +:+ t) = String.prefix p s.
Proof.
  revert n s. induction p as [|a p IH]; intros n s H.
  - destruct (substring 0 n s +:+ t), s; reflexivity.
  - cbn [String.length] in H.
    destruct s as [|c s]; [cbn [String.length] in H; lia|].
    destruct n as [|n]; [lia|]. cbn [String.length] in H.
    change (String.prefix (String a p) (String c (substring 0 n s +:+ t))
            = String.prefix (String a p) (String c s)).
    cbn [String.prefix]. destruct (ascii_dec a c); [apply IH; lia | reflexivity].
Qed.

Lemma truncateImageURL_cases (url : string) :
  (String.prefix "data:" url = true /\ (50 < String.length url)%nat /\
   truncateImageURL url = substring 0 50 url +:+ "...[base64 data]") \/
  (String.prefix "data:" url = false /\ (100 < String.length url)%nat /\
   truncateImageURL url = substring 0 100 url +:+ "...") \/
  (((String.length url <= 50)%nat \/
    (String.prefix "data:" url = false /\ (String.length url <= 100)%nat)) /\
   truncateImageURL url = url).
Proof.
  unfold truncateImageURL.
  destruct (String.eqb url "") eqn:Eempty.
  { apply String.eqb_eq in Eempty. subst url. right. right. cbn. split; [left; lia | reflexivity]. }
  destruct (String.prefix "data:" url) eqn:Edata; cbn [andb].
  - destruct (50 <? Z.of_nat (String.length url)) eqn:E50.
    + apply Z.ltb_lt in E50. left. split; [reflexivity|]. split; [lia | reflexivity].
    + apply Z.ltb_ge in E50.
      assert (E100 : (100 <? Z.of_nat (String.length url)) = false)
        by (apply Z.ltb_ge; lia).
      rewrite E100. right. right. split; [left; lia | reflexivity].
  - destruct (100 <? Z.of_nat (String.length url)) eqn:E100.
    + apply Z.ltb_lt in E100. right. left. split; [reflexivity|].
      split; [lia | reflexivity].
    + apply Z.ltb_ge in E100. right. right. split; [right; split; [reflexivity | lia]|].
      reflexivity.
Qed.

(** X15.  [truncateImageURL] never returns more than 103 bytes; it returns a URL
    of at most 50 bytes as it is; a [data:] URI longer than that is cut to
    its first 50 bytes and a marker, 66 bytes in all; the first 50 bytes
    of the result are always those of the URL; and truncating twice is
    truncating once. *)
Theorem truncateImageURL_is_short (url : string) :
  (String.length (truncateImageURL url) <= 103)%nat /\
  ((String.length url <= 50)%nat -> truncateImageURL url = url) /\
  (String.prefix "data:" url = true -> (50 < String.length url)%nat ->
   truncateImageURL url = substring 0 50 url +:+ "...[base64 data]" /\
   String.length (truncateImageURL url) = 66%nat) /\
  substring 0 50 (truncateImageURL url) = substring 0 50 url /\
  truncateImageURL (truncateImageURL url) = truncateImageURL url.
Proof.
  destruct (truncateImageURL_cases url)
    as [(Hd & Hl & Ht)|[(Hd & Hl & Ht)|(Hc & Ht)]]; rewrite Ht.
  - assert (Hlen : String.length (substring 0 50 url +:+ "...[base64 data]") = 66%nat).
    { rewrite length_app_string, length_substring_0 by lia. reflexivity. }
    assert (Hpre : String.prefix "data:" (substring 0 50 url +:+ "...[base64 data]")
                   = true).
    { rewrite (prefix_substring_app "data:" 50) by (cbn [String.length]; lia).
      exact Hd. }
    split; [lia|]. split; [lia|]. split; [auto|]. split.
    + apply (substring_0_app 50 50). lia.
    + destruct (truncateImageURL_cases (substring 0 50 url +:+ "...[base64 data]"))
        as [(_ & _ & Ht')|[(Hd' & _)|([Hl'|[Hd' _]] & _)]];
        [|congruence|lia|congruence].
      rewrite Ht'. rewrite (substring_0_app 50 50) by lia. reflexivity.
  - assert (Hlen : String.length (substring 0 100 url +:+ "...") = 103%nat).
    { rewrite length_app_string, length_substring_0 by lia. reflexivity. }
    assert (Hpre : String.prefix "data:" (substring 0 100 url +:+ "...") = false).
    { rewrite (prefix_substring_app "data:" 100) by (cbn [String.length]; lia).
      exact Hd. }
    split; [lia|]. split; [lia|]. split; [congruence|]. split.
    + apply (substring_0_app 50 100). lia.
    + destruct (truncateImageURL_cases (substring 0 100 url +:+ "..."))
        as [(Hd' & _)|[(_ & _ & Ht')|([Hl'|[_ Hl']] & _)]];
        [congruence| |lia|lia].
      rewrite Ht'. rewrite (substring_0_app 100 100) by lia. reflexivity.
  - split; [destruct Hc as [H|[_ H]]; lia|]. split; [reflexivity|]. split.
    + intros Hd Hl. destruct Hc as [H|[H _]]; [lia | congruence].
    + split; [reflexivity | exact Ht].
Qed.

(** ** Unique backgrounds *)

Lemma filedUnder_key scene k :
  filedUnder k scene = true <-> placeKey scene = Some k.
Proof.
  unfold filedUnder. destruct (placeKey scene) as [k'|]; split; intros H;
    try discriminate.
  - apply String.eqb_eq in H. congruence.
  - injection H as ->. apply String.eqb_refl.
Qed.

(** What the map holds under [k] after the shots [scenes]. *)
Lemma uniqueBackgroundMap_lookup (scenes : list StoryboardRow) (k : string) :
  len scenes <= int_max ->
  uniqueBackgroundMap scenes !! k =
    match List.filter (filedUnder k) scenes with
    | [] => None
    | first :: rest => Some (backgroundOf first (first :: rest))
    end.
Proof.
  induction scenes as [|s P IH] using rev_ind; intros Hlen.
  - reflexivity.
  - assert (HlenP : len P <= int_max).
    { unfold len in *. rewrite length_app in Hlen. cbn [length] in Hlen. lia. }
    specialize (IH HlenP).
    unfold uniqueBackgroundMap in *. rewrite fold_left_app. cbn [fold_left].
    set (m := fold_left addUniqueBackground P ∅) in *.
    rewrite List.filter_app. cbn [List.filter].
    unfold addUniqueBackground.
    destruct (filedUnder k s) eqn:Ek.
    + apply filedUnder_key in Ek. unfold placeKey in Ek.
      destruct (st_Location s) as [location|] eqn:El; [|discriminate].
      destruct (st_Time s) as [time|] eqn:Et; [|discriminate].
      injection Ek as Ek. cbv zeta. rewrite Ek.
      rewrite IH.
      destruct (List.filter (filedUnder k) P) as [|first rest] eqn:Eg.
      * rewrite lookup_insert_eq. cbn [app]. unfold backgroundOf.
        rewrite El, Et. reflexivity.
      * rewrite lookup_insert_eq. cbn [app]. unfold backgroundOf.
        cbn [bg_Location bg_Time bg_Atmosphere bg_Prompt bg_StoryboardNumbers
             bg_SceneIDs bg_StoryboardCount].
        f_equal. f_equal.
        -- change (first :: rest ++ [s])%list with ((first :: rest) ++ [s])%list.
           rewrite map_app. reflexivity.
        -- unfold int_add. rewrite wrap_int_small.
           ++ unfold len. change (first :: rest ++ [s])%list
                with ((first :: rest) ++ [s])%list.
              rewrite length_app. cbn [length]. lia.
           ++ assert (Hle : (length (List.filter (filedUnder k) P) <= length P)%nat)
                by apply filter_length_all.
              rewrite Eg in Hle. unfold len in *. rewrite length_app in Hlen.
              cbn [length] in *. unfold int_min, int_max in *. lia.
    + rewrite app_nil_r.
      destruct (st_Location s) as [location|] eqn:El; [|exact IH].
      destruct (st_Time s) as [time|] eqn:Et; [|exact IH].
      cbv zeta.
      assert (Hne : location +:+ "|" +:+ time <> k).
      { intros H. unfold filedUnder, placeKey in Ek. rewrite El, Et, H in Ek.
        rewrite String.eqb_refl in Ek. discriminate. }
      destruct (m !! (location +:+ "|" +:+ time));
        rewrite lookup_insert_ne by exact Hne; exact IH.
Qed.

Lemma filter_head_in {A} (p : A -> bool) (l : list A) first rest :
  List.filter p l = first :: rest -> In first l /\ p first = true.
Proof.
  intros H. apply List.filter_In. rewrite H. left. reflexivity.
Qed.

(** X16.  For every slice [extractUniqueBackgrounds] can return (whatever the
    order Go ranges over its map in): each background stands for the shots
    filed under one key, the location, a bar and the time; it carries the
    location, the time and the image prompt of the first of them, the ids
    of all of them in the order of the shots, and their number as its
    count.  No two backgrounds have the same key, every shot that has a
    location and a time is in the background of its key, and the shots that
    lack either are in none. *)
Theorem extractUniqueBackgrounds_groups_by_key
    (scenes : list StoryboardRow) (backgrounds : list BackgroundInfo) :
  len scenes <= int_max ->
  extractUniqueBackgrounds scenes backgrounds ->
  (forall bg, bg ∈ backgrounds ->
     exists first rest,
       List.filter (filedUnder (backgroundKey bg)) scenes = first :: rest /\
       bg = backgroundOf first (first :: rest) /\
       st_Location first = Some (bg_Location bg) /\
       st_Time first = Some (bg_Time bg)) /\
  NoDup (map backgroundKey backgrounds) /\
  (forall scene k, scene ∈ scenes -> placeKey scene = Some k ->
     exists bg, bg ∈ backgrounds /\ backgroundKey bg = k /\
                st_ID scene ∈ bg_SceneIDs bg).
Proof.
  intros Hlen Hperm. unfold extractUniqueBackgrounds in Hperm.
  set (m := uniqueBackgroundMap scenes) in *.
  assert (Hval : forall k bg, m !! k = Some bg ->
            exists first rest,
              List.filter (filedUnder k) scenes = first :: rest /\
              bg = backgroundOf first (first :: rest) /\
              st_Location first = Some (bg_Location bg) /\
              st_Time first = Some (bg_Time bg) /\
              backgroundKey bg = k).
  { intros k bg Hk. unfold m in Hk. rewrite uniqueBackgroundMap_lookup in Hk by exact Hlen.
    destruct (List.filter (filedUnder k) scenes) as [|first rest] eqn:Eg; [discriminate|].
    injection Hk as <-. exists first, rest. split; [reflexivity|]. split; [reflexivity|].
    destruct (filter_head_in _ _ _ _ Eg) as [_ Hfirst].
    apply filedUnder_key in Hfirst. unfold placeKey in Hfirst.
    unfold backgroundOf, backgroundKey. cbn [bg_Location bg_Time].
    destruct (st_Location first) as [location|]; [|discriminate].
    destruct (st_Time first) as [time|]; [|discriminate].
    injection Hfirst as <-. cbn [default]. auto. }
  split; [|split].
  - intros bg Hbg. rewrite Hperm in Hbg.
    apply list_elem_of_fmap in Hbg as ([k bg'] & -> & Hin).
    apply elem_of_map_to_list in Hin. cbn [snd].
    destruct (Hval k bg' Hin) as (first & rest & Hg & Hbg & Hl & Ht & Hkey).
    exists first, rest. rewrite Hkey. auto.
  - rewrite Hperm.
    assert (Heq : map backgroundKey (map snd (map_to_list m)) = map fst (map_to_list m)).
    { rewrite map_map. apply map_ext_in. intros [k bg] Hin. cbn [fst snd].
      apply list_elem_of_In, elem_of_map_to_list in Hin.
      destruct (Hval k bg Hin) as (_ & _ & _ & _ & _ & _ & Hkey). exact Hkey. }
    rewrite Heq. apply NoDup_fst_map_to_list.
  - intros scene k Hin Hk.
    assert (Hg : In scene (List.filter (filedUnder k) scenes)).
    { apply List.filter_In. split; [apply list_elem_of_In, Hin|].
      apply filedUnder_key, Hk. }
    pose proof (uniqueBackgroundMap_lookup scenes k Hlen) as Hlook. fold m in Hlook.
    destruct (List.filter (filedUnder k) scenes) as [|first rest] eqn:Eg; [destruct Hg|].
    exists (backgroundOf first (first :: rest)).
    destruct (Hval k _ Hlook) as (_ & _ & _ & _ & _ & _ & Hkey).
    split; [|split; [exact Hkey|]].
    + rewrite Hperm. apply list_elem_of_fmap.
      exists (k, backgroundOf first (first :: rest)). split; [reflexivity|].
      apply elem_of_map_to_list, Hlook.
    + unfold backgroundOf. cbn [bg_SceneIDs]. apply list_elem_of_fmap.
      exists scene. split; [reflexivity | apply list_elem_of_In, Hg].
Qed.

Lemma uniqueBackgroundMap_same_key (s1 s2 : StoryboardRow) (k : string) :
  placeKey s1 = Some k -> placeKey s2 = Some k ->
  uniqueBackgroundMap [s1; s2] = {[ k := backgroundOf s1 [s1; s2] ]}.
Proof.
  unfold placeKey. intros H1 H2.
  destruct (st_Location s1) as [l1|] eqn:El1; [|discriminate].
  destruct (st_Time s1) as [t1|] eqn:Et1; [|discriminate].
  destruct (st_Location s2) as [l2|] eqn:El2; [|discriminate].
  destruct (st_Time s2) as [t2|] eqn:Et2; [|discriminate].
  injection H1 as H1. injection H2 as H2.
  unfold uniqueBackgroundMap. cbn [fold_left]. unfold addUniqueBackground at 2.
  rewrite El1, Et1. cbv zeta. rewrite lookup_empty, H1.
  unfold addUniqueBackground. rewrite El2, Et2. cbv zeta. rewrite H2.
  rewrite lookup_insert_eq, insert_insert_eq, insert_empty.
  unfold backgroundOf. rewrite El1, Et1. reflexivity.
Qed.

(** Two shots at the pier at dawn make one background. *)
Lemma extractUniqueBackgrounds_groups_by_key_witness :
  exists first rest,
    List.filter
      (filedUnder (backgroundKey (backgroundOf (shotAt 1 "pier" "dawn")
                                    [shotAt 1 "pier" "dawn"; shotAt 3 "pier" "dawn"])))
      [shotAt 1 "pier" "dawn"; shotAt 3 "pier" "dawn"] = first :: rest /\
    backgroundOf (shotAt 1 "pier" "dawn")
      [shotAt 1 "pier" "dawn"; shotAt 3 "pier" "dawn"]
      = backgroundOf first (first :: rest) /\
    st_Location first = Some "pier" /\ st_Time first = Some "dawn".
Proof.
  refine (proj1 (extractUniqueBackgrounds_groups_by_key
                   [shotAt 1 "pier" "dawn"; shotAt 3 "pier" "dawn"]
                   [backgroundOf (shotAt 1 "pier" "dawn")
                      [shotAt 1 "pier" "dawn"; shotAt 3 "pier" "dawn"]] _ _) _ _).
  - vm_compute. discriminate.
  - unfold extractUniqueBackgrounds.
    rewrite (uniqueBackgroundMap_same_key (shotAt 1 "pier" "dawn")
               (shotAt 3 "pier" "dawn") "pier|dawn" eq_refl eq_refl).
    rewrite map_to_list_singleton. reflexivity.
  - apply list_elem_of_In. left. reflexivity.
Defined.

(** X17.  The key is the location, a bar and the time run together, so two
    shots in different places are taken for one background whenever their
    keys read the same: the background has the first shot's location and
    time, and counts both shots. *)
Theorem extractUniqueBackgrounds_merges_equal_keys
    (s1 s2 : StoryboardRow) (k : string) (backgrounds : list BackgroundInfo) :
  placeKey s1 = Some k -> placeKey s2 = Some k ->
  extractUniqueBackgrounds [s1; s2] backgrounds ->
  backgrounds = [backgroundOf s1 [s1; s2]] /\
  bg_SceneIDs (backgroundOf s1 [s1; s2]) = [st_ID s1; st_ID s2] /\
  bg_StoryboardCount (backgroundOf s1 [s1; s2]) = 2.
Proof.
  intros H1 H2 Hperm. unfold extractUniqueBackgrounds in Hperm.
  rewrite (uniqueBackgroundMap_same_key s1 s2 k H1 H2) in Hperm.
  rewrite map_to_list_singleton in Hperm. cbn [map snd] in Hperm.
  apply Permutation_sym, Permutation_singleton_l in Hperm.
  split; [symmetry; exact Hperm | split; reflexivity].
Qed.

(** A pier called a|b at c, and a pier called a at b|c. *)
Lemma extractUniqueBackgrounds_merges_equal_keys_witness :
  (st_Location (shotAt 1 "a|b" "c"), st_Time (shotAt 1 "a|b" "c"))
    <> (st_Location (shotAt 2 "a" "b|c"), st_Time (shotAt 2 "a" "b|c")) /\
  bg_SceneIDs (backgroundOf (shotAt 1 "a|b" "c")
                 [shotAt 1 "a|b" "c"; shotAt 2 "a" "b|c"]) = [1; 2] /\
  bg_StoryboardCount (backgroundOf (shotAt 1 "a|b" "c")
                        [shotAt 1 "a|b" "c"; shotAt 2 "a" "b|c"]) = 2.
Proof.
  split; [discriminate|].
  refine (proj2 (extractUniqueBackgrounds_merges_equal_keys (shotAt 1 "a|b" "c")
                   (shotAt 2 "a" "b|c") "a|b|c"
                   [backgroundOf (shotAt 1 "a|b" "c")
                      [shotAt 1 "a|b" "c"; shotAt 2 "a" "b|c"]] eq_refl eq_refl _)).
  unfold extractUniqueBackgrounds.
  rewrite (uniqueBackgroundMap_same_key (shotAt 1 "a|b" "c") (shotAt 2 "a" "b|c")
             "a|b|c" eq_refl eq_refl).
  rewrite map_to_list_singleton. reflexivity.
Defined.

(** ** The prompts of a shot *)

Lemma string_app_nil_r (s : string) : s +:+ "" = s.
Proof.
  induction s as [|c s IH]; [reflexivity|].
  change (String c (s +:+ "") = String c s). rewrite IH. reflexivity.
Qed.

Lemma string_app_assoc (a b c : string) : (a +:+ b) +:+ c = a +:+ (b +:+ c).
Proof.
  induction a as [|x a IH]; [reflexivity|].
  change (String x ((a +:+ b) +:+ c) = String x (a +:+ (b +:+ c))).
  rewrite IH. reflexivity.
Qed.

(** [Join] with one more part at the end. *)
Lemma Join_snoc (parts : list string) (x sep : string) :
  Join (parts ++ [x]) sep =
    match parts with
    | [] => x
    | _ :: _ => Join parts sep +:+ sep +:+ x
    end.
Proof.
  unfold Join. induction parts as [|a ps IH]; [reflexivity|].
  destruct ps as [|b ps]; [reflexivity|].
  change (a +:+ sep +:+ String.concat sep ((b :: ps) ++ [x])
          = (a +:+ sep +:+ String.concat sep (b :: ps)) +:+ sep +:+ x).
  rewrite IH, !string_app_assoc. reflexivity.
Qed.

Lemma Join_ends_with (parts : list string) (x sep : string) :
  exists before, Join (parts ++ [x]) sep = before +:+ x.
Proof.
  rewrite Join_snoc. destruct parts as [|a ps].
  - exists "". reflexivity.
  - exists (Join (a :: ps) sep +:+ sep). symmetry. apply string_app_assoc.
Qed.

Lemma Join_tagged (parts : list string) (x sep fallback : string) :
  (if 0 <? len (parts ++ [x]) then Join (parts ++ [x]) sep else fallback)
    = Join (parts ++ [x]) sep.
Proof.
  destruct (0 <? len (parts ++ [x])) eqn:E; [reflexivity|].
  apply Z.ltb_ge in E. unfold len in E. rewrite length_app in E.
  cbn [length] in E. lia.
Qed.

(** X18.  The image prompt of a shot always ends with the style tag, so the
    fallback text [anime scene] of [generateImagePrompt] is never returned;
    a shot without location, action and emotion gets the tag alone. *)
Theorem generateImagePrompt_always_ends_with_the_style (sb : Storyboard) :
  (exists before,
     Prompts.generateImagePrompt sb = before +:+ "anime style, first frame") /\
  Prompts.generateImagePrompt sb <> "anime scene" /\
  (sb_Location sb = "" -> sb_Action sb = "" -> sb_Emotion sb = "" ->
   Prompts.generateImagePrompt sb = "anime style, first frame").
Proof.
  assert (Hends : exists before,
            Prompts.generateImagePrompt sb = before +:+ "anime style, first frame").
  { unfold Prompts.generateImagePrompt. cbv zeta.
    rewrite Join_tagged. apply Join_ends_with. }
  split; [exact Hends|]. split.
  - destruct Hends as (before & ->). intros H.
    apply (f_equal String.length) in H. rewrite length_app_string in H.
    cbn [String.length] in H. lia.
  - intros Hl Ha He. unfold Prompts.generateImagePrompt. cbv zeta.
    rewrite Hl, Ha, He. reflexivity.
Qed.

Lemma list_ascii_of_string_app (s t : string) :
  list_ascii_of_string (s +:+ t)
    = (list_ascii_of_string s ++ list_ascii_of_string t)%list.
Proof.
  induction s as [|c s IH]; [reflexivity|].
  change (c :: list_ascii_of_string (s +:+ t)
          = c :: (list_ascii_of_string s ++ list_ascii_of_string t)%list).
  rewrite IH. reflexivity.
Qed.

(** X19.  The video prompt of a shot always ends with the configured style and
    video ratio, in that order, so the fallback text [Anime style video
    scene] of [generateVideoPrompt] is never returned. *)
Theorem generateVideoPrompt_always_ends_with_style_and_ratio
    (style videoRatio : string) (sb : Storyboard) :
  (exists before,
     Prompts.generateVideoPrompt style videoRatio sb
       = before +:+ "Style: " +:+ style +:+ ". " +:+ "=VideoRatio: " +:+ videoRatio) /\
  Prompts.generateVideoPrompt style videoRatio sb <> "Anime style video scene".
Proof.
  assert (Hends : exists before,
            Prompts.generateVideoPrompt style videoRatio sb
              = before +:+ "Style: " +:+ style +:+ ". " +:+ "=VideoRatio: "
                  +:+ videoRatio).
  { unfold Prompts.generateVideoPrompt. cbv zeta.
    rewrite Join_tagged.
    match goal with
    | |- context [Join ((?parts ++ [?a]) ++ [?b]) ?sep] =>
        destruct (Join_ends_with parts a sep) as (before & Hbefore);
        rewrite (Join_snoc (parts ++ [a]) b sep);
        destruct (parts ++ [a])%list as [|p ps] eqn:Eparts;
          [destruct parts; discriminate|];
        rewrite Hbefore
    end.
    exists before. rewrite !string_app_assoc. reflexivity. }
  split; [exact Hends|].
  destruct Hends as (before & ->). intros H.
  apply (f_equal list_ascii_of_string) in H.
  assert (Hin : In "="%char (list_ascii_of_string "Anime style video scene")).
  { rewrite <- H, !list_ascii_of_string_app.
    apply in_or_app. right. apply in_or_app. right. apply in_or_app. right.
    apply in_or_app. right. apply in_or_app. left. left. reflexivity. }
  cbn in Hin. repeat (destruct Hin as [Hin|Hin]; [discriminate|]). exact Hin.
Qed.

(** *** The initial pose is a piece of the action *)

Lemma substring_split (n : nat) (s : string) :
  s = substring 0 n s +:+ substring n (String.length s - n) s.
Proof.
  revert n. induction s as [|c s IH]; intros n.
  - destruct n; reflexivity.
  - destruct n as [|n].
    + rewrite substring_0_0. cbn [String.length Nat.sub].
      change (String c s = String c (substring 0 (String.length s) s)).
      f_equal. clear. induction s as [|c s IH]; [reflexivity|].
      cbn [String.length]. change (String c s = String c (substring 0 (String.length s) s)).
      f_equal. exact IH.
    + cbn [String.length Nat.sub].
      change (String c s
              = String c (substring 0 n s +:+ substring n (String.length s - n) s)).
      f_equal. apply IH.
Qed.

Lemma trimRightWhile_prefix (f : Z -> bool) (fuel : nat) (s : string) :
  exists after, s = trimRightWhile f fuel s +:+ after.
Proof.
  revert s. induction fuel as [|fuel IH]; intros s.
  - exists "". symmetry. apply string_app_nil_r.
  - cbn [trimRightWhile].
    destruct (DecodeLastRuneInString s) as [r [|size]].
    + exists "". symmetry. apply string_app_nil_r.
    + destruct (f r); [|exists ""; symmetry; apply string_app_nil_r].
      destruct (IH (substring 0 (String.length s - S size) s)) as (after & Hafter).
      exists (after +:+ substring (String.length s - S size)
                          (String.length s - (String.length s - S size)) s).
      rewrite <- string_app_assoc, <- Hafter. apply substring_split.
Qed.

Lemma trimLeftWhile_suffix (f : Z -> bool) (fuel : nat) (s : string) :
  exists before, s = before +:+ trimLeftWhile f fuel s.
Proof.
  revert s. induction fuel as [|fuel IH]; intros s.
  - exists "". reflexivity.
  - cbn [trimLeftWhile].
    destruct (DecodeRuneInString s) as [r [|size]].
    + exists "". reflexivity.
    + destruct (f r); [|exists ""; reflexivity].
      destruct (IH (substring (S size) (String.length s - S size) s))
        as (before & Hbefore).
      exists (substring 0 (S size) s +:+ before).
      rewrite string_app_assoc, <- Hbefore. apply substring_split.
Qed.

Lemma cutBeforeProcess_prefix (words : list string) (s : string) :
  exists after, s = cutBeforeProcess words s +:+ after.
Proof.
  induction words as [|word rest IH].
  - exists "". symmetry. apply string_app_nil_r.
  - cbn [cutBeforeProcess]. destruct (0 <? Index s word); [|exact IH].
    eexists. apply substring_split.
Qed.

(** X20.  [extractInitialPose] only cuts: what it returns is a piece of the
    action, with nothing added and nothing changed inside. *)
Theorem extractInitialPose_is_a_piece_of_the_action (action : string) :
  exists before after, action = before +:+ extractInitialPose action +:+ after.
Proof.
  unfold extractInitialPose. cbv zeta.
  destruct (cutBeforeProcess_prefix processWords action) as (a1 & H1).
  set (cut := cutBeforeProcess processWords action) in *.
  assert (H2 : exists a2, cut = TrimRight cut "，。,. " +:+ a2).
  { unfold TrimRight. destruct (String.eqb cut "" || String.eqb "，。,. " "").
    - exists "". symmetry. apply string_app_nil_r.
    - apply trimRightWhile_prefix. }
  destruct H2 as (a2 & H2).
  set (trimmed := TrimRight cut "，。,. ") in *.
  unfold TrimSpace. cbv zeta.
  destruct (trimLeftWhile_suffix IsSpace (String.length trimmed) trimmed)
    as (before & H3).
  set (left := trimLeftWhile IsSpace (String.length trimmed) trimmed) in *.
  destruct (trimRightWhile_prefix IsSpace (String.length left) left) as (a3 & H4).
  exists before, (a3 +:+ a2 +:+ a1).
  rewrite H1 at 1. rewrite H2 at 1. rewrite H3 at 1. rewrite H4 at 1.
  rewrite !string_app_assoc. reflexivity.
Qed.

(** A run: the action is cut before 然后, the first word of the list found
    in it, although 慢慢 comes earlier in the text; the comma goes too. *)
Lemma extractInitialPose_demo :
  extractInitialPose "他慢慢站起，然后离开" = "他慢慢站起" /\
  extractInitialPose "  他站在门口。 " = "他站在门口" /\
  Prompts.generateImagePrompt
    (mkStoryboard 1 "" "" "" "night" "warehouse" None "" "他站在门口，然后慢慢走进房间"
       "" "" "" "calm" 9 "" "" [] false)
    = "warehouse, night, 他站在门口, calm, anime style, first frame".
Proof. repeat split; vm_compute; reflexivity. Qed.
